(** * FileTrace: share lifecycle, audit trail and cascade deletion

    A shallow embedding of the server's data layer (userShares.js, files.js,
    users.js, auditLogs.js), of the auditLogger middleware and of the share
    and file routes, over an explicit model of the MongoDB collections.

    Every [await] of the JavaScript source is one [Await] node of an
    [Async] computation, so the same definitions can be run to completion
    (one request after another) or interleaved at their await points (several
    requests in flight on the Node event loop). Calls to the database and to
    the object store can be rejected, which is how a statement throws. *)

From Stdlib Require Import List ZArith String Bool Arith Lia.
Import ListNotations.

Set Implicit Arguments.

(** ** Primitive data *)

(** A MongoDB ObjectId, kept abstract as a number. *)
Definition ObjectId := nat.

(** A JavaScript Date, as milliseconds since the epoch. *)
Definition Date := Z.

(** A route or function parameter that is meant to be an ObjectId: the
    string either passes [ObjectId.isValid] or it does not. The strings that
    pass are the 24 hexadecimal digits of an id, in either case:
    [WellFormed id] is the lower-case string that toString() gives, and
    [Respelled id n] is another string of the same id (with upper-case
    digits), the n-th of them. Both become the same ObjectId; as strings they
    differ. *)
Inductive IdParam :=
| WellFormed (id : ObjectId)
| Malformed
| Respelled (id : ObjectId) (spelling : nat).

(** new ObjectId(string), where the string is accepted. *)
Definition id_of (p : IdParam) : option ObjectId :=
  match p with
  | WellFormed id | Respelled id _ => Some id
  | Malformed => None
  end.

(** a === b for two strings that pass [ObjectId.isValid]. *)
Definition same_string (a b : IdParam) : bool :=
  match a, b with
  | WellFormed x, WellFormed y => x =? y
  | Respelled x i, Respelled y j => (x =? y) && (i =? j)
  | _, _ => false
  end.

(** A document field that can be missing, null or set (auditLogs.userId). *)
Inductive Field (A : Type) :=
| Missing
| Null
| Value (a : A).
Arguments Missing {A}.
Arguments Null {A}.

(** auditActionSchema *)
Inductive Action :=
| UPLOAD | DOWNLOAD | NAME_CHANGE | CATEGORY_CHANGE | DELETE
| SHARE_CREATED | SHARE_ACCESSED | EXPIRED_LINK_ATTEMPT
| SHARE_REVOKED | SHARES_REVOKED_ALL.

Definition Action_eqb (a b : Action) : bool :=
  match a, b with
  | UPLOAD, UPLOAD | DOWNLOAD, DOWNLOAD | NAME_CHANGE, NAME_CHANGE
  | CATEGORY_CHANGE, CATEGORY_CHANGE | DELETE, DELETE
  | SHARE_CREATED, SHARE_CREATED | SHARE_ACCESSED, SHARE_ACCESSED
  | EXPIRED_LINK_ATTEMPT, EXPIRED_LINK_ATTEMPT
  | SHARE_REVOKED, SHARE_REVOKED | SHARES_REVOKED_ALL, SHARES_REVOKED_ALL => true
  | _, _ => false
  end.

(** ** Documents of the five collections *)

Module User.
Record t := mk {
  _id : ObjectId;
  username : string;
  email : string }.
End User.

Module File.
Record t := mk {
  _id : ObjectId;
  filename : string;
  s3Key : string;
  description : option string;
  size : Z;
  mimetype : string;
  ownerId : ObjectId;
  accessCount : Z;
  lastAccessedAt : option Date;
  updatedAt : Date }.
End File.

Module ShareLink.
Record t := mk {
  _id : ObjectId;
  token : string;
  fileId : ObjectId;
  ownerId : ObjectId;
  expiresAt : option Date;
  maxAccessCount : option Z;
  accessCount : Z;
  isActive : bool;
  createdAt : Date;
  updatedAt : Date }.
End ShareLink.

Module UserShare.
Record t := mk {
  _id : ObjectId;
  fileId : ObjectId;
  ownerId : ObjectId;
  recipientId : ObjectId;
  expiresAt : option Date;
  maxAccessCount : option Z;
  accessCount : Z;
  isActive : bool;
  createdAt : Date;
  updatedAt : Date }.

Definition set_isActive (b : bool) (d : Date) (s : t) : t :=
  mk (_id s) (fileId s) (ownerId s) (recipientId s) (expiresAt s)
     (maxAccessCount s) (accessCount s) b (createdAt s) d.

Definition inc_accessCount (d : Date) (s : t) : t :=
  mk (_id s) (fileId s) (ownerId s) (recipientId s) (expiresAt s)
     (maxAccessCount s) (accessCount s + 1)%Z (isActive s) (createdAt s) d.
End UserShare.

(** A value of a structured detail payload. *)
Inductive Json :=
| JString (s : string)
| JNumber (n : Z)
| JNull.

Definition Details := list (string * Json).

Module AuditLog.
Record t := mk {
  _id : ObjectId;
  fileId : option ObjectId;          (* null for probes of unknown tokens *)
  action : Action;
  userId : Field ObjectId;
  username : option string;
  ipAddress : option string;
  location : option string;
  details : option Details;
  timestamp : Date }.

Definition anonymize (l : t) : t :=
  mk (_id l) (fileId l) (action l) Null (Some "[Deleted User]"%string)
     (ipAddress l) (location l) (details l) (timestamp l).
End AuditLog.

(** ** The database *)

Record Db := mkDb {
  users : list User.t;
  files : list File.t;
  shareLinks : list ShareLink.t;
  userShares : list UserShare.t;
  auditLogs : list AuditLog.t }.

Definition on_users (f : list User.t -> list User.t) (d : Db) : Db :=
  mkDb (f (users d)) (files d) (shareLinks d) (userShares d) (auditLogs d).
Definition on_files (f : list File.t -> list File.t) (d : Db) : Db :=
  mkDb (users d) (f (files d)) (shareLinks d) (userShares d) (auditLogs d).
Definition on_shareLinks (f : list ShareLink.t -> list ShareLink.t) (d : Db) : Db :=
  mkDb (users d) (files d) (f (shareLinks d)) (userShares d) (auditLogs d).
Definition on_userShares (f : list UserShare.t -> list UserShare.t) (d : Db) : Db :=
  mkDb (users d) (files d) (shareLinks d) (f (userShares d)) (auditLogs d).
Definition on_auditLogs (f : list AuditLog.t -> list AuditLog.t) (d : Db) : Db :=
  mkDb (users d) (files d) (shareLinks d) (userShares d) (f (auditLogs d)).

(** Collection operations of the MongoDB driver, on a collection kept in
    natural (insertion) order. *)
Module Collection.
Section Ops.
Variable A : Type.

Definition findOne (p : A -> bool) (l : list A) : option A := find p l.

Definition findMany (p : A -> bool) (l : list A) : list A := filter p l.

Definition insertOne (x : A) (l : list A) : list A := l ++ [x].

(** updateOne: the first matching document is rewritten. *)
Fixpoint updateOne (p : A -> bool) (f : A -> A) (l : list A) : list A :=
  match l with
  | [] => []
  | x :: r => if p x then f x :: r else x :: updateOne p f r
  end.

Definition updateMany (p : A -> bool) (f : A -> A) (l : list A) : list A :=
  map (fun x => if p x then f x else x) l.

(** deleteOne: the first matching document is removed. *)
Fixpoint deleteOne (p : A -> bool) (l : list A) : list A :=
  match l with
  | [] => []
  | x :: r => if p x then r else x :: deleteOne p r
  end.

Definition deleteMany (p : A -> bool) (l : list A) : list A :=
  filter (fun x => negb (p x)) l.

(** matchedCount / deletedCount of the many-document operations. *)
Definition countMatching (p : A -> bool) (l : list A) : nat :=
  List.length (filter p l).

(** matchedCount / deletedCount of the one-document operations. *)
Definition countFirst (p : A -> bool) (l : list A) : nat :=
  if existsb p l then 1 else 0.

(** .sort({ key: -1 }): descending by [key]; documents with equal keys keep
    their order. *)
Fixpoint insertDesc (key : A -> Z) (x : A) (l : list A) : list A :=
  match l with
  | [] => [x]
  | y :: r => if (key x >=? key y)%Z then x :: y :: r
              else y :: insertDesc key x r
  end.

Definition sortDesc (key : A -> Z) (l : list A) : list A :=
  fold_right (insertDesc key) [] l.
End Ops.
End Collection.

(** ** The world a request runs in *)

Inductive Error :=
| ZodError                       (* schema.parse threw *)
| MongoError                     (* the driver rejected a statement *)
| S3Error                        (* the object store rejected a call *)
| TypeError                      (* a property of null was read *)
| JsError (message : string).    (* throw new Error(message) *)

Inductive Result (A : Type) :=
| Ok (a : A)
| Err (e : Error).
Arguments Err {A}.

(** [db] is the committed database; [txn] is the working copy of the open
    session transaction, if any; [now] is what [new Date()] reads; [nextId]
    feeds the driver's ObjectId generator; [tick] counts the calls made to
    the outside (database and object store) and [faults] lists the ticks at
    which such a call is rejected; [console] is what console.error printed. *)
Record World := mkWorld {
  db : Db;
  txn : option Db;
  now : Date;
  nextId : ObjectId;
  tick : nat;
  faults : list nat;
  console : list string }.

Definition set_db (d : Db) (w : World) : World :=
  mkWorld d (txn w) (now w) (nextId w) (tick w) (faults w) (console w).
Definition set_txn (t : option Db) (w : World) : World :=
  mkWorld (db w) t (now w) (nextId w) (tick w) (faults w) (console w).
Definition set_now (t : Date) (w : World) : World :=
  mkWorld (db w) (txn w) t (nextId w) (tick w) (faults w) (console w).
Definition bump_id (w : World) : World :=
  mkWorld (db w) (txn w) (now w) (S (nextId w)) (tick w) (faults w) (console w).
Definition bump (w : World) : World :=
  mkWorld (db w) (txn w) (now w) (nextId w) (S (tick w)) (faults w) (console w).
Definition print (line : string) (w : World) : World :=
  mkWorld (db w) (txn w) (now w) (nextId w) (tick w) (faults w) (console w ++ [line]).

Definition fails (w : World) : bool := existsb (Nat.eqb (tick w)) (faults w).

(** ** Asynchronous computations

    A promise-returning function is a tree. Its [Await] nodes are the
    points where the function yields to the event loop: [op] is what the
    awaited call does to the world, [k] is the rest of the function, fed
    with the settled result. Its [Sync] nodes are the effects that happen
    without yielding (reading the clock, printing to the console). *)
Inductive Async (A : Type) : Type :=
| Done (r : Result A)
| Sync (X : Type) (op : World -> X * World) (k : X -> Async A)
| Await (X : Type) (op : World -> Result X * World) (k : Result X -> Async A).
Arguments Sync {A X} op k.
Arguments Await {A X} op k.

Definition ret {A} (a : A) : Async A := Done (Ok a).
Definition throw {A} (e : Error) : Async A := Done (Err e).

Fixpoint bind {A B} (m : Async A) (f : A -> Async B) : Async B :=
  match m with
  | Done (Ok a) => f a
  | Done (Err e) => Done (Err e)
  | Sync op k => Sync op (fun x => bind (k x) f)
  | Await op k => Await op (fun r => bind (k r) f)
  end.

(** try { m } catch (e) { h e } *)
Fixpoint try_catch {A} (m : Async A) (h : Error -> Async A) : Async A :=
  match m with
  | Done (Ok a) => Done (Ok a)
  | Done (Err e) => h e
  | Sync op k => Sync op (fun x => try_catch (k x) h)
  | Await op k => Await op (fun r => try_catch (k r) h)
  end.

Definition await {X} (op : World -> Result X * World) : Async X :=
  Await op (fun r => Done r).

Definition sync {X} (op : World -> X * World) : Async X :=
  Sync op (fun x => Done (Ok x)).

Declare Scope async_scope.
Delimit Scope async_scope with async.
Notation "x <- m ;; k" := (bind m (fun x => k))
  (at level 61, m at next level, right associativity) : async_scope.
Notation "m ;;; k" := (bind m (fun _ => k))
  (at level 61, right associativity) : async_scope.
Open Scope async_scope.

(** One request at a time: every await settles before anything else runs. *)
Fixpoint run {A} (m : Async A) (w : World) : Result A * World :=
  match m with
  | Done r => (r, w)
  | Sync op k => let (x, w') := op w in run (k x) w'
  | Await op k => let (r, w') := op w in run (k r) w'
  end.

(** A function runs without interruption up to its next await. *)
Fixpoint to_next_await {A} (m : Async A) (w : World) : Async A * World :=
  match m with
  | Sync op k => let (x, w') := op w in to_next_await (k x) w'
  | _ => (m, w)
  end.

(** Several requests in flight: [sched] names, turn by turn, the request
    whose pending await settles next; the request then runs on to its next
    await. A request that has not started yet runs to its first await. *)
Definition step_thread {A} (m : Async A) (w : World) : Async A * World :=
  match m with
  | Done r => (Done r, w)
  | Sync _ _ => to_next_await m w
  | Await op k => let (r, w') := op w in to_next_await (k r) w'
  end.

Fixpoint step_nth {A} (i : nat) (ts : list (Async A)) (w : World)
  : list (Async A) * World :=
  match ts, i with
  | [], _ => ([], w)
  | t :: r, O => let (t', w') := step_thread t w in (t' :: r, w')
  | t :: r, S j => let (r', w') := step_nth j r w in (t :: r', w')
  end.

Fixpoint interleave {A} (sched : list nat) (ts : list (Async A)) (w : World)
  : list (Async A) * World :=
  match sched with
  | [] => (ts, w)
  | i :: rest => let (ts', w') := step_nth i ts w in interleave rest ts' w'
  end.

(** The clock reads [t] when the request arrives. *)
Definition arriving_at {A} (t : Date) (m : Async A) : Async A :=
  sync (fun w => (tt, set_now t w)) ;;; m.

Definition settled {A} (m : Async A) : option (Result A) :=
  match m with
  | Done r => Some r
  | _ => None
  end.

(** *** Calls to the outside *)

(** A statement sent to the database. With [session] set, the statement
    belongs to the session's open transaction and works on its copy. *)
Definition statement {X} (session : bool) (f : Db -> X * Db) : Async X :=
  await (fun w =>
    if fails w then (Err MongoError, bump w)
    else match (if session then txn w else None) with
         | Some d => let (x, d') := f d in (Ok x, bump (set_txn (Some d') w))
         | None => let (x, d') := f (db w) in (Ok x, bump (set_db d' w))
         end).

Definition query {X} (session : bool) (f : Db -> X) : Async X :=
  statement session (fun d => (f d, d)).

(** new Date() *)
Definition newDate : Async Date := sync (fun w => (now w, w)).

(** The driver picks the _id of an inserted document. *)
Definition newObjectId : Async ObjectId :=
  sync (fun w => (nextId w, bump_id w)).

(** console.error(...) *)
Definition console_error (line : string) : Async unit :=
  sync (fun w => (tt, print line w)).

(** session.withTransaction(body): the body's session statements work on a
    copy, which replaces the database when the commit goes through and is
    dropped when the body or the commit fails. *)
Definition startTransaction : Async unit :=
  sync (fun w => (tt, set_txn (Some (db w)) w)).

Definition commitTransaction : Async unit :=
  await (fun w =>
    if fails w then (Err MongoError, bump w)
    else match txn w with
         | Some d => (Ok tt, bump (set_txn None (set_db d w)))
         | None => (Ok tt, bump w)
         end).

Definition abortTransaction : Async unit :=
  await (fun w => (Ok tt, set_txn None w)).

Definition withTransaction {A} (body : Async A) : Async A :=
  startTransaction ;;;
  try_catch (a <- body ;; commitTransaction ;;; ret a)
            (fun e => abortTransaction ;;; throw e).

(** ** validation/index.js *)

(** objectIdSchema.parse *)
Definition objectIdSchema_parse (p : IdParam) : Async ObjectId :=
  match p with
  | WellFormed id | Respelled id _ => ret id
  | Malformed => throw ZodError
  end.

(** positiveIntSchema, on a number that is already an integer. *)
Definition positiveIntSchema_ok (n : Z) : bool := (0 <? n)%Z.

(** expirationMinutes: .min(10).max(525960) *)
Definition expirationMinutes_ok (m : Z) : bool := ((10 <=? m) && (m <=? 525960))%Z.

Definition optional_ok {A} (ok : A -> bool) (o : option A) : bool :=
  match o with
  | Some a => ok a
  | None => true
  end.

Definition is_some {A} (o : option A) : bool :=
  match o with
  | Some _ => true
  | None => false
  end.

(** A string holds the UTF-8 bytes of the JavaScript string. The length zod's
    min and max compare is the JavaScript one, in UTF-16 code units: a
    character of one, two or three bytes is one unit, a character of four
    bytes is a surrogate pair. *)
Definition utf16_units (c : Ascii.ascii) : nat :=
  let n := Ascii.nat_of_ascii c in
  if n <? 128 then 1          (* an ASCII character *)
  else if n <? 192 then 0     (* a continuation byte *)
  else if n <? 240 then 1     (* the first of two or three bytes *)
  else 2.                     (* the first of four bytes *)

Definition js_length (s : string) : nat :=
  list_sum (map utf16_units (list_ascii_of_string s)).

(** filenameSchema: a length of 1 to 255, no control character and none of
    the characters the regular expression lists. They are all ASCII, and no
    byte of a longer character is. *)
Definition filename_char_ok (c : Ascii.ascii) : bool :=
  let n := Ascii.nat_of_ascii c in
  negb ((n <? 32)                 (* \x00-\x1F *)
        || (n =? 60) || (n =? 62) (* < > *)
        || (n =? 58) || (n =? 34) (* : and the double quote *)
        || (n =? 47) || (n =? 92) (* / \ *)
        || (n =? 124) || (n =? 63) || (n =? 42)). (* | ? * *)

Definition filenameSchema_ok (s : string) : bool :=
  (1 <=? js_length s) && (js_length s <=? 255)
  && forallb filename_char_ok (list_ascii_of_string s).

Definition filenameSchema_parse (s : string) : Async string :=
  if filenameSchema_ok s then ret s else throw ZodError.

(** usernameSchema: 3 to 30 characters of [a-zA-Z0-9_-]; the trim that
    follows the checks finds nothing to remove. The regular expression lets
    only ASCII through, where bytes and code units are the same. *)
Definition username_char_ok (c : Ascii.ascii) : bool :=
  let n := Ascii.nat_of_ascii c in
  ((97 <=? n) && (n <=? 122)) || ((65 <=? n) && (n <=? 90))
  || ((48 <=? n) && (n <=? 57)) || (n =? 95) || (n =? 45).

Definition usernameSchema_ok (s : string) : bool :=
  (3 <=? String.length s) && (String.length s <=? 30)
  && forallb username_char_ok (list_ascii_of_string s).

Definition usernameSchema_parse (s : string) : Async string :=
  if usernameSchema_ok s then ret s else throw ZodError.

(** What updateOne / updateMany resolve to. *)
Record UpdateResult := mkUpdateResult { matchedCount : nat }.

(** Promise.all(list.map(async ...)), one element after the other. *)
Fixpoint mapM {A B} (f : A -> Async B) (l : list A) : Async (list B) :=
  match l with
  | [] => ret []
  | x :: r => y <- f x ;; ys <- mapM f r ;; ret (y :: ys)
  end.

(** getActiveUserSharesByFile's enriched share. *)
Record EnrichedShare := mkEnrichedShare {
  e_share : UserShare.t;
  e_recipientInfo : option User.t;
  e_remainingAccesses : option Z }.

(** ** data/userShares.js *)
Module userSharesData.

Record CreateUserShareInput := mkInput {
  in_fileId : IdParam;
  in_ownerId : IdParam;
  in_recipientId : IdParam;
  in_expirationMinutes : option Z;
  in_maxAccessCount : option Z }.

Record ValidatedUserShare := mkValidated {
  v_fileId : ObjectId;
  v_ownerId : ObjectId;
  v_recipientId : ObjectId;
  v_expirationMinutes : option Z;
  v_maxAccessCount : option Z }.

(** createUserShareSchema.parse. The last refinement compares the two id
    strings (data.ownerId !== data.recipientId), not the ids they stand
    for. *)
Definition createUserShareSchema_parse (data : CreateUserShareInput)
  : Async ValidatedUserShare :=
  match in_fileId data, in_ownerId data, in_recipientId data with
  | (WellFormed f | Respelled f _), (WellFormed o | Respelled o _),
    (WellFormed r | Respelled r _) =>
      if optional_ok expirationMinutes_ok (in_expirationMinutes data)
         && optional_ok positiveIntSchema_ok (in_maxAccessCount data)
         && (is_some (in_expirationMinutes data) || is_some (in_maxAccessCount data))
         && negb (same_string (in_ownerId data) (in_recipientId data))
      then ret (mkValidated f o r (in_expirationMinutes data) (in_maxAccessCount data))
      else throw ZodError
  | _, _, _ => throw ZodError
  end.

(** { fileId, recipientId, isActive: true } *)
Definition active_for (fileId recipientId : ObjectId) (s : UserShare.t) : bool :=
  (UserShare.fileId s =? fileId) && (UserShare.recipientId s =? recipientId)
  && UserShare.isActive s.

(** { _id } *)
Definition has_id (id : ObjectId) (s : UserShare.t) : bool := UserShare._id s =? id.

(** First half of createUserShare: look for an active share of the same
    file with the same recipient and, if there is one, deactivate it. *)
Definition deactivateExisting (validatedData : ValidatedUserShare)
  : Async unit :=
  (* Check for existing active share *)
  existing <- query false (fun d =>
    Collection.findOne
      (active_for (v_fileId validatedData) (v_recipientId validatedData))
      (userShares d)) ;;
  (* If existing active share found, deactivate it *)
  match existing with
  | Some e =>
      t <- newDate ;;
      statement false (fun d =>
        (tt, on_userShares
               (Collection.updateOne (has_id (UserShare._id e))
                                     (UserShare.set_isActive false t)) d))
  | None => ret tt
  end.

(** Second half of createUserShare: build the new share and insert it. *)
Definition insertNew (validatedData : ValidatedUserShare)
  : Async UserShare.t :=
  expiresAt <- match v_expirationMinutes validatedData with
               | Some m => t <- newDate ;; ret (Some (t + m * 60000)%Z)
               | None => ret None
               end ;;
  now <- newDate ;;
  insertedId <- newObjectId ;;
  let newUserShare :=
    UserShare.mk insertedId
      (v_fileId validatedData) (v_ownerId validatedData)
      (v_recipientId validatedData)
      expiresAt (v_maxAccessCount validatedData) 0%Z true now now in
  statement false (fun d =>
    (tt, on_userShares (Collection.insertOne newUserShare) d)) ;;;
  ret newUserShare.

Definition createUserShare (userShareData : CreateUserShareInput)
  : Async UserShare.t :=
  validatedData <- createUserShareSchema_parse userShareData ;;
  deactivateExisting validatedData ;;;
  insertNew validatedData.

(** findOne(..., { sort: { createdAt: -1 } }): the most recent match. *)
Fixpoint latest (l : list UserShare.t) : option UserShare.t :=
  match l with
  | [] => None
  | x :: r =>
      match latest r with
      | Some y => if (UserShare.createdAt x <? UserShare.createdAt y)%Z
                  then Some y else Some x
      | None => Some x
      end
  end.

Definition getShareByFileAndRecipient (fileId recipientId : IdParam)
  : Async (option UserShare.t) :=
  validatedFileId <- objectIdSchema_parse fileId ;;
  validatedRecipientId <- objectIdSchema_parse recipientId ;;
  query false (fun d =>
    latest (Collection.findMany
              (active_for validatedFileId validatedRecipientId)
              (userShares d))).

Definition validateUserShare (shareId : IdParam) : Async bool :=
  validatedId <- objectIdSchema_parse shareId ;;
  share <- query false (fun d =>
    Collection.findOne (has_id validatedId) (userShares d)) ;;
  match share with
  | None => ret false
  | Some share =>
      if negb (UserShare.isActive share) then ret false
      else
        timedOut <- match UserShare.expiresAt share with
                    | Some e => t <- newDate ;; ret (t >=? e)%Z
                    | None => ret false
                    end ;;
        if (timedOut : bool) then ret false
        else
          match UserShare.maxAccessCount share with
          | Some m => if (UserShare.accessCount share >=? m)%Z
                      then ret false else ret true
          | None => ret true
          end
  end.

Definition incrementUserShareAccess (shareId : IdParam) : Async UpdateResult :=
  validatedId <- objectIdSchema_parse shareId ;;
  t <- newDate ;;
  statement false (fun d =>
    (mkUpdateResult (Collection.countFirst (has_id validatedId) (userShares d)),
     on_userShares
       (Collection.updateOne (has_id validatedId) (UserShare.inc_accessCount t))
       d)).

Definition revokeAllUserSharesByFile (fileId : IdParam) : Async UpdateResult :=
  validatedId <- objectIdSchema_parse fileId ;;
  t <- newDate ;;
  let filter := fun s => (UserShare.fileId s =? validatedId) && UserShare.isActive s in
  statement false (fun d =>
    (mkUpdateResult (Collection.countMatching filter (userShares d)),
     on_userShares
       (Collection.updateMany filter (UserShare.set_isActive false t)) d)).

Definition deactivateUserShare (shareId : IdParam) : Async UpdateResult :=
  validatedId <- objectIdSchema_parse shareId ;;
  t <- newDate ;;
  statement false (fun d =>
    (mkUpdateResult (Collection.countFirst (has_id validatedId) (userShares d)),
     on_userShares
       (Collection.updateOne (has_id validatedId) (UserShare.set_isActive false t))
       d)).

(** $sort: { createdAt: -1 } *)
Fixpoint insert_desc (x : UserShare.t) (l : list UserShare.t)
  : list UserShare.t :=
  match l with
  | [] => [x]
  | y :: r => if (UserShare.createdAt x >=? UserShare.createdAt y)%Z
              then x :: y :: r else y :: insert_desc x r
  end.

Definition sort_desc (l : list UserShare.t) : list UserShare.t :=
  fold_right insert_desc [] l.

(** The two $match stages of getActiveUserSharesByFile. *)
Definition active_unexpired (fileId : ObjectId) (now : Date) (s : UserShare.t)
  : bool :=
  (UserShare.fileId s =? fileId) && UserShare.isActive s
  && match UserShare.expiresAt s with
     | Some e => (e >? now)%Z
     | None => true
     end
  && match UserShare.maxAccessCount s with
     | Some m => (UserShare.accessCount s <? m)%Z
     | None => true
     end.

Definition getActiveUserSharesByFile (fileId : IdParam)
  : Async (list EnrichedShare) :=
  validatedId <- objectIdSchema_parse fileId ;;
  now <- newDate ;;
  found <- query false (fun d =>
    sort_desc (Collection.findMany (active_unexpired validatedId now)
                                   (userShares d))) ;;
  mapM (fun share =>
    recipient <- query false (fun d =>
      Collection.findOne (fun u => User._id u =? UserShare.recipientId share)
                         (users d)) ;;
    ret (mkEnrichedShare share recipient
           match UserShare.maxAccessCount share with
           | Some m => Some (Z.max 0 (m - UserShare.accessCount share))
           | None => None
           end)) found.







End userSharesData.

(** ** data/files.js *)
Module filesData.

Definition has_id (id : ObjectId) (f : File.t) : bool := File._id f =? id.
Definition owned_by (u : ObjectId) (f : File.t) : bool := File.ownerId f =? u.

Definition getFileById (fileId : IdParam) : Async (option File.t) :=
  validatedId <- objectIdSchema_parse fileId ;;
  query false (fun d => Collection.findOne (has_id validatedId) (files d)).

Definition getFilesByOwner (ownerId : IdParam) : Async (list File.t) :=
  validatedId <- objectIdSchema_parse ownerId ;;
  query false (fun d => Collection.findMany (owned_by validatedId) (files d)).

Record DeleteFileResult := mkDeleteFileResult {
  file_deletedCount : nat;
  shareLinks_deletedCount : nat;
  userShares_deletedCount : nat;
  auditLogs_deletedCount : nat }.

Definition audit_on_file (id : ObjectId) (l : AuditLog.t) : bool :=
  match AuditLog.fileId l with
  | Some f => f =? id
  | None => false
  end.

(** Four statements, one after the other, none of them in a session. *)
Definition deleteFile (fileId : IdParam) : Async DeleteFileResult :=
  fileObjectId <- objectIdSchema_parse fileId ;;
  fileResult <- statement false (fun d =>
    (Collection.countFirst (has_id fileObjectId) (files d),
     on_files (Collection.deleteOne (has_id fileObjectId)) d)) ;;
  let linkFilter := fun s => ShareLink.fileId s =? fileObjectId in
  shareLinksResult <- statement false (fun d =>
    (Collection.countMatching linkFilter (shareLinks d),
     on_shareLinks (Collection.deleteMany linkFilter) d)) ;;
  let shareFilter := fun s => UserShare.fileId s =? fileObjectId in
  userSharesResult <- statement false (fun d =>
    (Collection.countMatching shareFilter (userShares d),
     on_userShares (Collection.deleteMany shareFilter) d)) ;;
  auditLogsResult <- statement false (fun d =>
    (Collection.countMatching (audit_on_file fileObjectId) (auditLogs d),
     on_auditLogs (Collection.deleteMany (audit_on_file fileObjectId)) d)) ;;
  ret (mkDeleteFileResult fileResult shareLinksResult userSharesResult
                          auditLogsResult).

Definition touch (t : Date) (f : File.t) : File.t :=
  File.mk (File._id f) (File.filename f) (File.s3Key f) (File.description f)
          (File.size f) (File.mimetype f) (File.ownerId f)
          (File.accessCount f + 1)%Z (Some t) t.

Definition updateAccessStats (fileId : IdParam) : Async UpdateResult :=
  validatedId <- objectIdSchema_parse fileId ;;
  t <- newDate ;;
  statement false (fun d =>
    (mkUpdateResult (Collection.countFirst (has_id validatedId) (files d)),
     on_files (Collection.updateOne (has_id validatedId) (touch t)) d)).

Definition rename (name : string) (t : Date) (f : File.t) : File.t :=
  File.mk (File._id f) name (File.s3Key f) (File.description f)
          (File.size f) (File.mimetype f) (File.ownerId f)
          (File.accessCount f) (File.lastAccessedAt f) t.

Definition updateFilename (fileId : IdParam) (newFilename : string)
  : Async UpdateResult :=
  (* Validate inputs *)
  validatedId <- objectIdSchema_parse fileId ;;
  validatedFilename <- filenameSchema_parse newFilename ;;
  t <- newDate ;;
  statement false (fun d =>
    (mkUpdateResult (Collection.countFirst (has_id validatedId) (files d)),
     on_files (Collection.updateOne (has_id validatedId)
                                    (rename validatedFilename t)) d)).

(** { action, timestamp } *)
Record RecentActivity := mkRecentActivity {
  ra_action : Action;
  ra_timestamp : Date }.

Definition recent_actions : list Action :=
  [UPLOAD; DOWNLOAD; NAME_CHANGE; SHARE_CREATED; EXPIRED_LINK_ATTEMPT].

(** $match: { fileId: { $in: ids }, action: { $in: [...] } } *)
Definition recent_match (ids : list ObjectId) (l : AuditLog.t) : bool :=
  match AuditLog.fileId l with
  | Some f => existsb (Nat.eqb f) ids
  | None => false
  end
  && existsb (Action_eqb (AuditLog.action l)) recent_actions.

(** $group: { _id: '$fileId', action: { $first }, timestamp: { $first } }.
    The entries that reach this stage have a file id. *)
Fixpoint group_first (l : list AuditLog.t) : list (ObjectId * RecentActivity) :=
  match l with
  | [] => []
  | x :: r =>
      match AuditLog.fileId x with
      | Some f =>
          (f, mkRecentActivity (AuditLog.action x) (AuditLog.timestamp x))
          :: filter (fun p => negb (fst p =? f)) (group_first r)
      | None => group_first r
      end
  end.

(** Map.prototype.get *)
Definition Map_get (id : ObjectId) (m : list (ObjectId * RecentActivity))
  : option RecentActivity :=
  option_map snd (find (fun p => fst p =? id) m).

(** The file ids are the string forms of stored _id values, as
    getFilesByCategory passes them. *)
Definition getRecentActivityForFiles (fileIds : list ObjectId)
  : Async (list (ObjectId * RecentActivity)) :=
  match fileIds with
  | [] => ret []
  | _ =>
      (* Get most recent audit log for each file using aggregation *)
      query false (fun d =>
        group_first
          (Collection.sortDesc AuditLog.timestamp
             (Collection.findMany (recent_match fileIds) (auditLogs d))))
  end.

End filesData.

(** ** data/users.js *)
Module usersData.

Record DeletionCounts := mkDeletionCounts {
  c_shareLinks : nat;
  c_userSharesOwned : nat;
  c_auditLogsOwnFiles : nat;
  c_auditLogsAnonymized : nat;
  c_files : nat;
  c_user : nat }.

(** { fileId: { $in: userFileIds } } *)
Definition fileId_in (ids : list ObjectId) (l : AuditLog.t) : bool :=
  match AuditLog.fileId l with
  | Some f => existsb (Nat.eqb f) ids
  | None => false
  end.

(** { userId: userObjectId } *)
Definition acted_by (u : ObjectId) (l : AuditLog.t) : bool :=
  match AuditLog.userId l with
  | Value a => a =? u
  | _ => false
  end.

(** { userId: userObjectId, fileId: { $nin: userFileIds } }: $nin also
    selects the documents whose fileId is null. *)
Definition actor_elsewhere (u : ObjectId) (ids : list ObjectId) (l : AuditLog.t)
  : bool :=
  acted_by u l && negb (fileId_in ids l).

Definition deleteUserAccount (userId : IdParam) : Async DeletionCounts :=
  userObjectId <- objectIdSchema_parse userId ;;
  withTransaction (
    (* STEP 1: Get all user's files *)
    userFiles <- query true (fun d =>
      Collection.findMany (filesData.owned_by userObjectId) (files d)) ;;
    let userFileIds := map File._id userFiles in
    (* STEP 2: Delete shareLinks created by user *)
    let ownsLink := fun s => ShareLink.ownerId s =? userObjectId in
    shareLinksResult <- statement true (fun d =>
      (Collection.countMatching ownsLink (shareLinks d),
       on_shareLinks (Collection.deleteMany ownsLink) d)) ;;
    (* STEP 3: Delete userShares WHERE USER IS OWNER (not recipient) *)
    let ownsShare := fun s => UserShare.ownerId s =? userObjectId in
    userSharesResult <- statement true (fun d =>
      (Collection.countMatching ownsShare (userShares d),
       on_userShares (Collection.deleteMany ownsShare) d)) ;;
    (* STEP 5: Delete audit logs for USER'S OWN FILES *)
    auditLogsOwnFilesResult <- statement true (fun d =>
      (Collection.countMatching (fileId_in userFileIds) (auditLogs d),
       on_auditLogs (Collection.deleteMany (fileId_in userFileIds)) d)) ;;
    (* STEP 6: Anonymize audit logs for OTHER USERS' FILES *)
    auditLogsOtherFilesResult <- statement true (fun d =>
      (Collection.countMatching (actor_elsewhere userObjectId userFileIds)
                                (auditLogs d),
       on_auditLogs (Collection.updateMany
                       (actor_elsewhere userObjectId userFileIds)
                       AuditLog.anonymize) d)) ;;
    (* STEP 7: Delete all user's FILES *)
    filesResult <- statement true (fun d =>
      (Collection.countMatching (filesData.owned_by userObjectId) (files d),
       on_files (Collection.deleteMany (filesData.owned_by userObjectId)) d)) ;;
    (* STEP 8: Delete USER record *)
    let isUser := fun x => User._id x =? userObjectId in
    userResult <- statement true (fun d =>
      (Collection.countFirst isUser (users d),
       on_users (Collection.deleteOne isUser) d)) ;;
    ret (mkDeletionCounts shareLinksResult userSharesResult
           auditLogsOwnFilesResult auditLogsOtherFilesResult
           filesResult userResult)).

Definition getUserById (userId : IdParam) : Async (option User.t) :=
  (* Validate ObjectId format *)
  validatedId <- objectIdSchema_parse userId ;;
  query false (fun d =>
    Collection.findOne (fun x => User._id x =? validatedId) (users d)).

Definition getUserByUsername (username : string) : Async (option User.t) :=
  (* Validate username format *)
  validatedUsername <- usernameSchema_parse username ;;
  query false (fun d =>
    Collection.findOne (fun x => String.eqb (User.username x) validatedUsername)
                       (users d)).

(** The updates object: each key is absent or holds a string. *)
Record ProfileUpdates := mkProfileUpdates {
  up_username : option string;
  up_email : option string }.

(** if (updates.key): the key is there and its string is not empty. *)
Definition truthy (o : option string) : bool :=
  match o with
  | Some (String _ _) => true
  | _ => false
  end.

(** $set: { ...updates }; updatedAt is not among the fields kept of a
    user. *)
Definition apply_updates (updates : ProfileUpdates) (u : User.t) : User.t :=
  User.mk (User._id u)
    match up_username updates with Some n => n | None => User.username u end
    match up_email updates with Some e => e | None => User.email u end.

(** $set: { username } on an audit entry *)
Definition rename_actor (n : string) (l : AuditLog.t) : AuditLog.t :=
  AuditLog.mk (AuditLog._id l) (AuditLog.fileId l) (AuditLog.action l)
    (AuditLog.userId l) (Some n) (AuditLog.ipAddress l) (AuditLog.location l)
    (AuditLog.details l) (AuditLog.timestamp l).

Section Email.

(** emailSchema.parse: the email format is a regular expression outside
    this model; the schema gives the address back in lower case, or
    throws. *)
Variable emailSchema_parse : string -> option string.

(** The function looks for another user with the name or the address before
    it updates; the unique indexes of config/createIndexes.js, which would
    reject the update where that check has been overtaken by another
    request, are not modelled. *)

Definition updateUserProfile (userId : IdParam) (updates : ProfileUpdates)
  : Async User.t :=
  (* Validate userId *)
  validatedId <- objectIdSchema_parse userId ;;
  (* Ensure at least one field provided *)
  if negb (truthy (up_username updates)) && negb (truthy (up_email updates)) then
    throw (JsError "At least one field (username or email) must be updated")
  else
    let isUser := fun x => User._id x =? validatedId in
    (* Check username uniqueness (if provided) *)
    username <-
      match up_username updates with
      | Some (String _ _ as raw) =>
          validated <- usernameSchema_parse raw ;;
          existingUser <- query false (fun d =>
            Collection.findOne
              (fun x => String.eqb (User.username x) validated
                        && negb (isUser x)) (users d)) ;;
          match existingUser with
          | Some _ => throw (JsError "Username already exists")
          | None => ret (Some validated)
          end
      | other => ret other
      end ;;
    (* Check email uniqueness (if provided) *)
    email <-
      match up_email updates with
      | Some (String _ _ as raw) =>
          match emailSchema_parse raw with
          | None => throw ZodError
          | Some validated =>
              existingUser <- query false (fun d =>
                Collection.findOne
                  (fun x => String.eqb (User.email x) validated
                            && negb (isUser x)) (users d)) ;;
              match existingUser with
              | Some _ => throw (JsError "Email already exists")
              | None => ret (Some validated)
              end
          end
      | other => ret other
      end ;;
    let updates := mkProfileUpdates username email in
    (* Update user *)
    updatedAt <- newDate ;;
    result <- statement false (fun d =>
      (option_map (apply_updates updates)
                  (Collection.findOne isUser (users d)),
       on_users (Collection.updateOne isUser (apply_updates updates)) d)) ;;
    match result with
    | None => throw (JsError "User not found")
    | Some result =>
        (* Update all audit logs if username was changed *)
        match username with
        | Some (String _ _ as n) =>
            statement false (fun d =>
              (tt, on_auditLogs
                     (Collection.updateMany (acted_by validatedId)
                                            (rename_actor n)) d))
        | _ => ret tt
        end ;;;
        ret result
    end.

End Email.

End usersData.

(** ** data/auditLogs.js *)
Module auditLogsData.

Record AuditData := mkAuditData {
  a_fileId : option IdParam;          (* null or a string *)
  a_action : Action;
  a_userId : option IdParam;          (* undefined or a string *)
  a_username : option string;
  a_ipAddress : option string;
  a_location : option string;
  a_details : option Details }.

Record ValidatedAudit := mkValidatedAudit {
  va_fileId : option ObjectId;
  va_userId : option ObjectId }.

(** createAuditLogSchema.parse: fileId is objectIdSchema.nullable(),
    userId is objectIdSchema.optional(). *)
Definition createAuditLogSchema_parse (auditData : AuditData)
  : Async ValidatedAudit :=
  match a_fileId auditData, a_userId auditData with
  | Some Malformed, _ | _, Some Malformed => throw ZodError
  | Some (WellFormed f | Respelled f _), Some (WellFormed u | Respelled u _) =>
      ret (mkValidatedAudit (Some f) (Some u))
  | Some (WellFormed f | Respelled f _), None => ret (mkValidatedAudit (Some f) None)
  | None, Some (WellFormed u | Respelled u _) => ret (mkValidatedAudit None (Some u))
  | None, None => ret (mkValidatedAudit None None)
  end.

Definition createAuditLog (auditData : AuditData) : Async AuditLog.t :=
  validatedData <- createAuditLogSchema_parse auditData ;;
  timestamp <- newDate ;;
  insertedId <- newObjectId ;;
  let newAuditLog :=
    AuditLog.mk insertedId
      (va_fileId validatedData)
      (a_action auditData)
      match va_userId validatedData with
      | Some u => Value u
      | None => Missing
      end
      (a_username auditData) (a_ipAddress auditData) (a_location auditData)
      (a_details auditData) timestamp in
  statement false (fun d =>
    (tt, on_auditLogs (Collection.insertOne newAuditLog) d)) ;;;
  ret newAuditLog.

Definition getAuditLogsByFile (fileId : IdParam) : Async (list AuditLog.t) :=
  validatedId <- objectIdSchema_parse fileId ;;
  query false (fun d =>
    Collection.sortDesc AuditLog.timestamp
      (Collection.findMany (filesData.audit_on_file validatedId) (auditLogs d))).

Definition getAuditLogsByAction (action : Action) : Async (list AuditLog.t) :=
  query false (fun d =>
    Collection.sortDesc AuditLog.timestamp
      (Collection.findMany (fun l => Action_eqb (AuditLog.action l) action)
                           (auditLogs d))).

End auditLogsData.

(** ** utils/s3.js: the object store is outside the model; a call to it
    either goes through or is rejected. *)
Module s3.

Definition call {X} (x : X) : Async X :=
  await (fun w => if fails w then (Err S3Error, bump w) else (Ok x, bump w)).

Definition getDownloadUrl (s3Key filename : string) (expiresIn : Z)
  : Async string :=
  call ("https://s3/" ++ s3Key)%string.

Definition deleteFromS3 (s3Key : string) : Async unit := call tt.

End s3.

(** ** data/shareLinks.js *)
Module shareLinksData.

Definition has_token (token : string) (s : ShareLink.t) : bool :=
  String.eqb (ShareLink.token s) token.

(** Modelled from the spec: getShareLinkByToken of data/shareLinks.js, whose
    source is missing. LinkShares are keyed by their unique token; this is
    the lookup by token. *)
Definition getShareLinkByToken (token : string) : Async (option ShareLink.t) :=
  query false (fun d => Collection.findOne (has_token token) (shareLinks d)).

(** Modelled from the spec: the policy of data/shareLinks.js, whose source
    is missing. By the Expiration Policy Evaluator (4.1), a share is active iff its
    active flag is set, its expiry is absent or now is before it, and its
    maximum count is absent or the used count is below it. *)
Definition isActive (share : ShareLink.t) (now : Date) : bool :=
  ShareLink.isActive share
  && match ShareLink.expiresAt share with
     | Some e => (now <? e)%Z
     | None => true
     end
  && match ShareLink.maxAccessCount share with
     | Some m => (ShareLink.accessCount share <? m)%Z
     | None => true
     end.

(** Modelled from the spec: validateShareLink of data/shareLinks.js, whose
    source is missing. This is the read-only check made before a consumption (4.1, 4.2): it
    applies [isActive] to the share the token names and has no side
    effects. An unknown token is not active. *)
Definition validateShareLink (token : string) : Async bool :=
  share <- query false (fun d =>
    Collection.findOne (has_token token) (shareLinks d)) ;;
  match share with
  | None => ret false
  | Some share => t <- newDate ;; ret (isActive share t)
  end.

(** { maxAccessCount absent, or accessCount below it } *)
Definition has_capacity (s : ShareLink.t) : bool :=
  match ShareLink.maxAccessCount s with
  | Some m => (ShareLink.accessCount s <? m)%Z
  | None => true
  end.

Definition consume (t : Date) (s : ShareLink.t) : ShareLink.t :=
  ShareLink.mk (ShareLink._id s) (ShareLink.token s) (ShareLink.fileId s)
    (ShareLink.ownerId s) (ShareLink.expiresAt s) (ShareLink.maxAccessCount s)
    (ShareLink.accessCount s + 1)%Z (ShareLink.isActive s)
    (ShareLink.createdAt s) t.

(** Modelled from the spec: incrementShareAccess of data/shareLinks.js,
    whose source is missing. By the Access Consumption Service (4.2), the capacity check and the
    increment of the usage counter are one conditional update of the store;
    on success usedCount and updatedAt are updated, otherwise nothing is. *)
Definition incrementShareAccess (token : string) : Async UpdateResult :=
  t <- newDate ;;
  let filter := fun s => has_token token s && has_capacity s in
  statement false (fun d =>
    (mkUpdateResult (Collection.countFirst filter (shareLinks d)),
     on_shareLinks (Collection.updateOne filter (consume t)) d)).

End shareLinksData.

(** ** Requests and responses *)

(** req.user, as the auth middleware sets it from the verified JWT. *)
Record AuthUser := mkAuthUser {
  userId : ObjectId;
  au_username : string }.

Inductive ShareType := ShareUser | ShareLinkType | ShareOther.

(** The body of POST /api/share/create. *)
Record ShareBody := mkShareBody {
  b_fileId : IdParam;
  b_shareType : ShareType;
  b_recipientIdentifier : option string;
  b_expirationMinutes : option Z;
  b_maxAccessCount : option Z }.

Record Request := mkRequest {
  user : option AuthUser;
  params_fileId : option IdParam;
  params_shareId : option IdParam;
  params_token : string;
  body : option ShareBody;
  forwardedFor : option string;       (* first entry of x-forwarded-for, trimmed *)
  realIp : option string;             (* x-real-ip *)
  remoteAddress : option string;      (* req.socket.remoteAddress *)
  cfIpCountry : option string }.      (* cf-ipcountry *)

(** res.locals *)
Record Locals := mkLocals {
  l_fileId : option IdParam;
  l_isSharedFile : bool }.

Definition noLocals : Locals := mkLocals None false.

Inductive Payload :=
| ErrorBody (error : string)
| ValidationFailed
| FileDownload (downloadUrl filename : string) (expiresIn : Z)
               (shareInfo : option (option Z))
| LinkDownload (downloadUrl filename : string) (remainingAccesses : option Z)
| SharedFileInfo (filename : string) (description : option string) (size : Z)
                 (mimetype : string) (maxAccessCount : option Z)
                 (accessCount : Z) (expiresAt : option Date)
| FileDeleted (fileId : ObjectId) (deletedRecords : filesData.DeleteFileResult)
| ActiveShares (links : list ShareLink.t) (shares : list EnrichedShare)
               (total : nat)
| UserShareCreated (share : UserShare.t) (recipient : User.t)
| LinkShareCreated (share : ShareLink.t)
| Message (message : string).

Record Response := mkResponse {
  status : nat;
  payload : Payload }.

Definition json (code : nat) (p : Payload) : Response := mkResponse code p.

Definition or_else {A} (a b : option A) : option A :=
  match a with
  | Some _ => a
  | None => b
  end.

(** ** middleware/auth.js: the JWT is verified outside the model. *)
Definition auth (next : AuthUser -> Request -> Async Response) (req : Request)
  : Async Response :=
  match user req with
  | None => ret (json 401 (ErrorBody "No authentication token provided"))
  | Some u => next u req
  end.

(** ** middleware/auditLogger.js *)

(** a || b on strings that may be undefined: the empty string is as falsy as
    undefined, and the right operand is handed on as it is. *)
Definition js_or (a b : option string) : option string :=
  match a with
  | Some (String _ _) => a
  | _ => b
  end.

Definition getClientIp (req : Request) : option string :=
  js_or (forwardedFor req)
    (js_or (realIp req) (js_or (remoteAddress req) (Some "Unknown"%string))).

Definition getLocation (req : Request) : option string := cfIpCountry req.

(** The middleware replaces res.send; when the handler sends its response,
    a 2xx status starts createAuditLog and attaches a catch to it, and the
    response goes out whatever that promise does. Here the audit write runs
    to its end before the response is handed back; it cannot change it.
    req.file has no fileId on any route, so the lookup of the file id goes
    from req.params to req.body to res.locals. The only body among these
    routes is the one of POST /api/share/create, whose handler answers 400
    when its fileId is missing, empty or no ObjectId, and a 400 is not
    recorded. *)
Definition auditLogger (action : Action)
    (detailsExtractor : option (Request -> Locals -> Details))
    (next : Request -> Async (Response * Locals)) (req : Request)
  : Async Response :=
  sent <- next req ;;
  let res := fst sent in
  let locals := snd sent in
  (if (200 <=? status res) && (status res <? 300) then
     let fileId :=
       or_else (params_fileId req)
         (or_else (match body req with Some b => Some (b_fileId b) | None => None end)
                  (l_fileId locals)) in
     if is_some fileId || Action_eqb action EXPIRED_LINK_ATTEMPT then
       let auditData :=
         auditLogsData.mkAuditData fileId action
           (match user req with Some u => Some (WellFormed (userId u)) | None => None end)
           (match user req with Some u => Some (au_username u) | None => None end)
           (getClientIp req) (getLocation req)
           (match detailsExtractor with
            | Some f => Some (f req locals)
            | None => None
            end) in
       try_catch (auditLogsData.createAuditLog auditData ;;; ret tt)
                 (fun _ => console_error "Failed to create audit log:")
     else ret tt
   else ret tt) ;;;
  ret res.

(** shareTokenSchema: 64 characters of [a-f0-9], all of them ASCII, so that
    bytes and code units are the same. *)
Definition is_lower_hex (c : Ascii.ascii) : bool :=
  let n := Ascii.nat_of_ascii c in
  ((48 <=? n) && (n <=? 57)) || ((97 <=? n) && (n <=? 102)).

Definition shareTokenSchema_ok (token : string) : bool :=
  (String.length token =? 64) && forallb is_lower_hex (list_ascii_of_string token).

Definition shareTokenSchema_parse (token : string) : Async string :=
  if shareTokenSchema_ok token then ret token else throw ZodError.

(** fileIdSchema.parse(req.params) *)
Definition fileIdSchema_parse (p : option IdParam) : Async ObjectId :=
  match p with
  | Some (WellFormed id | Respelled id _) => ret id
  | _ => throw ZodError
  end.

(** String.prototype.includes *)
Fixpoint includes (needle hay : string) : bool :=
  prefix needle hay
  || match hay with
     | EmptyString => false
     | String _ rest => includes needle rest
     end.

(** The catch block shared by the routes that tell ZodError apart. *)
Definition catch_route {A} (label failure : string) (dflt : Response -> A)
    (e : Error) : Async A :=
  match e with
  | ZodError => ret (dflt (json 400 ValidationFailed))
  | _ => console_error label ;;; ret (dflt (json 500 (ErrorBody failure)))
  end.

(** ** routes/files.js *)
Module fileRoutes.

(** Outcome of the share branch of the download handler: either the
    handler has already responded, or it goes on with the share used. *)
Definition download_access (u : AuthUser) (fileId : ObjectId) (file : File.t)
  : Async (Response + option UserShare.t) :=
  let isOwner := File.ownerId file =? userId u in
  if isOwner then ret (inr None)
  else
    userShare <- userSharesData.getShareByFileAndRecipient
                   (WellFormed fileId) (WellFormed (userId u)) ;;
    match userShare with
    | None => ret (inl (json 404 (ErrorBody "File not found")))
    | Some userShare =>
        (* Validate the share is still active and not expired *)
        isValid <- userSharesData.validateUserShare
                     (WellFormed (UserShare._id userShare)) ;;
        if negb isValid then
          ret (inl (json 403
                 (ErrorBody "Share has expired or reached maximum accesses")))
        else
          (* Increment share access count *)
          userSharesData.incrementUserShareAccess
            (WellFormed (UserShare._id userShare)) ;;;
          ret (inr (Some userShare))
    end.

(** GET /api/files/download/:fileId, the handler *)
Definition download_handler (u : AuthUser) (req : Request)
  : Async (Response * Locals) :=
  try_catch (
    fileId <- fileIdSchema_parse (params_fileId req) ;;
    file <- filesData.getFileById (WellFormed fileId) ;;
    match file with
    | None => ret (json 404 (ErrorBody "File not found"), noLocals)
    | Some file =>
        access <- download_access u fileId file ;;
        match access with
        | inl res => ret (res, noLocals)
        | inr userShare =>
            downloadUrl <- s3.getDownloadUrl (File.s3Key file)
                             (File.filename file) 3600 ;;
            filesData.updateAccessStats (WellFormed fileId) ;;;
            ret (json 200
                   (FileDownload downloadUrl (File.filename file) 3600
                      match userShare with
                      | Some s =>
                          Some match UserShare.maxAccessCount s with
                               | Some m => Some (m - UserShare.accessCount s - 1)%Z
                               | None => None
                               end
                      | None => None
                      end),
                 mkLocals (Some (WellFormed fileId)) (is_some userShare))
        end
    end)
    (catch_route "Download error:" "Failed to generate download URL"
                 (fun res => (res, noLocals))).

Definition download_details (req : Request) (locals : Locals) : Details :=
  if l_isSharedFile locals
  then [("via", JString "user_share")]%string
  else [("via", JString "owner")]%string.

(** GET /api/files/download/:fileId *)
Definition download : Request -> Async Response :=
  auth (fun u => auditLogger DOWNLOAD (Some download_details)
                   (download_handler u)).

(** DELETE /api/files/:fileId, the handler *)
Definition delete_handler (u : AuthUser) (req : Request)
  : Async (Response * Locals) :=
  try_catch (
    fileId <- fileIdSchema_parse (params_fileId req) ;;
    file <- filesData.getFileById (WellFormed fileId) ;;
    match file with
    | None => ret (json 404 (ErrorBody "File not found"), noLocals)
    | Some file =>
        (* Verify ownership *)
        if negb (File.ownerId file =? userId u) then
          ret (json 404 (ErrorBody "File not found"), noLocals)
        else
          deleteResult <- filesData.deleteFile (WellFormed fileId) ;;
          (* Then delete from S3 *)
          s3.deleteFromS3 (File.s3Key file) ;;;
          ret (json 200 (FileDeleted fileId deleteResult), noLocals)
    end)
    (catch_route "Delete error:" "Failed to delete file"
                 (fun res => (res, noLocals))).

(** DELETE /api/files/:fileId *)
Definition delete : Request -> Async Response :=
  auth (fun u => auditLogger DELETE None (delete_handler u)).

End fileRoutes.

(** ** routes/share.js *)
Module shareRoutes.

Record ValidatedShare := mkValidatedShare {
  vs_fileId : ObjectId;
  vs_shareType : ShareType;
  vs_recipientIdentifier : option string;
  vs_expirationMinutes : option Z;
  vs_maxAccessCount : option Z }.

(** The white space and line terminators String.prototype.trim removes:
    the ASCII ones, and in UTF-8 bytes U+00A0, U+1680, U+2000 to U+200A,
    U+2028, U+2029, U+202F, U+205F, U+3000 and U+FEFF. *)
Definition is_blank (n : nat) : bool :=
  (n =? 32) || ((9 <=? n) && (n <=? 13)).

Definition is_blank3 (a b c : nat) : bool :=
  ((a =? 225) && (b =? 154) && (c =? 128))
  || ((a =? 226) && (b =? 128)
      && (((128 <=? c) && (c <=? 138)) || (c =? 168) || (c =? 169) || (c =? 175)))
  || ((a =? 226) && (b =? 129) && (c =? 159))
  || ((a =? 227) && (b =? 128) && (c =? 128))
  || ((a =? 239) && (b =? 187) && (c =? 191)).

Fixpoint only_blanks (l : list nat) : bool :=
  match l with
  | [] => true
  | a :: r =>
      if is_blank a then only_blanks r
      else match r with
           | b :: r1 =>
               if (a =? 194) && (b =? 160) then only_blanks r1
               else match r1 with
                    | c :: r2 => if is_blank3 a b c then only_blanks r2 else false
                    | [] => false
                    end
           | [] => false
           end
  end.

(** recipientIdentifier.trim().length > 0 *)
Definition trimmed_nonempty (s : string) : bool :=
  negb (only_blanks (map Ascii.nat_of_ascii (list_ascii_of_string s))).

(** createShareSchema.parse(req.body) *)
Definition createShareSchema_parse (b : option ShareBody)
  : Async ValidatedShare :=
  match b with
  | Some b =>
      match b_fileId b, b_shareType b with
      | Malformed, _ | _, ShareOther => throw ZodError
      | (WellFormed f | Respelled f _), ty =>
          if optional_ok expirationMinutes_ok (b_expirationMinutes b)
             && optional_ok positiveIntSchema_ok (b_maxAccessCount b)
             && (is_some (b_expirationMinutes b) || is_some (b_maxAccessCount b))
             && match ty, b_recipientIdentifier b with
                | ShareUser, Some r => trimmed_nonempty r
                | ShareUser, None => false
                | _, _ => true
                end
          then ret (mkValidatedShare f ty (b_recipientIdentifier b)
                      (b_expirationMinutes b) (b_maxAccessCount b))
          else throw ZodError
      end
  | None => throw ZodError
  end.

(** x-forwarded-for's first entry, else the socket's address. *)
Definition routeIp (req : Request) : option string :=
  js_or (forwardedFor req) (remoteAddress req).

Definition expired_message : string :=
  "This share link has expired or reached maximum accesses".

(** The branch both token routes take when validateShareLink says no. *)
Definition reject_expired (req : Request) (token reason : string)
  : Async Response :=
  (* Get share link to find fileId for logging *)
  shareLink <- shareLinksData.getShareLinkByToken token ;;
  let fileId :=
    match shareLink with
    | Some l => Some (WellFormed (ShareLink.fileId l))
    | None => None
    end in
  auditLogsData.createAuditLog
    (auditLogsData.mkAuditData fileId EXPIRED_LINK_ATTEMPT None None
       (routeIp req) (cfIpCountry req)
       (Some [("token", JString token); ("reason", JString reason)]%string)) ;;;
  ret (json 403 (ErrorBody expired_message)).

(** const shareLink = await getShareLinkByToken(token);
    const file = await getFileById(shareLink.fileId.toString()); *)
Definition link_and_file (token : string)
  : Async (ShareLink.t * option File.t) :=
  shareLink <- shareLinksData.getShareLinkByToken token ;;
  match shareLink with
  | None => throw TypeError
  | Some shareLink =>
      file <- filesData.getFileById (WellFormed (ShareLink.fileId shareLink)) ;;
      ret (shareLink, file)
  end.

(** GET /api/share/:token *)
Definition view (req : Request) : Async Response :=
  try_catch (
    token <- shareTokenSchema_parse (params_token req) ;;
    (* Validate share link *)
    isValid <- shareLinksData.validateShareLink token ;;
    if negb isValid then
      reject_expired req token "expired_or_max_access_reached"
    else
      found <- link_and_file token ;;
      let shareLink := fst found in
      match snd found with
      | None => ret (json 404 (ErrorBody "File not found"))
      | Some file =>
          (* Return file info and share metadata WITHOUT incrementing
             access count *)
          ret (json 200
                 (SharedFileInfo (File.filename file) (File.description file)
                    (File.size file) (File.mimetype file)
                    (ShareLink.maxAccessCount shareLink)
                    (ShareLink.accessCount shareLink)
                    (ShareLink.expiresAt shareLink)))
      end)
    (catch_route "Share access error:" "Failed to access shared file"
                 (fun res => res)).

(** POST /api/share/:token/download *)
Definition download (req : Request) : Async Response :=
  try_catch (
    token <- shareTokenSchema_parse (params_token req) ;;
    (* Validate share link *)
    isValid <- shareLinksData.validateShareLink token ;;
    if negb isValid then
      reject_expired req token "download_attempt_after_expiry"
    else
      found <- link_and_file token ;;
      let shareLink := fst found in
      match snd found with
      | None => ret (json 404 (ErrorBody "File not found"))
      | Some file =>
          (* Generate download URL *)
          downloadUrl <- s3.getDownloadUrl (File.s3Key file)
                           (File.filename file) 3600 ;;
          (* Increment access count (only on actual download) *)
          shareLinksData.incrementShareAccess token ;;;
          (* Update file access stats *)
          filesData.updateAccessStats
            (WellFormed (ShareLink.fileId shareLink)) ;;;
          (* Log download *)
          auditLogsData.createAuditLog
            (auditLogsData.mkAuditData
               (Some (WellFormed (File._id file))) DOWNLOAD None None
               (routeIp req) (cfIpCountry req)
               (Some [("via", JString "public_share_link");
                      ("token", JString token)]%string)) ;;;
          ret (json 200
                 (LinkDownload downloadUrl (File.filename file)
                    match ShareLink.maxAccessCount shareLink with
                    | Some m => Some (m - ShareLink.accessCount shareLink - 1)%Z
                    | None => None
                    end))
      end)
    (catch_route "Share download error:" "Failed to download shared file"
                 (fun res => res)).

(** PATCH /api/share/user/:shareId/revoke *)
Definition revoke_user_share : Request -> Async Response :=
  auth (fun u req =>
    try_catch (
      match params_shareId req with
      | Some (WellFormed shareId | Respelled shareId _) =>
          (* Get user share *)
          userShare <- query false (fun d =>
            Collection.findOne (userSharesData.has_id shareId) (userShares d)) ;;
          match userShare with
          | None => ret (json 404 (ErrorBody "User share not found"))
          | Some userShare =>
              (* Verify file exists and user owns it *)
              file <- filesData.getFileById
                        (WellFormed (UserShare.fileId userShare)) ;;
              match file with
              | None => ret (json 404 (ErrorBody "File not found"))
              | Some file =>
                  if negb (File.ownerId file =? userId u) then
                    ret (json 403
                           (ErrorBody "Unauthorized: You do not own this file"))
                  else
                    (* Get recipient email for audit log *)
                    recipient <- query false (fun d =>
                      Collection.findOne
                        (fun x => User._id x =? UserShare.recipientId userShare)
                        (users d)) ;;
                    (* Deactivate the user share *)
                    userSharesData.deactivateUserShare (WellFormed shareId) ;;;
                    (* Log the revocation *)
                    auditLogsData.createAuditLog
                      (auditLogsData.mkAuditData
                         (Some (WellFormed (File._id file))) SHARE_REVOKED
                         (Some (WellFormed (userId u))) (Some (au_username u))
                         (routeIp req) (cfIpCountry req)
                         (Some [("shareType", JString "user");
                                ("recipientId",
                                 JNumber (Z.of_nat
                                            (UserShare.recipientId userShare)));
                                ("recipientEmail",
                                 JString match recipient with
                                         | Some r => User.email r
                                         | None => "unknown"
                                         end)]%string)) ;;;
                    ret (json 200 (Message "User share revoked successfully"))
              end
          end
      | _ => ret (json 400 (ErrorBody "Invalid share ID format"))
      end)
      (fun _ =>
         console_error "Revoke user share error:" ;;;
         ret (json 500 (ErrorBody "Failed to revoke user share")))).

Section Collaborators.

(** data/users.js; the email and username schemas it tries in turn are
    regular expressions outside this model. *)
Variable getUserByEmailOrUsername : string -> Async (option User.t).

(** Two functions of data/shareLinks.js, whose source is missing. *)
Variable createShareLink :
  ObjectId -> ObjectId -> option Z -> option Z -> Async ShareLink.t.
Variable getActiveShareLinksByFile : IdParam -> Async (list ShareLink.t).

(** POST /api/share/create, the handler *)
Definition create_handler (u : AuthUser) (req : Request)
  : Async (Response * Locals) :=
  try_catch (
    validatedData <- createShareSchema_parse (body req) ;;
    (* Verify file exists and ownership *)
    file <- filesData.getFileById (WellFormed (vs_fileId validatedData)) ;;
    match file with
    | None => ret (json 404 (ErrorBody "File not found"), noLocals)
    | Some file =>
        if negb (File.ownerId file =? userId u) then
          ret (json 404 (ErrorBody "File not found"), noLocals)
        else
          let locals :=
            mkLocals (Some (WellFormed (vs_fileId validatedData))) false in
          match vs_shareType validatedData with
          | ShareUser =>
              recipient <- getUserByEmailOrUsername
                match vs_recipientIdentifier validatedData with
                | Some r => r
                | None => EmptyString
                end ;;
              match recipient with
              | None =>
                  ret (json 404 (ErrorBody "Recipient user not found"), locals)
              | Some recipient =>
                  share <- userSharesData.createUserShare
                    (userSharesData.mkInput
                       (WellFormed (vs_fileId validatedData))
                       (WellFormed (userId u))
                       (WellFormed (User._id recipient))
                       (vs_expirationMinutes validatedData)
                       (vs_maxAccessCount validatedData)) ;;
                  ret (json 201 (UserShareCreated share recipient), locals)
              end
          | _ =>
              share <- createShareLink (vs_fileId validatedData) (userId u)
                         (vs_expirationMinutes validatedData)
                         (vs_maxAccessCount validatedData) ;;
              ret (json 201 (LinkShareCreated share), locals)
          end
    end)
    (fun e =>
       match e with
       | ZodError => ret (json 400 ValidationFailed, noLocals)
       | JsError message =>
           if includes "already shared" message
           then ret (json 409 (ErrorBody message), noLocals)
           else console_error "Share creation error:" ;;;
                ret (json 500 (ErrorBody "Failed to create share"), noLocals)
       | _ =>
           console_error "Share creation error:" ;;;
           ret (json 500 (ErrorBody "Failed to create share"), noLocals)
       end).

Definition create_details (req : Request) (locals : Locals) : Details :=
  match body req with
  | Some b =>
      [("shareType",
        match b_shareType b with
        | ShareUser => JString "user"
        | ShareLinkType => JString "link"
        | ShareOther => JNull
        end);
       ("expirationMinutes",
        match b_expirationMinutes b with Some m => JNumber m | None => JNull end);
       ("maxAccessCount",
        match b_maxAccessCount b with Some m => JNumber m | None => JNull end)
      ]%string
  | None => []
  end.

(** POST /api/share/create *)
Definition create : Request -> Async Response :=
  auth (fun u => auditLogger SHARE_CREATED (Some create_details)
                   (create_handler u)).


End Collaborators.

End shareRoutes.

(** ** routes/audit.js *)
Module auditRoutes.

(** What the route sends: a 200 with the logs, or another response. *)
Inductive LogsResponse :=
| Logs (logs : list AuditLog.t)
| NoLogs (res : Response).

(** GET /api/audit/file/:fileId, the handler behind auth *)
Definition file_logs (u : AuthUser) (req : Request) : Async LogsResponse :=
  try_catch (
    fileId <- fileIdSchema_parse (params_fileId req) ;;
    (* Verify file exists and ownership *)
    file <- filesData.getFileById (WellFormed fileId) ;;
    match file with
    | None => ret (NoLogs (json 404 (ErrorBody "File not found")))
    | Some file =>
        if negb (File.ownerId file =? userId u) then
          ret (NoLogs (json 404 (ErrorBody "File not found")))
        else
          (* Get audit logs *)
          logs <- auditLogsData.getAuditLogsByFile (WellFormed fileId) ;;
          ret (Logs logs)
    end)
    (catch_route "Get audit logs error:" "Failed to retrieve audit logs" NoLogs).

End auditRoutes.

(** ** Vocabulary of the properties *)

(** What a computation leaves alone: [keeps R m] says that every call [m]
    can make relates the world before it to the world after it by [R]. *)
Fixpoint keeps {A} (R : World -> World -> Prop) (m : Async A) : Prop :=
  match m with
  | Done _ => True
  | Sync op k => (forall w, R w (snd (op w))) /\ (forall x, keeps R (k x))
  | Await op k => (forall w, R w (snd (op w))) /\ (forall r, keeps R (k r))
  end.

(** Between two worlds, nothing but the audit log (and the bookkeeping
    around the database) may differ. *)
Definition only_audit_grows (w w' : World) : Prop :=
  users (db w') = users (db w) /\ files (db w') = files (db w)
  /\ shareLinks (db w') = shareLinks (db w)
  /\ userShares (db w') = userShares (db w).

(** The share link a token names. *)
Definition stored_link (d : Db) (token : string) : option ShareLink.t :=
  find (shareLinksData.has_token token) (shareLinks d).

(** The database deleteUserAccount commits for user [u]. *)
Definition purged (u : ObjectId) (d : Db) : Db :=
  let ids := map File._id (filter (filesData.owned_by u) (files d)) in
  mkDb (Collection.deleteOne (fun x => User._id x =? u) (users d))
       (Collection.deleteMany (filesData.owned_by u) (files d))
       (Collection.deleteMany (fun s => ShareLink.ownerId s =? u) (shareLinks d))
       (Collection.deleteMany (fun s => UserShare.ownerId s =? u) (userShares d))
       (Collection.updateMany (usersData.actor_elsewhere u ids) AuditLog.anonymize
          (Collection.deleteMany (usersData.fileId_in ids) (auditLogs d))).

(** The user share a share id names. *)
Definition stored_share (d : Db) (id : ObjectId) : option UserShare.t :=
  find (fun s => UserShare._id s =? id) (userShares d).

(** The expiration policy in the spec's words: the active flag is set, the
    expiry is absent or in the future, the maximum access count is absent or
    above the current count. *)
Definition policy_allows (share : UserShare.t) (now : Date) : Prop :=
  UserShare.isActive share = true
  /\ (forall e, UserShare.expiresAt share = Some e -> (now < e)%Z)
  /\ (forall m, UserShare.maxAccessCount share = Some m ->
                (UserShare.accessCount share < m)%Z).

(** The same policy as a boolean. *)
Definition policy_allowsb (share : UserShare.t) (now : Date) : bool :=
  UserShare.isActive share
  && match UserShare.expiresAt share with
     | Some e => (now <? e)%Z
     | None => true
     end
  && match UserShare.maxAccessCount share with
     | Some m => (UserShare.accessCount share <? m)%Z
     | None => true
     end.

Definition verdict_of (d : Db) (now : Date) (id : ObjectId) : bool :=
  match stored_share d id with
  | Some share => policy_allowsb share now
  | None => false
  end.

(** How many active user shares a (file, recipient) pair has. *)
Definition count_active (fileId recipientId : ObjectId) (l : list UserShare.t)
  : nat :=
  List.length (filter (userSharesData.active_for fileId recipientId) l).

Definition at_most_one_active (l : list UserShare.t) : Prop :=
  forall fileId recipientId, count_active fileId recipientId l <= 1.

(** What MongoDB and its driver guarantee of the _id field: no two documents
    share one, and a new one differs from those in use. *)
Definition ids_in_order (next : ObjectId) (l : list UserShare.t) : Prop :=
  NoDup (map UserShare._id l) /\ Forall (fun s => UserShare._id s < next) l.

(** The audit entry refers to a file that [u] owns. *)
Definition on_own_file (d : Db) (u : ObjectId) (l : AuditLog.t) : bool :=
  match AuditLog.fileId l with
  | Some f => existsb (fun x => (File._id x =? f) && (File.ownerId x =? u)) (files d)
  | None => false
  end.

(** The audit entry refers to a file that somebody else owns. *)
Definition on_file_of_another (d : Db) (u : ObjectId) (l : AuditLog.t) : Prop :=
  exists f, In f (files d)
            /\ AuditLog.fileId l = Some (File._id f) /\ File.ownerId f <> u.

(** The reading of the account-deletion rule under which the entries that
    get anonymized are exactly the user's entries on other users' files. *)
Definition anonymizes_exactly_guest_entries (w : World) (u : ObjectId) : Prop :=
  let after :=
    auditLogs (db (snd (run (usersData.deleteUserAccount (WellFormed u)) w))) in
  forall l, In l (auditLogs (db w)) -> AuditLog.userId l = Value u ->
            (In (AuditLog.anonymize l) after <-> on_file_of_another (db w) u l).

(** The file a request names is missing, or somebody else owns it. *)
Definition not_requesters_file (d : Db) (fileId : ObjectId) (u : AuthUser)
  : Prop :=
  forall f, find (filesData.has_id fileId) (files d) = Some f ->
            File.ownerId f <> userId u.

Definition file_not_found : Response := json 404 (ErrorBody "File not found").


(** User [u] is not the owner of file [fileId] but holds the user share [s]
    of it: the share the download route picks for [u], in a collection whose
    _id values are unique. *)
Definition shared_with (d : Db) (u : AuthUser) (fileId : ObjectId)
    (s : UserShare.t) : Prop :=
  (exists file, find (filesData.has_id fileId) (files d) = Some file
                /\ File.ownerId file <> userId u)
  /\ NoDup (map UserShare._id (userShares d))
  /\ userSharesData.latest
       (filter (userSharesData.active_for fileId (userId u)) (userShares d))
     = Some s.

Definition share_rejected : Response :=
  json 403 (ErrorBody "Share has expired or reached maximum accesses").

(** The two ways a share that is still flagged active stops being usable. *)
Definition expired_or_exhausted (s : UserShare.t) (now : Date) : Prop :=
  (exists e, UserShare.expiresAt s = Some e /\ (e <= now)%Z)
  \/ (exists m, UserShare.maxAccessCount s = Some m
                /\ (m <= UserShare.accessCount s)%Z).

(** How many of the responses are a 200. *)
Definition successes (l : list Response) : nat :=
  List.length (filter (fun r => status r =? 200) l).

(** The responses of the requests that have been answered. *)
Definition answered (ts : list (Async Response)) : list Response :=
  flat_map (fun t => match settled t with
                     | Some (Ok r) => [r]
                     | _ => []
                     end) ts.

(** However the awaits of [n] concurrent downloads of a shared file are
    interleaved, no more of them succeed than the share allows. *)
Definition never_over_consumed (w : World) (req : Request) (s : UserShare.t)
  : Prop :=
  forall (sched : list nat) (n : nat) (N : Z),
    UserShare.maxAccessCount s = Some N ->
    (Z.of_nat (successes
                 (answered (fst (interleave sched
                                   (repeat (fileRoutes.download req) n) w))))
     <= N)%Z.

(** ** Sample data *)

(** A share of file 1 by user 10 with user 20, used twice out of three
    times and expiring at 5000. *)
Definition sample_share : UserShare.t :=
  UserShare.mk 7 1 10 20 (Some 5000%Z) (Some 3%Z) 2%Z true 100%Z 100%Z.

Definition sample_db : Db := mkDb [] [] [] [sample_share] [].

Definition sample_world : World := mkWorld sample_db None 1000%Z 50 0 [] [].

Definition sample_input : userSharesData.CreateUserShareInput :=
  userSharesData.mkInput (WellFormed 1) (WellFormed 10) (WellFormed 20)
                         None (Some 5%Z).

(** Alice (user 1) owns file 5, which has a public link, a share with user
    2 and one audit entry. *)
Definition alice : AuthUser := mkAuthUser 1 "alice".

Definition alice_file : File.t :=
  File.mk 5 "a.pdf" "1/a.pdf" None 10%Z "application/pdf" 1 0%Z None 0%Z.

Definition alice_link : ShareLink.t :=
  ShareLink.mk 6
    "00000000000000000000000000000000000000000000000000000000000000aa"
    5 1 None (Some 1%Z) 0%Z true 0%Z 0%Z.

Definition alice_share : UserShare.t :=
  UserShare.mk 8 5 1 2 None (Some 1%Z) 0%Z true 0%Z 0%Z.

Definition upload_entry : AuditLog.t :=
  AuditLog.mk 30 (Some 5) UPLOAD (Value 1) (Some "alice"%string) None None None 0%Z.

Definition alice_db : Db :=
  mkDb [User.mk 1 "alice" "alice@example.com"; User.mk 2 "bob" "bob@example.com"]
       [alice_file] [alice_link] [alice_share] [upload_entry].

Definition alice_world : World := mkWorld alice_db None 1000%Z 50 0 [] [].

(** The same world, with the third call to the outside rejected. *)
Definition third_call_fails : World := mkWorld alice_db None 1000%Z 50 0 [2] [].

(** DELETE /api/files/5 sent by Alice. *)
Definition delete_request : Request :=
  mkRequest (Some alice) (Some (WellFormed 5)) None "" None None None None None.

(** The world once Alice has deleted her file, and the DELETE entry that
    auditLogger wrote when the response went out. *)
Definition after_file_deleted : World :=
  snd (run (fileRoutes.delete delete_request) alice_world).

Definition delete_entry : AuditLog.t :=
  AuditLog.mk 50 (Some 5) DELETE (Value 1) (Some "alice"%string)
              (Some "Unknown"%string) None None 1000%Z.

(** GET or POST on Alice's public link, by an anonymous caller. *)
Definition link_request : Request :=
  mkRequest None None None
    "00000000000000000000000000000000000000000000000000000000000000aa"
    None None None None None.

(** Alice's world when the audit insert of a public-link download (the
    seventh call to the outside) is rejected, and when the audit insert of
    her own download (the fourth call) is. *)
Definition link_audit_fails : World := mkWorld alice_db None 1000%Z 50 0 [6] [].

Definition owner_audit_fails : World := mkWorld alice_db None 1000%Z 50 0 [3] [].

(** Alice's world when the audit insert of a revocation (the fifth call to
    the outside) is rejected, and her PATCH /api/share/user/8/revoke. *)
Definition revoke_audit_fails : World := mkWorld alice_db None 1000%Z 50 0 [4] [].

Definition revoke_request : Request :=
  mkRequest (Some alice) None (Some (WellFormed 8)) "" None None None None None.

(** GET /api/files/download/5 sent by Alice. *)
Definition owner_download_request : Request :=
  mkRequest (Some alice) (Some (WellFormed 5)) None "" None None None None None.

(** Bob (user 2) asks for Alice's file 5, and for a file 9 nobody has. *)
Definition bob : AuthUser := mkAuthUser 2 "bob".

Definition bob_request : Request :=
  mkRequest (Some bob) (Some (WellFormed 5)) None "" None None None None None.



(** Two downloads in flight: both get through the check before either
    increments. *)
Definition both_check_first : list nat :=
  repeat 0 3 ++ repeat 1 3 ++ repeat 0 4 ++ repeat 1 4.

(** The same for [n] concurrent downloads through a public link. *)
Definition link_never_over_consumed (w : World) (req : Request)
    (l : ShareLink.t) : Prop :=
  forall (sched : list nat) (n : nat) (N : Z),
    ShareLink.maxAccessCount l = Some N ->
    (Z.of_nat (successes
                 (answered (fst (interleave sched
                                   (repeat (shareRoutes.download req) n) w))))
     <= N)%Z.

(** Two downloads through a link in flight: both get the answer of
    validateShareLink before either goes on. *)
Definition link_both_check_first : list nat :=
  [0; 1] ++ repeat 0 6 ++ repeat 1 6.

(** The share createUserShare builds from validated data when the clock reads
    [t] and the driver hands out the id [id] (setMinutes being the addition
    of that many minutes, as it is where the server's clock has no
    daylight-saving changes). *)
Definition built_share (v : userSharesData.ValidatedUserShare) (id : ObjectId)
    (t : Date) : UserShare.t :=
  UserShare.mk id (userSharesData.v_fileId v) (userSharesData.v_ownerId v)
    (userSharesData.v_recipientId v)
    (option_map (fun m => (t + m * 60000)%Z)
                (userSharesData.v_expirationMinutes v))
    (userSharesData.v_maxAccessCount v) 0%Z true t t.

(** However the awaits of [n] creations of one user share that are in flight
    together are interleaved, every pair ends with at most one active
    share. *)
Definition one_active_in_any_order (w : World)
    (data : userSharesData.CreateUserShareInput) : Prop :=
  forall (sched : list nat) (n : nat),
    at_most_one_active
      (userShares (db (snd (interleave sched
                              (repeat (userSharesData.createUserShare data) n)
                              w)))).

(** Two creations in flight: both look for the active share before either
    writes. *)
Definition both_look_first : list nat := [0; 1; 0; 1; 0; 1].

(** ** Vocabulary and sample data of the data-layer and route properties *)

(** The list is in descending order of [key]. *)
Fixpoint newest_first {A} (key : A -> Z) (l : list A) : Prop :=
  match l with
  | [] => True
  | x :: r => (forall y, In y r -> (key y <= key x)%Z) /\ newest_first key r
  end.

(** The enriched share getActiveUserSharesByFile builds from a share. *)
Definition enriched (d : Db) (share : UserShare.t) : EnrichedShare :=
  mkEnrichedShare share
    (find (fun u => User._id u =? UserShare.recipientId share) (users d))
    match UserShare.maxAccessCount share with
    | Some m => Some (Z.max 0 (m - UserShare.accessCount share))
    | None => None
    end.

(** The inputs createUserShareSchema turns down: an id that is not an
    ObjectId, an owner and a recipient given by the same string, no limit at
    all, an expiry outside 10 minutes to one year, a maximum that is not
    positive. *)
Definition rejected_input (data : userSharesData.CreateUserShareInput) : Prop :=
  userSharesData.in_fileId data = Malformed
  \/ userSharesData.in_ownerId data = Malformed
  \/ userSharesData.in_recipientId data = Malformed
  \/ userSharesData.in_ownerId data = userSharesData.in_recipientId data
  \/ (userSharesData.in_expirationMinutes data = None
      /\ userSharesData.in_maxAccessCount data = None)
  \/ (exists m, userSharesData.in_expirationMinutes data = Some m
                /\ (m < 10 \/ 525960 < m)%Z)
  \/ (exists m, userSharesData.in_maxAccessCount data = Some m /\ (m <= 0)%Z).

(** Owner 10 shares file 1 with themselves. *)
Definition self_share_input : userSharesData.CreateUserShareInput :=
  userSharesData.mkInput (WellFormed 1) (WellFormed 10) (WellFormed 10)
                         None (Some 5%Z).

(** Owner 10 shares file 1 with themselves, the recipient's id being spelled
    with upper-case digits (...0a and ...0A). *)
Definition respelled_self_share : userSharesData.CreateUserShareInput :=
  userSharesData.mkInput (WellFormed 1) (WellFormed 10) (Respelled 10 0)
                         None (Some 5%Z).

(** Owner 10 shares file 1 with user 30 for an hour. *)
Definition hour_input : userSharesData.CreateUserShareInput :=
  userSharesData.mkInput (WellFormed 1) (WellFormed 10) (WellFormed 30)
                         (Some 60%Z) None.


(** Bob (user 2) has two shares of file 5 from Alice, the older one
    revoked; Carol's account (user 3) is gone but a share of hers with Bob
    is still there. *)
Definition old_share : UserShare.t :=
  UserShare.mk 8 5 1 2 None (Some 1%Z) 0%Z false 10%Z 20%Z.

Definition new_share : UserShare.t :=
  UserShare.mk 9 5 1 2 None (Some 4%Z) 0%Z true 20%Z 20%Z.

Definition orphan_share : UserShare.t :=
  UserShare.mk 11 6 3 2 None (Some 4%Z) 0%Z true 30%Z 30%Z.

Definition shares_db : Db :=
  mkDb [User.mk 1 "alice" "alice@example.com"; User.mk 2 "bob" "bob@example.com"]
       [alice_file] [] [old_share; new_share; orphan_share] [].

Definition shares_world : World := mkWorld shares_db None 1000%Z 50 0 [] [].

(** The characters a path or a shell gives a meaning to: the separators
    / and \, the colon, the wildcards, the redirections, the pipe and the
    double quote. *)
Definition special_chars : list nat := [47; 92; 58; 42; 63; 60; 62; 124; 34].

(** A name of 200 characters of three bytes each (E6 96 87, a CJK
    character). *)
Definition cjk_name : string :=
  string_of_list_ascii
    (List.concat
       (repeat (map Ascii.ascii_of_nat [230; 150; 135]) 200)).

(** File 5 was uploaded at 0 and downloaded at 10; its owner changed its
    category at 20. *)
Definition activity_log : list AuditLog.t :=
  [AuditLog.mk 30 (Some 5) UPLOAD (Value 1) None None None None 0%Z;
   AuditLog.mk 31 (Some 5) DOWNLOAD (Value 1) None None None None 10%Z;
   AuditLog.mk 32 (Some 5) CATEGORY_CHANGE (Value 1) None None None None 20%Z].

Definition activity_world : World :=
  mkWorld (mkDb [] [alice_file] [] [] activity_log) None 1000%Z 50 0 [] [].

(** The audit entries of a file. *)
Definition trail_of (d : Db) (fileId : ObjectId) : list AuditLog.t :=
  filter (filesData.audit_on_file fileId) (auditLogs d).

(** Alice's download of file 5, as auditLogger reports it. *)
Definition download_audit : auditLogsData.AuditData :=
  auditLogsData.mkAuditData (Some (WellFormed 5)) DOWNLOAD
    (Some (WellFormed 1)) (Some "alice"%string) (Some "Unknown"%string) None
    (Some [("via", JString "owner")]%string).

(** The file id auditLogger finds for a request: the route parameter, else
    the body's, else the one the handler left in res.locals. *)
Definition audited_file (req : Request) (locals : Locals) : option IdParam :=
  or_else (params_fileId req)
    (or_else (match body req with Some b => Some (b_fileId b) | None => None end)
             (l_fileId locals)).

(** The entry auditLogger writes when the response is a 2xx about file
    [f], in a world whose clock and id generator are those of [w]. *)
Definition logged_entry (action : Action)
    (detailsExtractor : option (Request -> Locals -> Details))
    (req : Request) (locals : Locals) (f : ObjectId) (w : World) : AuditLog.t :=
  AuditLog.mk (nextId w) (Some f) action
    match user req with Some u => Value (userId u) | None => Missing end
    match user req with Some u => Some (au_username u) | None => None end
    (getClientIp req) (getLocation req)
    match detailsExtractor with Some g => Some (g req locals) | None => None end
    (now w).

(** Alice's request for file 5, its id spelled with upper-case digits,
    through a proxy that sends an empty x-forwarded-for and her address in
    x-real-ip. *)
Definition proxied_request : Request :=
  mkRequest (Some alice) (Some (Respelled 5 0)) None EmptyString None
            (Some EmptyString) (Some "10.0.0.7"%string)
            (Some "127.0.0.1"%string) None.

(** A handler that answers [res] without doing anything else. *)
Definition answering (res : Response) (locals : Locals) (req : Request)
  : Async (Response * Locals) := ret (res, locals).

(** Carol (user 3) has nothing to do with Alice's file 5. *)
Definition carol : AuthUser := mkAuthUser 3 "carol".

Definition carol_request : Request :=
  mkRequest (Some carol) (Some (WellFormed 5)) None "" None None None None None.

(** Bob asks to revoke share 8, which Alice gave him. *)
Definition bob_revoke_request : Request :=
  mkRequest (Some bob) None (Some (WellFormed 8)) "" None None None None None.

(** The database deleteFile leaves when its four statements go through. *)
Definition without_file (fileId : ObjectId) (d : Db) : Db :=
  mkDb (users d)
       (Collection.deleteOne (filesData.has_id fileId) (files d))
       (Collection.deleteMany (fun s => ShareLink.fileId s =? fileId) (shareLinks d))
       (Collection.deleteMany (fun s => UserShare.fileId s =? fileId) (userShares d))
       (Collection.deleteMany (filesData.audit_on_file fileId) (auditLogs d)).

(** Alice's world when the object store rejects the deletion of the file's
    content, the sixth call of DELETE /api/files/5 to the outside. *)
Definition store_delete_fails : World := mkWorld alice_db None 1000%Z 50 0 [5] [].

(** A well-formed token that names no share link. *)
Definition unknown_token_request : Request :=
  mkRequest None None None
    "00000000000000000000000000000000000000000000000000000000000000bb"
    None None None None None.

(** The audit log of [w'] is the audit log of [w] with entries added at its
    end. *)
Definition audit_appended (w w' : World) : Prop :=
  exists suffix, auditLogs (db w') = auditLogs (db w) ++ suffix.

(** The requests of the two routes of a signed-in user that write to the
    audit log by inserting only: downloads of a file and revocations of a
    user share. *)
Definition appending_request (t : Async Response) : Prop :=
  exists req,
    t = fileRoutes.download req \/ t = shareRoutes.revoke_user_share req.

(** The requests of the two public routes of a share link. *)
Definition link_route_request (t : Async Response) : Prop :=
  exists req, t = shareRoutes.view req \/ t = shareRoutes.download req.

(** Two requests in flight, their awaits settling in turn: Bob downloads
    file 5 while Alice revokes his share; a view and a download of Alice's
    link. *)
Definition download_and_revoke : list (Async Response) :=
  [fileRoutes.download bob_request; shareRoutes.revoke_user_share revoke_request].

Definition view_and_download : list (Async Response) :=
  [shareRoutes.view link_request; shareRoutes.download link_request].

Definition taking_turns : list nat := List.concat (repeat [0; 1] 8).

(** Another user has the username. *)
Definition username_taken (d : Db) (u : ObjectId) (name : string) : Prop :=
  exists x, In x (users d) /\ User.username x = name /\ User._id x <> u.

(** An email schema that accepts nothing; the properties below are about
    updates of the username alone. *)
Definition no_email (s : string) : option string := None.

(** Alice's world when the update of the audit log that follows a change
    of username, the third call to the outside, is rejected. *)
Definition rename_audit_fails : World := mkWorld alice_db None 1000%Z 50 0 [2] [].

(** None of the [n] calls to the outside that start at the current tick is
    rejected. *)
Definition answers_next (n : nat) (w : World) : Prop :=
  forall k, k < n -> existsb (Nat.eqb (k + tick w)) (faults w) = false.

(** Alice's world when the commit of a transaction of eight calls is
    rejected. *)
Definition commit_fails : World := mkWorld alice_db None 1000%Z 50 0 [7] [].

(** A lookup of the recipient that finds the user with the given id in the
    users collection, whatever the identifier. *)
Definition lookup_user (id : ObjectId) (identifier : string)
  : Async (option User.t) :=
  query false (fun d => Collection.findOne (fun x => User._id x =? id) (users d)).

(** A stand-in for createShareLink where it is not reached. *)
Definition no_link (fileId ownerId : ObjectId) (expirationMinutes maxAccessCount : option Z)
  : Async ShareLink.t := throw TypeError.

(** Alice shares her file 5 with a user, for three downloads. *)
Definition share_request : Request :=
  mkRequest (Some alice) None None ""
    (Some (mkShareBody (WellFormed 5) ShareUser (Some "someone"%string)
                       None (Some 3%Z)))
    None None None None.

(** * Properties *)

(** ** Running asynchronous computations *)

Lemma run_bind {A B} (m : Async A) (f : A -> Async B) (w : World) :
  run (bind m f) w =
  match run m w with
  | (Ok a, w') => run (f a) w'
  | (Err e, w') => (Err e, w')
  end.
Proof.
  revert w. induction m as [[a|e]|X op k IH|X op k IH]; intros w; simpl; auto;
    destruct (op w) as [r w']; apply IH.
Qed.

Lemma run_try_catch {A} (m : Async A) (h : Error -> Async A) (w : World) :
  run (try_catch m h) w =
  match run m w with
  | (Ok a, w') => (Ok a, w')
  | (Err e, w') => run (h e) w'
  end.
Proof.
  revert w. induction m as [[a|e]|X op k IH|X op k IH]; intros w; simpl; auto;
    destruct (op w) as [r w']; apply IH.
Qed.

Lemma fails_no_faults (w : World) : faults w = [] -> fails w = false.
Proof. unfold fails. intros ->. reflexivity. Qed.

Section Keeps.
Variable R : World -> World -> Prop.
Hypothesis R_refl : forall w, R w w.
Hypothesis R_trans : forall a b c, R a b -> R b c -> R a c.

Lemma keeps_run {A} (m : Async A) :
  keeps R m -> forall w, R w (snd (run m w)).
Proof.
  induction m as [r|X op k IH|X op k IH]; simpl; intros H w.
  - apply R_refl.
  - destruct H as [Hop Hk]. specialize (Hop w).
    destruct (op w) as [r w']. simpl in Hop.
    eapply R_trans; [exact Hop|]. apply IH, Hk.
  - destruct H as [Hop Hk]. specialize (Hop w).
    destruct (op w) as [r w']. simpl in Hop.
    eapply R_trans; [exact Hop|]. apply IH, Hk.
Qed.

Lemma keeps_bind {A B} (m : Async A) (f : A -> Async B) :
  keeps R m -> (forall a, keeps R (f a)) -> keeps R (bind m f).
Proof.
  induction m as [[a|e]|X op k IH|X op k IH]; simpl; intros H Hf; auto;
    destruct H as [Hop Hk]; split; auto.
Qed.

Lemma keeps_try_catch {A} (m : Async A) (h : Error -> Async A) :
  keeps R m -> (forall e, keeps R (h e)) -> keeps R (try_catch m h).
Proof.
  induction m as [[a|e]|X op k IH|X op k IH]; simpl; intros H Hh; auto;
    destruct H as [Hop Hk]; split; auto.
Qed.

Lemma keeps_to_next_await {A} (m : Async A) :
  keeps R m ->
  forall w, R w (snd (to_next_await m w))
            /\ keeps R (fst (to_next_await m w)).
Proof.
  induction m as [r|X op k IH|X op k IH]; intros H w.
  - split; [apply R_refl|exact H].
  - destruct H as [Hop Hk]. specialize (Hop w). cbn.
    destruct (op w) as [x w']. cbn in Hop.
    destruct (IH x (Hk x) w') as [H1 H2].
    split; [eapply R_trans; eassumption|exact H2].
  - split; [apply R_refl|exact H].
Qed.

Lemma keeps_step_thread {A} (m : Async A) :
  keeps R m ->
  forall w, R w (snd (step_thread m w)) /\ keeps R (fst (step_thread m w)).
Proof.
  intros H w. destruct m as [r|X op k|X op k].
  - split; [apply R_refl|exact H].
  - apply keeps_to_next_await, H.
  - destruct H as [Hop Hk]. specialize (Hop w). cbn.
    destruct (op w) as [r w']. cbn in Hop.
    destruct (keeps_to_next_await (k r) (Hk r) w') as [H1 H2].
    split; [eapply R_trans; eassumption|exact H2].
Qed.

Lemma keeps_step_nth {A} (ts : list (Async A)) :
  Forall (keeps R) ts ->
  forall i w, R w (snd (step_nth i ts w))
              /\ Forall (keeps R) (fst (step_nth i ts w)).
Proof.
  induction 1 as [|t r Ht Hr IH]; intros i w.
  - destruct i; simpl; (split; [apply R_refl|constructor]).
  - destruct i as [|j].
    + cbn. destruct (keeps_step_thread t Ht w) as [H1 H2].
      destruct (step_thread t w) as [t' w']. cbn in *.
      split; [exact H1|constructor; assumption].
    + specialize (IH j w). cbn.
      destruct (step_nth j r w) as [r' w'].
      cbn in *. destruct IH as [IH1 IH2].
      split; [exact IH1|constructor; assumption].
Qed.

(** Whatever the order in which the event loop settles the awaits. *)
Lemma keeps_interleave {A} (sched : list nat) :
  forall (ts : list (Async A)) w,
    Forall (keeps R) ts -> R w (snd (interleave sched ts w)).
Proof.
  induction sched as [|i rest IH]; intros ts w H; simpl.
  - apply R_refl.
  - destruct (keeps_step_nth H i w) as [H1 H2].
    destruct (step_nth i ts w) as [ts' w']. simpl in *.
    eapply R_trans; [exact H1|]. apply IH, H2.
Qed.
End Keeps.

(** ** Running the calls to the outside, when they go through *)

Lemma bump_set_db_same (w : World) : bump (set_db (db w) w) = bump w.
Proof. destruct w; reflexivity. Qed.

Lemma run_statement {X} (f : Db -> X * Db) (w : World) :
  fails w = false ->
  run (statement false f) w
  = (Ok (fst (f (db w))), bump (set_db (snd (f (db w))) w)).
Proof.
  intros Hf. cbn. rewrite Hf. destruct (f (db w)); reflexivity.
Qed.

Lemma run_query {X} (f : Db -> X) (w : World) :
  fails w = false -> run (query false f) w = (Ok (f (db w)), bump w).
Proof.
  intros Hf. unfold query. rewrite run_statement by exact Hf.
  cbn [fst snd]. rewrite bump_set_db_same. reflexivity.
Qed.

Lemma run_newDate (w : World) : run newDate w = (Ok (now w), w).
Proof. reflexivity. Qed.

Lemma run_newObjectId (w : World) : run newObjectId w = (Ok (nextId w), bump_id w).
Proof. reflexivity. Qed.

Lemma run_console_error (line : string) (w : World) :
  run (console_error line) w = (Ok tt, print line w).
Proof. reflexivity. Qed.

Lemma run_s3_call {X} (x : X) (w : World) :
  fails w = false -> run (s3.call x) w = (Ok x, bump w).
Proof. intros Hf. cbn. rewrite Hf. reflexivity. Qed.

Lemma run_ret {A} (a : A) (w : World) : run (ret a) w = (Ok a, w).
Proof. reflexivity. Qed.

Lemma run_throw {A} (e : Error) (w : World) : run (@throw A e) w = (Err e, w).
Proof. reflexivity. Qed.

(** ** Running the data layer, when the store answers *)

Lemma run_getFileById (id : ObjectId) (w : World) :
  fails w = false ->
  run (filesData.getFileById (WellFormed id)) w
  = (Ok (find (filesData.has_id id) (files (db w))), bump w).
Proof.
  intros Hf. unfold filesData.getFileById. cbn [objectIdSchema_parse bind ret].
  apply run_query, Hf.
Qed.

Lemma run_getShareLinkByToken (token : string) (w : World) :
  fails w = false ->
  run (shareLinksData.getShareLinkByToken token) w
  = (Ok (stored_link (db w) token), bump w).
Proof. intros Hf. apply run_query, Hf. Qed.

Lemma run_validateShareLink (token : string) (w : World) :
  fails w = false ->
  run (shareLinksData.validateShareLink token) w
  = (Ok match stored_link (db w) token with
        | Some l => shareLinksData.isActive l (now w)
        | None => false
        end, bump w).
Proof.
  intros Hf. unfold shareLinksData.validateShareLink.
  rewrite run_bind, run_query by exact Hf.
  unfold stored_link, Collection.findOne.
  destruct (find _ (shareLinks (db w))); reflexivity.
Qed.

Lemma run_incrementShareAccess (token : string) (w : World) :
  fails w = false ->
  exists n,
  run (shareLinksData.incrementShareAccess token) w
  = (Ok n,
     bump (set_db (on_shareLinks
                     (Collection.updateOne
                        (fun s => shareLinksData.has_token token s
                                  && shareLinksData.has_capacity s)
                        (shareLinksData.consume (now w))) (db w)) w)).
Proof.
  intros Hf. eexists. unfold shareLinksData.incrementShareAccess.
  rewrite run_bind, run_newDate. rewrite run_statement by exact Hf.
  reflexivity.
Qed.

Lemma run_updateAccessStats (id : ObjectId) (w : World) :
  fails w = false ->
  exists n,
  run (filesData.updateAccessStats (WellFormed id)) w
  = (Ok n,
     bump (set_db (on_files
                     (Collection.updateOne (filesData.has_id id)
                                           (filesData.touch (now w))) (db w)) w)).
Proof.
  intros Hf. eexists. unfold filesData.updateAccessStats.
  cbn [objectIdSchema_parse bind ret].
  rewrite run_bind, run_newDate. rewrite run_statement by exact Hf.
  reflexivity.
Qed.

Lemma run_createAuditLog (a : auditLogsData.AuditData) (v : auditLogsData.ValidatedAudit)
      (w : World) :
  fails w = false ->
  auditLogsData.createAuditLogSchema_parse a = ret v ->
  exists entry,
  run (auditLogsData.createAuditLog a) w
  = (Ok entry,
     bump (set_db (on_auditLogs (Collection.insertOne entry) (db w)) (bump_id w))).
Proof.
  intros Hf Hv. eexists. unfold auditLogsData.createAuditLog.
  rewrite Hv. cbn [bind ret].
  rewrite run_bind, run_newDate, run_bind, run_newObjectId, run_bind.
  rewrite run_statement by exact Hf. reflexivity.
Qed.

Ltac wsimpl :=
  cbn [db txn now nextId tick faults console bump set_db set_txn bump_id print
       fst snd users files shareLinks userShares auditLogs
       on_users on_files on_shareLinks on_userShares on_auditLogs].

Ltac answers Hw := apply fails_no_faults; wsimpl; exact Hw.


Lemma audit_parse_link (fileId : option ObjectId) (action : Action)
      (ip loc : option string) (details : option Details) :
  auditLogsData.createAuditLogSchema_parse
    (auditLogsData.mkAuditData
       match fileId with Some f => Some (WellFormed f) | None => None end
       action None None ip loc details)
  = ret (auditLogsData.mkValidatedAudit fileId None).
Proof. destruct fileId; reflexivity. Qed.

(** ** The expiration policy (validateUserShare) *)

Lemma policy_allowsb_spec (share : UserShare.t) (now : Date) :
  policy_allowsb share now = true <-> policy_allows share now.
Proof.
  unfold policy_allowsb, policy_allows.
  rewrite !andb_true_iff.
  destruct (UserShare.expiresAt share) as [e|];
    destruct (UserShare.maxAccessCount share) as [m|];
    rewrite ?Z.ltb_lt; split; intros [[H1 H2] H3] || intros [H1 [H2 H3]];
    repeat split; auto; try congruence;
    try (intros x Hx; inversion Hx; subst; assumption).
Qed.

Lemma validateUserShare_run (w : World) (id : ObjectId) :
  fails w = false ->
  run (userSharesData.validateUserShare (WellFormed id)) w
  = (Ok (verdict_of (db w) (now w) id), bump w).
Proof.
  intros Hf. unfold userSharesData.validateUserShare, verdict_of, stored_share.
  cbn. rewrite Hf. cbn.
  unfold Collection.findOne, userSharesData.has_id.
  destruct (find _ (userShares (db w))) as [share|]; cbn; [|destruct w; reflexivity].
  unfold policy_allowsb.
  destruct (UserShare.isActive share); cbn; [|destruct w; reflexivity].
  destruct (UserShare.expiresAt share) as [e|]; cbn.
  - rewrite Z.geb_leb, Z.leb_antisym.
    destruct (now w <? e)%Z; cbn; [|destruct w; reflexivity].
    destruct (UserShare.maxAccessCount share) as [m|]; cbn; [|destruct w; reflexivity].
    rewrite Z.geb_leb, Z.leb_antisym.
    destruct (UserShare.accessCount share <? m)%Z; destruct w; reflexivity.
  - destruct (UserShare.maxAccessCount share) as [m|]; cbn; [|destruct w; reflexivity].
    rewrite Z.geb_leb, Z.leb_antisym.
    destruct (UserShare.accessCount share <? m)%Z; destruct w; reflexivity.
Qed.

Lemma validateUserShare_again (id : ObjectId) (l : list nat) :
  forall w, faults w = [] ->
  run (mapM (fun _ => userSharesData.validateUserShare (WellFormed id)) l) w
  = (Ok (map (fun _ => verdict_of (db w) (now w) id) l),
     Nat.iter (List.length l) bump w).
Proof.
  induction l as [|x l IH]; intros w Hw; [reflexivity|].
  cbn [mapM map List.length]. rewrite run_bind.
  rewrite validateUserShare_run by (apply fails_no_faults, Hw).
  rewrite run_bind, (IH (bump w)) by exact Hw. cbn [run ret].
  f_equal. rewrite Nat.iter_succ_r. reflexivity.
Qed.

Lemma iter_bump_frame (n : nat) (w : World) :
  db (Nat.iter n bump w) = db w /\ txn (Nat.iter n bump w) = txn w
  /\ now (Nat.iter n bump w) = now w /\ console (Nat.iter n bump w) = console w.
Proof.
  induction n as [|n IH]; cbn; [repeat split|exact IH].
Qed.

(** C3. validateUserShare answers true exactly when the share exists, its
    active flag is set, its expiry is absent or strictly in the future, and
    its maximum access count is absent or strictly above the access count;
    an evaluation changes neither the database nor the clock nor the console,
    and any number of evaluations in a row give the same verdict. *)
Theorem validateUserShare_policy (w : World) (id : ObjectId) (n : nat) :
  faults w = [] ->
  let once := run (userSharesData.validateUserShare (WellFormed id)) w in
  let again :=
    run (mapM (fun _ => userSharesData.validateUserShare (WellFormed id))
              (seq 0 n)) w in
  exists verdict : bool,
    fst once = Ok verdict
    /\ (verdict = true <->
        exists share, stored_share (db w) id = Some share
                      /\ policy_allows share (now w))
    /\ db (snd once) = db w /\ txn (snd once) = txn w
    /\ now (snd once) = now w /\ console (snd once) = console w
    /\ fst again = Ok (repeat verdict n)
    /\ db (snd again) = db w /\ txn (snd again) = txn w
    /\ now (snd again) = now w /\ console (snd again) = console w.
Proof.
  intros Hw once again. subst once again.
  rewrite validateUserShare_run by (apply fails_no_faults, Hw).
  rewrite validateUserShare_again by exact Hw.
  exists (verdict_of (db w) (now w) id). cbn [fst snd].
  split; [reflexivity|]. split.
  - unfold verdict_of. destruct (stored_share (db w) id) as [share|].
    + rewrite policy_allowsb_spec. split.
      * intros H. exists share. auto.
      * intros [s [Hs H]]. inversion Hs. subst. exact H.
    + split; [discriminate|]. intros [s [Hs _]]. discriminate.
  - repeat (split; [reflexivity|]).
    split.
    + f_equal. clear. generalize 0.
      induction n as [|n IH]; intros k; cbn; [reflexivity|].
      f_equal. apply IH.
    + apply iter_bump_frame.
Qed.

Lemma validateUserShare_policy_witness :
  exists verdict : bool,
    fst (run (userSharesData.validateUserShare (WellFormed 7)) sample_world)
    = Ok verdict
    /\ (verdict = true <->
        exists share, stored_share sample_db 7 = Some share
                      /\ policy_allows share 1000%Z).
Proof.
  destruct (@validateUserShare_policy sample_world 7 3 eq_refl)
    as [v [H1 [H2 _]]].
  exists v. split; [exact H1|exact H2].
Defined.

(** ** One active user share per file and recipient (createUserShare) *)

Section UpdateById.
Variable i : ObjectId.
Variable g : UserShare.t -> UserShare.t.
Hypothesis g_id : forall x, UserShare._id (g x) = UserShare._id x.

Let upd (x : UserShare.t) : UserShare.t :=
  if userSharesData.has_id i x then g x else x.

Lemma updateOne_unique (l : list UserShare.t) :
  NoDup (map UserShare._id l) ->
  Collection.updateOne (userSharesData.has_id i) g l = map upd l.
Proof.
  induction l as [|x r IH]; intros Hnd; [reflexivity|].
  inversion Hnd as [|? ? Hnotin Hr]; subst. cbn. unfold upd at 1.
  destruct (userSharesData.has_id i x) eqn:E.
  - f_equal. symmetry.
    unfold userSharesData.has_id in E. apply Nat.eqb_eq in E.
    clear IH Hnd Hr. induction r as [|y r IHr]; [reflexivity|].
    cbn. rewrite IHr by (intros H; apply Hnotin; right; exact H).
    f_equal. unfold upd, userSharesData.has_id.
    destruct (UserShare._id y =? i) eqn:Ey; [|reflexivity].
    apply Nat.eqb_eq in Ey. exfalso. apply Hnotin. left. congruence.
  - f_equal. apply IH, Hr.
Qed.

Lemma upd_ids (l : list UserShare.t) :
  map UserShare._id (map upd l) = map UserShare._id l.
Proof.
  rewrite map_map. apply map_ext. intros x. unfold upd.
  destruct (userSharesData.has_id i x); [apply g_id|reflexivity].
Qed.

Lemma filter_upd (p : UserShare.t -> bool) (l : list UserShare.t) :
  (forall x, p (g x) = p x) ->
  filter p (map upd l) = map upd (filter p l).
Proof.
  intros Hp. induction l as [|x r IH]; [reflexivity|]. cbn.
  assert (E : p (upd x) = p x)
    by (unfold upd; destruct (userSharesData.has_id i x); auto).
  rewrite E. destruct (p x); cbn; rewrite IH; reflexivity.
Qed.

Lemma latest_upd (l : list UserShare.t) :
  (forall x, UserShare.createdAt (g x) = UserShare.createdAt x) ->
  userSharesData.latest (map upd l) = option_map upd (userSharesData.latest l).
Proof.
  intros Hc.
  assert (E : forall x, UserShare.createdAt (upd x) = UserShare.createdAt x)
    by (intros x; unfold upd; destruct (userSharesData.has_id i x); auto).
  induction l as [|x r IH]; [reflexivity|]. cbn. rewrite IH.
  destruct (userSharesData.latest r) as [y|]; cbn; [|reflexivity].
  rewrite !E. destruct (UserShare.createdAt x <? UserShare.createdAt y)%Z;
    reflexivity.
Qed.
End UpdateById.

Section Deactivation.
Variable i : ObjectId.
Variable t : Date.

Let upd (x : UserShare.t) : UserShare.t :=
  if userSharesData.has_id i x then UserShare.set_isActive false t x else x.

Lemma upd_inactive fileId recipientId (x : UserShare.t) :
  userSharesData.active_for fileId recipientId (upd x) = true ->
  userSharesData.active_for fileId recipientId x = true
  /\ userSharesData.has_id i x = false.
Proof.
  unfold upd. destruct (userSharesData.has_id i x); [|auto].
  unfold userSharesData.active_for. cbn. rewrite andb_false_r. discriminate.
Qed.

Lemma count_active_upd fileId recipientId (l : list UserShare.t) :
  count_active fileId recipientId (map upd l)
  <= count_active fileId recipientId l.
Proof.
  unfold count_active. induction l as [|x r IH]; [apply le_n|]. cbn.
  destruct (userSharesData.active_for fileId recipientId (upd x)) eqn:E.
  - apply upd_inactive in E. destruct E as [E _]. rewrite E. cbn. lia.
  - destruct (userSharesData.active_for fileId recipientId x); cbn; lia.
Qed.
End Deactivation.

Lemma find_only (A : Type) (p : A -> bool) (l : list A) (e : A) :
  find p l = Some e -> List.length (filter p l) <= 1 -> filter p l = [e].
Proof.
  induction l as [|x r IH]; cbn; [discriminate|].
  destruct (p x) eqn:E.
  - intros H Hlen. inversion H; subst. cbn in Hlen.
    destruct (filter p r); [reflexivity|cbn in Hlen; lia].
  - apply IH.
Qed.

Lemma find_none_filter (A : Type) (p : A -> bool) (l : list A) :
  find p l = None -> filter p l = [].
Proof.
  induction l as [|x r IH]; cbn; [reflexivity|].
  destruct (p x); [discriminate|exact IH].
Qed.

Lemma filter_nil_all (A : Type) (p : A -> bool) (l : list A) :
  (forall x, In x l -> p x = false) -> filter p l = [].
Proof.
  induction l as [|x r IH]; intros H; [reflexivity|]. cbn.
  rewrite (H x) by (left; reflexivity). apply IH. intros y Hy. apply H.
  right. exact Hy.
Qed.

Lemma deactivated_none fileId recipientId t (l : list UserShare.t) (e : UserShare.t) :
  find (userSharesData.active_for fileId recipientId) l = Some e ->
  count_active fileId recipientId l <= 1 ->
  count_active fileId recipientId
    (map (fun x => if userSharesData.has_id (UserShare._id e) x
                   then UserShare.set_isActive false t x else x) l) = 0.
Proof.
  intros Hfind Hone. unfold count_active in *.
  pose proof (find_only _ _ Hfind Hone) as Honly.
  rewrite filter_nil_all; [reflexivity|].
  intros y Hy. apply in_map_iff in Hy. destruct Hy as [x [Hx Hin]]. subst y.
  destruct (userSharesData.active_for fileId recipientId
              (if userSharesData.has_id (UserShare._id e) x
               then UserShare.set_isActive false t x else x)) eqn:E; [|reflexivity].
  apply upd_inactive in E. destruct E as [E1 E2].
  assert (Hxe : In x (filter (userSharesData.active_for fileId recipientId) l))
    by (apply filter_In; split; assumption).
  rewrite Honly in Hxe. destruct Hxe as [<-|[]].
  unfold userSharesData.has_id in E2. rewrite Nat.eqb_refl in E2. discriminate.
Qed.

Lemma deactivateExisting_run (v : userSharesData.ValidatedUserShare) (w : World) :
  faults w = [] ->
  exists w',
    run (userSharesData.deactivateExisting v) w = (Ok tt, w')
    /\ faults w' = [] /\ nextId w' = nextId w /\ now w' = now w
    /\ userShares (db w')
       = match find (userSharesData.active_for (userSharesData.v_fileId v)
                                               (userSharesData.v_recipientId v))
                    (userShares (db w)) with
         | Some e =>
             Collection.updateOne (userSharesData.has_id (UserShare._id e))
               (UserShare.set_isActive false (now w)) (userShares (db w))
         | None => userShares (db w)
         end.
Proof.
  intros Hw. unfold userSharesData.deactivateExisting. cbn.
  rewrite (fails_no_faults w Hw). cbn. unfold Collection.findOne.
  destruct (find _ (userShares (db w))) as [e|]; cbn.
  - unfold fails. cbn. rewrite Hw. cbn.
    eexists. split; [reflexivity|]. cbn. auto.
  - eexists. split; [reflexivity|]. cbn. auto.
Qed.

Lemma insertNew_run (v : userSharesData.ValidatedUserShare) (w : World) :
  faults w = [] ->
  exists w' share,
    run (userSharesData.insertNew v) w = (Ok share, w')
    /\ faults w' = [] /\ nextId w' = S (nextId w)
    /\ userShares (db w') = userShares (db w) ++ [share]
    /\ UserShare._id share = nextId w
    /\ UserShare.fileId share = userSharesData.v_fileId v
    /\ UserShare.ownerId share = userSharesData.v_ownerId v
    /\ UserShare.recipientId share = userSharesData.v_recipientId v
    /\ UserShare.isActive share = true
    /\ UserShare.accessCount share = 0%Z.
Proof.
  intros Hw. unfold userSharesData.insertNew.
  destruct (userSharesData.v_expirationMinutes v) as [m|]; cbn;
    unfold fails; cbn; rewrite Hw; cbn;
    do 2 eexists; (split; [reflexivity|]); cbn; repeat split; auto.
Qed.

Lemma count_active_new fileId recipientId (l : list UserShare.t) (s : UserShare.t) :
  count_active fileId recipientId (l ++ [s])
  = count_active fileId recipientId l
    + (if userSharesData.active_for fileId recipientId s then 1 else 0).
Proof.
  unfold count_active. rewrite filter_app, length_app. cbn.
  destruct (userSharesData.active_for fileId recipientId s); reflexivity.
Qed.

Lemma ids_in_order_new (next : ObjectId) (l : list UserShare.t) (s : UserShare.t) :
  ids_in_order next l -> UserShare._id s = next ->
  ids_in_order (S next) (l ++ [s]).
Proof.
  intros [Hnd Hlt] Hid. split.
  - rewrite map_app. cbn. apply NoDup_app; [exact Hnd|repeat constructor; auto|].
    intros x Hx [Hy|[]]. subst x. apply in_map_iff in Hx.
    destruct Hx as [y [Hy Hin]]. rewrite Forall_forall in Hlt.
    specialize (Hlt y Hin). lia.
  - apply Forall_app. split.
    + eapply Forall_impl; [|exact Hlt].
      intros a Ha. cbn in *. apply Nat.lt_lt_succ_r. exact Ha.
    + constructor; [|constructor]. rewrite Hid. apply Nat.lt_succ_diag_r.
Qed.

Lemma deactivated_shares (v : userSharesData.ValidatedUserShare) (w w' : World) :
  faults w = [] ->
  run (userSharesData.deactivateExisting v) w = (Ok tt, w') ->
  at_most_one_active (userShares (db w)) ->
  ids_in_order (nextId w) (userShares (db w)) ->
  count_active (userSharesData.v_fileId v) (userSharesData.v_recipientId v)
               (userShares (db w')) = 0
  /\ at_most_one_active (userShares (db w'))
  /\ ids_in_order (nextId w') (userShares (db w'))
  /\ faults w' = [].
Proof.
  intros Hw Hrun Hone [Hnd Hlt].
  destruct (deactivateExisting_run v w Hw) as [w1 [Hrun1 [Hf [Hn [_ Hus]]]]].
  rewrite Hrun in Hrun1. inversion Hrun1; subst w1. clear Hrun1.
  rewrite Hus, Hn.
  destruct (find _ (userShares (db w))) as [e|] eqn:Hfind.
  - rewrite updateOne_unique by exact Hnd. repeat split.
    + apply deactivated_none; [exact Hfind|apply Hone].
    + intros f r. eapply Nat.le_trans; [apply count_active_upd|apply Hone].
    + rewrite upd_ids by reflexivity. exact Hnd.
    + rewrite Forall_forall in *. intros y Hy. apply in_map_iff in Hy.
      destruct Hy as [x [Hx Hin]]. subst y.
      destruct (userSharesData.has_id (UserShare._id e) x);
        exact (Hlt x Hin).
    + exact Hf.
  - repeat split; auto.
    unfold count_active. rewrite (find_none_filter _ _ Hfind). reflexivity.
Qed.

(** The other writes to the collection never activate a share: the
    updates of deactivateUserShare, revokeAllUserSharesByFile and
    incrementUserShareAccess and the deletions of the cascades leave every
    pair with at most as many active shares as before. *)
Lemma count_active_updated fileId recipientId (p : UserShare.t -> bool)
      (g : UserShare.t -> UserShare.t) (l : list UserShare.t) :
  (forall x, userSharesData.active_for fileId recipientId (g x) = true ->
             userSharesData.active_for fileId recipientId x = true) ->
  count_active fileId recipientId (Collection.updateOne p g l)
  <= count_active fileId recipientId l
  /\ count_active fileId recipientId (Collection.updateMany p g l)
     <= count_active fileId recipientId l.
Proof.
  intros Hg. unfold count_active. split.
  - induction l as [|x r IH]; [apply le_n|]. cbn.
    destruct (p x); cbn.
    + destruct (userSharesData.active_for fileId recipientId (g x)) eqn:E.
      * rewrite (Hg x E). apply le_n.
      * destruct (userSharesData.active_for fileId recipientId x); cbn; lia.
    + destruct (userSharesData.active_for fileId recipientId x); cbn; lia.
  - unfold Collection.updateMany.
    induction l as [|x r IH]; [apply le_n|]. cbn.
    destruct (p x).
    + destruct (userSharesData.active_for fileId recipientId (g x)) eqn:E.
      * rewrite (Hg x E). cbn. lia.
      * destruct (userSharesData.active_for fileId recipientId x); cbn; lia.
    + destruct (userSharesData.active_for fileId recipientId x); cbn; lia.
Qed.

Lemma other_writes_keep_one_active (p : UserShare.t -> bool) (t : Date)
      (l : list UserShare.t) :
  at_most_one_active l ->
  at_most_one_active
    (Collection.updateOne p (UserShare.set_isActive false t) l)
  /\ at_most_one_active
       (Collection.updateMany p (UserShare.set_isActive false t) l)
  /\ at_most_one_active
       (Collection.updateOne p (UserShare.inc_accessCount t) l)
  /\ at_most_one_active (Collection.deleteMany p l).
Proof.
  intros Hone.
  assert (Hoff : forall f r x,
             userSharesData.active_for f r (UserShare.set_isActive false t x) = true ->
             userSharesData.active_for f r x = true).
  { intros f r x. unfold userSharesData.active_for. cbn.
    rewrite andb_false_r. discriminate. }
  assert (Hinc : forall f r x,
             userSharesData.active_for f r (UserShare.inc_accessCount t x) = true ->
             userSharesData.active_for f r x = true)
    by (intros f r x H; exact H).
  repeat split; intros f r.
  - eapply Nat.le_trans; [apply count_active_updated, Hoff|apply Hone].
  - eapply Nat.le_trans; [apply count_active_updated, Hoff|apply Hone].
  - eapply Nat.le_trans; [apply count_active_updated, Hinc|apply Hone].
  - eapply Nat.le_trans; [|apply (Hone f r)].
    unfold count_active, Collection.deleteMany. clear.
    induction l as [|x l IH]; [apply le_n|]. cbn.
    destruct (p x); cbn;
      destruct (userSharesData.active_for f r x); cbn; lia.
Qed.

(** ** Cascade deletion (deleteUserAccount, deleteFile) *)

Ltac fault_case :=
  match goal with
  | |- context [if existsb ?p ?l then _ else _] =>
      destruct (existsb p l); cbn
  end.

Lemma deleteUserAccount_outcome (w : World) (u : ObjectId) :
  let r := run (usersData.deleteUserAccount (WellFormed u)) w in
  txn (snd r) = None
  /\ ((exists counts, fst r = Ok counts /\ db (snd r) = purged u (db w))
      \/ (exists e, fst r = Err e /\ db (snd r) = db w)).
Proof.
  unfold usersData.deleteUserAccount, withTransaction, fails. cbn.
  unfold fails. cbn.
  repeat (fault_case; [split; [reflexivity|right; eexists; split; reflexivity]|]).
  split; [reflexivity|]. left. eexists. split; reflexivity.
Qed.

(** C9. Whether deleteUserAccount commits or rolls back, the user shares the
    user does not own (in particular those in which the user is only the
    recipient) are afterwards exactly what they were, record for record; when
    it commits, the user shares left are those and no others. *)
Theorem deleteUserAccount_keeps_received_shares (w : World) (u : ObjectId) :
  let r := run (usersData.deleteUserAccount (WellFormed u)) w in
  let not_owned := fun s => negb (UserShare.ownerId s =? u) in
  filter not_owned (userShares (db (snd r)))
  = filter not_owned (userShares (db w))
  /\ (forall s, In s (userShares (db w)) ->
                UserShare.recipientId s = u -> UserShare.ownerId s <> u ->
                In s (userShares (db (snd r))))
  /\ userShares (db (snd r))
     = match fst r with
       | Ok _ => filter not_owned (userShares (db w))
       | Err _ => userShares (db w)
       end.
Proof.
  intros r not_owned.
  assert (Hlast : userShares (db (snd r))
                  = match fst r with
                    | Ok _ => filter not_owned (userShares (db w))
                    | Err _ => userShares (db w)
                    end).
  { destruct (deleteUserAccount_outcome w u) as [_ [[c [H1 H2]]|[e [H1 H2]]]];
      fold r in H1, H2; rewrite H1, H2; reflexivity. }
  assert (Hfirst : filter not_owned (userShares (db (snd r)))
                   = filter not_owned (userShares (db w))).
  { rewrite Hlast. destruct (fst r); [|reflexivity].
    clear. induction (userShares (db w)) as [|x l IH]; [reflexivity|].
    cbn. destruct (not_owned x) eqn:E; cbn; rewrite ?E, IH; reflexivity. }
  split; [exact Hfirst|]. split; [|exact Hlast].
  intros s Hin _ Hown.
  assert (Hs : In s (filter not_owned (userShares (db w)))).
  { apply filter_In. split; [exact Hin|]. unfold not_owned.
    apply negb_true_iff, Nat.eqb_neq. exact Hown. }
  rewrite <- Hfirst in Hs. apply filter_In in Hs. apply Hs.
Qed.

Lemma deleteUserAccount_keeps_received_shares_witness :
  In alice_share
     (userShares (db (snd (run (usersData.deleteUserAccount (WellFormed 2))
                               alice_world)))).
Proof.
  destruct (deleteUserAccount_keeps_received_shares alice_world 2) as [_ [H _]].
  apply (H alice_share (or_introl eq_refl) eq_refl).
  cbn. discriminate.
Defined.

Lemma fileId_in_own (d : Db) (u : ObjectId) (l : AuditLog.t) :
  usersData.fileId_in
    (map File._id (filter (filesData.owned_by u) (files d))) l
  = on_own_file d u l.
Proof.
  unfold usersData.fileId_in, on_own_file.
  destruct (AuditLog.fileId l) as [f|]; [|reflexivity].
  induction (files d) as [|x r IH]; [reflexivity|]. cbn.
  unfold filesData.owned_by at 1.
  destruct (File.ownerId x =? u); cbn.
  - rewrite IH, andb_true_r, (Nat.eqb_sym f). reflexivity.
  - rewrite IH, andb_false_r. reflexivity.
Qed.

(** The audit log deleteUserAccount leaves. When it commits, the log is the
    old one without the entries that refer to a file the user owns at that
    moment, and with every remaining entry whose actor is the user rewritten
    (userId null, username "[Deleted User]"). When it rolls back, the audit
    log is unchanged. *)
Lemma deleteUserAccount_audit_trail (w : World) (u : ObjectId) :
  let r := run (usersData.deleteUserAccount (WellFormed u)) w in
  auditLogs (db (snd r))
  = match fst r with
    | Ok _ =>
        map (fun l => if usersData.acted_by u l then AuditLog.anonymize l else l)
            (filter (fun l => negb (on_own_file (db w) u l)) (auditLogs (db w)))
    | Err _ => auditLogs (db w)
    end.
Proof.
  intros r.
  destruct (deleteUserAccount_outcome w u) as [_ [[c [H1 H2]]|[e [H1 H2]]]];
    fold r in H1, H2; rewrite H1, H2; [|reflexivity].
  unfold purged. cbn [auditLogs].
  unfold Collection.updateMany, Collection.deleteMany.
  rewrite (filter_ext _ (fun l => negb (on_own_file (db w) u l)))
    by (intros l; rewrite fileId_in_own; reflexivity).
  apply map_ext_in. intros l Hl. apply filter_In in Hl. destruct Hl as [_ Hl].
  unfold usersData.actor_elsewhere. rewrite fileId_in_own, Hl, andb_true_r.
  reflexivity.
Qed.

Example delete_route_leaves_entry :
  fst (run (fileRoutes.delete delete_request) alice_world)
  = Ok (json 200 (FileDeleted 5 (filesData.mkDeleteFileResult 1 1 1 1)))
  /\ files (db after_file_deleted) = []
  /\ auditLogs (db after_file_deleted) = [delete_entry].
Proof. vm_compute. repeat split. Qed.

(** C5, at the failing input. Alice owns file 5 and deletes it through the
    delete route: the cascade removes the file and its audit entries, and the
    DELETE entry that auditLogger writes after it stays, its file reference
    dangling. Then Alice deletes her account. Step 1 finds no file of hers,
    so step 5 deletes no entry (auditLogsOwnFiles is 0) and the filter of
    step 6, fileId not among her files, lets the DELETE entry of her own file
    through: it is kept and anonymized (auditLogsAnonymized is 1), although
    no file of another user is involved: the database holds no file at
    all. *)
Theorem deleteUserAccount_anonymizes_own_file_entry :
  let w := after_file_deleted in
  let r := run (usersData.deleteUserAccount (WellFormed 1)) w in
  fst (run (fileRoutes.delete delete_request) alice_world)
  = Ok (json 200 (FileDeleted 5 (filesData.mkDeleteFileResult 1 1 1 1)))
  /\ (find (filesData.has_id 5) (files (db alice_world)) = Some alice_file
      /\ File.ownerId alice_file = 1)
  /\ (files (db w) = [] /\ auditLogs (db w) = [delete_entry]
      /\ AuditLog.fileId delete_entry = Some 5
      /\ AuditLog.userId delete_entry = Value 1)
  /\ (exists counts,
        fst r = Ok counts
        /\ usersData.c_auditLogsOwnFiles counts = 0
        /\ usersData.c_auditLogsAnonymized counts = 1)
  /\ auditLogs (db (snd r)) = [AuditLog.anonymize delete_entry]
  /\ ~ on_file_of_another (db w) 1 delete_entry
  /\ ~ anonymizes_exactly_guest_entries w 1.
Proof.
  intros w r. subst w r.
  split; [vm_compute; reflexivity|].
  split; [split; reflexivity|].
  split; [vm_compute; repeat split; reflexivity|].
  split; [eexists; vm_compute; repeat split; reflexivity|].
  split; [vm_compute; reflexivity|].
  assert (Hnone : ~ on_file_of_another (db after_file_deleted) 1 delete_entry).
  { intros [f [Hf _]]. vm_compute in Hf. exact Hf. }
  split; [exact Hnone|].
  intros H.
  assert (Hl : In delete_entry (auditLogs (db after_file_deleted)))
    by (vm_compute; left; reflexivity).
  specialize (H delete_entry Hl eq_refl).
  destruct H as [H _]. apply Hnone, H.
  vm_compute. left. reflexivity.
Qed.

(** C2, at the failing input. With the third statement rejected, deleteFile
    throws after the file and its share links are gone while its user shares
    and audit entries are still there; deleteUserAccount, under the same
    rejection, leaves the database as it was. *)
Theorem deleteFile_partial_on_error :
  let r := run (filesData.deleteFile (WellFormed 5)) third_call_fails in
  let r' := run (usersData.deleteUserAccount (WellFormed 1)) third_call_fails in
  fst r = Err MongoError
  /\ files (db (snd r)) = [] /\ shareLinks (db (snd r)) = []
  /\ userShares (db (snd r)) = [alice_share]
  /\ auditLogs (db (snd r)) = [upload_entry]
  /\ fst r' = Err MongoError /\ db (snd r') = alice_db.
Proof. vm_compute. repeat split. Qed.

(** ** Viewing a shared file (GET /api/share/:token) *)

Lemma only_audit_grows_refl (w : World) : only_audit_grows w w.
Proof. repeat split. Qed.

Lemma only_audit_grows_trans (a b c : World) :
  only_audit_grows a b -> only_audit_grows b c -> only_audit_grows a c.
Proof.
  unfold only_audit_grows. intros [H1 [H2 [H3 H4]]] [K1 [K2 [K3 K4]]].
  repeat split; congruence.
Qed.

Ltac keeps_brute :=
  repeat (cbn;
    match goal with
    | |- True => exact I
    | |- _ /\ _ => split
    | |- forall _, _ => intro
    | |- only_audit_grows _ _ => unfold only_audit_grows, fails
    | |- _ = _ => reflexivity
    | |- context [match ?x with _ => _ end] => destruct x
    end).

Lemma view_keeps (req : Request) :
  keeps only_audit_grows (shareRoutes.view req).
Proof.
  unfold shareRoutes.view, shareTokenSchema_parse, catch_route.
  keeps_brute.
Qed.

Lemma consumed_link (token : string) (t : Date) (links : list ShareLink.t)
      (l : ShareLink.t) :
  find (shareLinksData.has_token token) links = Some l ->
  shareLinksData.has_capacity l = true ->
  find (shareLinksData.has_token token)
       (Collection.updateOne
          (fun s => shareLinksData.has_token token s
                    && shareLinksData.has_capacity s)
          (shareLinksData.consume t) links)
  = Some (shareLinksData.consume t l).
Proof.
  induction links as [|y r IH]; cbn; [discriminate|].
  destruct (shareLinksData.has_token token y) eqn:E; cbn.
  - intros H Hcap. inversion H; subst y. rewrite Hcap. cbn.
    unfold shareLinksData.has_token in *. cbn. rewrite E. reflexivity.
  - intros H Hcap. cbn. rewrite E. apply IH; assumption.
Qed.

(** What POST /api/share/:token/download does to the share it serves. *)
Lemma link_download_consumes (w : World) (req : Request) (l : ShareLink.t)
      (res : Response) :
  faults w = [] ->
  stored_link (db w) (params_token req) = Some l ->
  fst (run (shareRoutes.download req) w) = Ok res ->
  status res = 200 ->
  stored_link (db (snd (run (shareRoutes.download req) w))) (params_token req)
  = Some (shareLinksData.consume (now w) l).
Proof.
  intros Hw Hl.
  unfold shareRoutes.download. rewrite run_try_catch, run_bind.
  unfold shareTokenSchema_parse.
  destruct (shareTokenSchema_ok (params_token req));
    [rewrite run_ret|rewrite run_throw; cbn; intros H; inversion H; subst; discriminate].
  rewrite run_bind, run_validateShareLink by answers Hw. rewrite Hl.
  destruct (shareLinksData.isActive l (now w)) eqn:Hact; cbn [negb].
  - unfold shareRoutes.link_and_file.
    rewrite !run_bind, run_getShareLinkByToken by answers Hw.
    wsimpl. rewrite Hl. rewrite run_bind, run_getFileById by answers Hw.
    wsimpl. rewrite run_ret. wsimpl.
    destruct (find _ (files (db w))) as [file|];
      [|rewrite run_ret; cbn; intros H; inversion H; subst; discriminate].
    unfold s3.getDownloadUrl.
    rewrite run_bind, run_s3_call by answers Hw.
    rewrite run_bind.
    edestruct run_incrementShareAccess as [n1 ->]; [answers Hw|].
    rewrite run_bind.
    edestruct run_updateAccessStats as [n2 ->]; [answers Hw|].
    rewrite run_bind.
    edestruct run_createAuditLog as [entry ->];
      [answers Hw|apply (audit_parse_link (Some (File._id file)))|].
    rewrite run_ret. wsimpl. intros _ _.
    unfold stored_link. wsimpl. apply consumed_link; [exact Hl|].
    unfold shareLinksData.isActive in Hact.
    apply andb_true_iff in Hact. apply Hact.
  - unfold shareRoutes.reject_expired.
    rewrite run_bind, run_getShareLinkByToken by answers Hw.
    wsimpl. rewrite Hl. rewrite run_bind.
    edestruct run_createAuditLog as [entry ->];
      [answers Hw|apply (audit_parse_link (Some (ShareLink.fileId l)))|].
    rewrite run_ret. cbn. intros H; inversion H; subst; discriminate.
Qed.

(** C10. GET /api/share/:token leaves the share links as they are, whatever
    the token, the state of the share or the failures on the way: the share
    a token names has the same access counter after the view as before. The
    counter moves on POST /api/share/:token/download, which on a 200 response
    has added one to it. *)
Theorem view_never_consumes (w : World) (req : Request) :
  let viewed := snd (run (shareRoutes.view req) w) in
  let downloaded := run (shareRoutes.download req) w in
  shareLinks (db viewed) = shareLinks (db w)
  /\ (forall l, stored_link (db w) (params_token req) = Some l ->
        exists l', stored_link (db viewed) (params_token req) = Some l'
                   /\ ShareLink.accessCount l' = ShareLink.accessCount l)
  /\ (forall l res,
        faults w = [] ->
        stored_link (db w) (params_token req) = Some l ->
        fst downloaded = Ok res -> status res = 200 ->
        exists l', stored_link (db (snd downloaded)) (params_token req) = Some l'
                   /\ ShareLink.accessCount l'
                      = (ShareLink.accessCount l + 1)%Z).
Proof.
  intros viewed downloaded.
  assert (Hkeep : only_audit_grows w viewed).
  { apply (@keeps_run only_audit_grows only_audit_grows_refl
                        only_audit_grows_trans).
    apply view_keeps. }
  destruct Hkeep as [_ [_ [Hlinks _]]].
  split; [exact Hlinks|]. split.
  - intros l Hl. exists l. unfold stored_link in *. rewrite Hlinks.
    split; [exact Hl|reflexivity].
  - intros l res Hw Hl Hres Hstatus.
    exists (shareLinksData.consume (now w) l). split; [|reflexivity].
    apply (@link_download_consumes w req l res Hw Hl Hres Hstatus).
Qed.

Lemma view_never_consumes_witness :
  shareLinks (db (snd (run (shareRoutes.view link_request) alice_world)))
  = [alice_link]
  /\ exists l',
       stored_link (db (snd (run (shareRoutes.download link_request) alice_world)))
                   (params_token link_request) = Some l'
       /\ ShareLink.accessCount l' = 1%Z.
Proof.
  destruct (view_never_consumes alice_world link_request) as [H1 [_ H3]].
  split; [exact H1|].
  assert (Hres : fst (run (shareRoutes.download link_request) alice_world)
                 = Ok (json 200 (LinkDownload "https://s3/1/a.pdf" "a.pdf"
                                              (Some 0%Z))))
    by (vm_compute; reflexivity).
  exact (H3 alice_link _ eq_refl eq_refl Hres eq_refl).
Defined.

(** ** Audit appends that fail *)

Lemma run_logged (m : Async unit) (line : string) (w : World) :
  fst (run (try_catch m (fun _ => console_error line)) w) = Ok tt
  /\ (forall e w', run m w = (Err e, w') ->
        console (snd (run (try_catch m (fun _ => console_error line)) w))
        = console w' ++ [line]).
Proof.
  rewrite run_try_catch. destruct (run m w) as [[[]|e] w']; cbn.
  - split; [reflexivity|]. intros e w1 H. discriminate.
  - split; [reflexivity|]. intros e1 w1 H. inversion H. reflexivity.
Qed.

(** Behind auditLogger, the response of the handler goes out as it is,
    whether the audit entry could be written or not. *)
Lemma auditLogger_sends_response (action : Action)
      (detailsExtractor : option (Request -> Locals -> Details))
      (next : Request -> Async (Response * Locals)) (req : Request)
      (w w1 : World) (res : Response) (locals : Locals) :
  run (next req) w = (Ok (res, locals), w1) ->
  fst (run (auditLogger action detailsExtractor next req) w) = Ok res.
Proof.
  intros Hnext. unfold auditLogger. rewrite run_bind, Hnext.
  cbn [fst snd]. rewrite run_bind.
  match goal with
  | |- context [run ?m w1] =>
      assert (Hm : fst (run m w1) = Ok tt);
      [|destruct (run m w1) as [[[]|e] w2]; [reflexivity|discriminate]]
  end.
  destruct ((200 <=? status res) && (status res <? 300)); [|reflexivity].
  match goal with
  | |- context [if ?b then _ else _] => destruct b; [|reflexivity]
  end.
  apply run_logged.
Qed.

(** C6, at the failing input. The audit insert of a download through a
    public link is rejected: the route answers 500 without the download URL
    although the access has been counted, and prints the error. The same
    happens to the revocation of a user share: 500, although the share has
    been deactivated. Behind auditLogger, the same rejection leaves the 200
    response as it is and is printed too. *)
Theorem failed_audit_fails_link_download :
  let r := run (shareRoutes.download link_request) link_audit_fails in
  let r' := run (fileRoutes.download owner_download_request) owner_audit_fails in
  let r'' := run (shareRoutes.revoke_user_share revoke_request) revoke_audit_fails in
  fst r = Ok (json 500 (ErrorBody "Failed to download shared file"))
  /\ stored_link (db (snd r)) (params_token link_request)
     = Some (shareLinksData.consume 1000%Z alice_link)
  /\ auditLogs (db (snd r)) = [upload_entry]
  /\ console (snd r) = ["Share download error:"%string]
  /\ fst r'' = Ok (json 500 (ErrorBody "Failed to revoke user share"))
  /\ userShares (db (snd r''))
     = [UserShare.set_isActive false 1000%Z alice_share]
  /\ console (snd r'') = ["Revoke user share error:"%string]
  /\ fst r' = Ok (json 200 (FileDownload "https://s3/1/a.pdf" "a.pdf" 3600%Z None))
  /\ auditLogs (db (snd r')) = [upload_entry]
  /\ console (snd r') = ["Failed to create audit log:"%string].
Proof. vm_compute. repeat split. Qed.

(** ** File lookups that fail *)






(** ** Consuming a user share (GET /api/files/download/:fileId) *)


Lemma latest_In (l : list UserShare.t) (s : UserShare.t) :
  userSharesData.latest l = Some s -> In s l.
Proof.
  revert s. induction l as [|x r IH]; cbn; [discriminate|]. intros s.
  destruct (userSharesData.latest r) as [y|].
  - destruct (UserShare.createdAt x <? UserShare.createdAt y)%Z;
      intros H; inversion H; subst; auto.
  - intros H; inversion H; auto.
Qed.

Lemma find_by_id (l : list UserShare.t) (s : UserShare.t) :
  NoDup (map UserShare._id l) -> In s l ->
  find (userSharesData.has_id (UserShare._id s)) l = Some s.
Proof.
  induction l as [|x r IH]; intros Hnd Hin; [destruct Hin|].
  inversion Hnd as [|? ? Hnotin Hr]; subst. cbn.
  unfold userSharesData.has_id at 1.
  destruct Hin as [->|Hin].
  - rewrite Nat.eqb_refl. reflexivity.
  - destruct (UserShare._id x =? UserShare._id s) eqn:E.
    + apply Nat.eqb_eq in E. exfalso. apply Hnotin. rewrite E.
      apply in_map. exact Hin.
    + apply IH; assumption.
Qed.

Lemma find_touched (id : ObjectId) (t : Date) (l : list File.t) (f : File.t) :
  find (filesData.has_id id) l = Some f ->
  find (filesData.has_id id)
       (Collection.updateOne (filesData.has_id id) (filesData.touch t) l)
  = Some (filesData.touch t f).
Proof.
  induction l as [|x r IH]; cbn; [discriminate|].
  destruct (filesData.has_id id x) eqn:E; cbn.
  - intros H. inversion H; subst x. unfold filesData.has_id in *. cbn.
    rewrite E. reflexivity.
  - intros H. rewrite E. apply IH, H.
Qed.

Lemma run_getShareByFileAndRecipient (fileId recipientId : ObjectId) (w : World) :
  fails w = false ->
  run (userSharesData.getShareByFileAndRecipient
         (WellFormed fileId) (WellFormed recipientId)) w
  = (Ok (userSharesData.latest
           (filter (userSharesData.active_for fileId recipientId)
                   (userShares (db w)))), bump w).
Proof.
  intros Hf. unfold userSharesData.getShareByFileAndRecipient.
  cbn [objectIdSchema_parse bind ret]. apply run_query, Hf.
Qed.

Lemma run_incrementUserShareAccess (id : ObjectId) (w : World) :
  fails w = false ->
  exists n,
  run (userSharesData.incrementUserShareAccess (WellFormed id)) w
  = (Ok n,
     bump (set_db (on_userShares
                     (Collection.updateOne (userSharesData.has_id id)
                        (UserShare.inc_accessCount (now w))) (db w)) w)).
Proof.
  intros Hf. eexists. unfold userSharesData.incrementUserShareAccess.
  cbn [objectIdSchema_parse bind ret].
  rewrite run_bind, run_newDate. rewrite run_statement by exact Hf.
  reflexivity.
Qed.

Lemma shared_verdict (d : Db) (u : AuthUser) (fileId : ObjectId)
      (s : UserShare.t) (t : Date) :
  shared_with d u fileId s ->
  verdict_of d t (UserShare._id s) = policy_allowsb s t.
Proof.
  intros [_ [Hnd Hpick]]. unfold verdict_of, stored_share.
  apply latest_In, filter_In in Hpick. destruct Hpick as [Hin _].
  pose proof (@find_by_id (userShares d) s Hnd Hin) as H.
  unfold userSharesData.has_id in H. rewrite H. reflexivity.
Qed.

Lemma shared_after_download (d : Db) (u : AuthUser) (fileId : ObjectId)
      (s : UserShare.t) (t t' : Date) :
  shared_with d u fileId s ->
  shared_with
    (on_files (Collection.updateOne (filesData.has_id fileId) (filesData.touch t'))
       (on_userShares
          (Collection.updateOne (userSharesData.has_id (UserShare._id s))
                                (UserShare.inc_accessCount t)) d))
    u fileId (UserShare.inc_accessCount t s).
Proof.
  intros [[file [Hfile Hown]] [Hnd Hpick]]. unfold shared_with. cbn.
  rewrite updateOne_unique by exact Hnd.
  split; [|split].
  - exists (filesData.touch t' file). split; [|exact Hown].
    apply find_touched, Hfile.
  - rewrite upd_ids by reflexivity. exact Hnd.
  - rewrite filter_upd by reflexivity. rewrite latest_upd by reflexivity.
    rewrite Hpick. cbn. unfold userSharesData.has_id.
    rewrite Nat.eqb_refl. reflexivity.
Qed.

(** One download of a shared file by its recipient, the store answering. *)
Lemma download_by_recipient (w : World) (req : Request) (u : AuthUser)
      (fileId : ObjectId) (s : UserShare.t) :
  faults w = [] -> user req = Some u ->
  params_fileId req = Some (WellFormed fileId) ->
  shared_with (db w) u fileId s ->
  exists res w',
    run (fileRoutes.download req) w = (Ok res, w')
    /\ faults w' = [] /\ now w' = now w
    /\ if policy_allowsb s (now w)
       then status res = 200
            /\ userShares (db w')
               = Collection.updateOne (userSharesData.has_id (UserShare._id s))
                   (UserShare.inc_accessCount (now w)) (userShares (db w))
            /\ shared_with (db w') u fileId
                           (UserShare.inc_accessCount (now w) s)
       else res = share_rejected /\ db w' = db w.
Proof.
  intros Hw Hu Hp Hshared.
  pose proof (shared_verdict (now w) Hshared) as Hverdict.
  pose proof (shared_after_download (now w) (now w) Hshared) as Hafter.
  destruct Hshared as [[file [Hfile Hown]] [Hnd Hpick]].
  apply Nat.eqb_neq in Hown.
  unfold fileRoutes.download, auth, auditLogger. rewrite !Hu.
  rewrite run_bind. unfold fileRoutes.download_handler.
  rewrite run_try_catch, run_bind, Hp. cbn [fileIdSchema_parse].
  rewrite run_ret, run_bind, run_getFileById by answers Hw.
  rewrite Hfile. rewrite run_bind. unfold fileRoutes.download_access.
  rewrite Hown. rewrite run_bind, run_getShareByFileAndRecipient by answers Hw.
  wsimpl. rewrite Hpick.
  rewrite run_bind, validateUserShare_run by answers Hw.
  wsimpl. rewrite Hverdict.
  destruct (policy_allowsb s (now w)); cbn [negb].
  - rewrite run_bind.
    edestruct run_incrementUserShareAccess as [n1 ->]; [answers Hw|].
    rewrite run_ret. unfold s3.getDownloadUrl.
    rewrite run_bind, run_s3_call by answers Hw.
    rewrite run_bind.
    edestruct run_updateAccessStats as [n2 ->]; [answers Hw|].
    rewrite run_ret. cbn [fst snd status json is_some].
    change ((200 <=? 200) && (200 <? 300)) with true. cbv iota.
    cbn [or_else is_some orb].
    rewrite run_bind, run_try_catch, run_bind.
    edestruct run_createAuditLog as [entry ->]; [answers Hw|reflexivity|].
    rewrite !run_ret. do 2 eexists. split; [reflexivity|].
    wsimpl. split; [exact Hw|]. split; [reflexivity|].
    split; [reflexivity|]. split; [reflexivity|]. exact Hafter.
  - rewrite !run_ret. cbn [fst snd status json].
    change ((200 <=? 403) && (403 <? 300)) with false. cbv iota.
    rewrite run_bind, !run_ret. do 2 eexists. split; [reflexivity|].
    wsimpl. split; [exact Hw|]. split; [reflexivity|].
    split; [reflexivity|]. destruct w; reflexivity.
Qed.

Lemma expired_or_exhausted_rejected (s : UserShare.t) (t : Date) :
  expired_or_exhausted s t -> policy_allowsb s t = false.
Proof.
  unfold policy_allowsb.
  intros [[e [He Hle]]|[m [Hm Hle]]].
  - rewrite He. replace (t <? e)%Z with false by (symmetry; apply Z.ltb_ge, Hle).
    rewrite andb_false_r. reflexivity.
  - rewrite Hm.
    replace (UserShare.accessCount s <? m)%Z with false
      by (symmetry; apply Z.ltb_ge, Hle).
    apply andb_false_r.
Qed.

Lemma incremented_share (i : ObjectId) (t : Date) (l : list UserShare.t)
      (s : UserShare.t) :
  find (userSharesData.has_id i) l = Some s ->
  find (userSharesData.has_id i)
       (Collection.updateOne (userSharesData.has_id i)
                             (UserShare.inc_accessCount t) l)
  = Some (UserShare.inc_accessCount t s).
Proof.
  induction l as [|x r IH]; cbn; [discriminate|].
  destruct (userSharesData.has_id i x) eqn:E; cbn.
  - intros H. inversion H; subst x. unfold userSharesData.has_id in *. cbn.
    rewrite E. reflexivity.
  - intros H. rewrite E. apply IH, H.
Qed.

Lemma link_download_rejects (w : World) (req : Request) (l : ShareLink.t) :
  faults w = [] ->
  stored_link (db w) (params_token req) = Some l ->
  shareTokenSchema_ok (params_token req) = true ->
  shareLinksData.isActive l (now w) = false ->
  fst (run (shareRoutes.download req) w)
  = Ok (json 403 (ErrorBody shareRoutes.expired_message))
  /\ shareLinks (db (snd (run (shareRoutes.download req) w))) = shareLinks (db w).
Proof.
  intros Hw Hl Htok Hact.
  unfold shareRoutes.download. rewrite run_try_catch, run_bind.
  unfold shareTokenSchema_parse. rewrite Htok, run_ret.
  rewrite run_bind, run_validateShareLink by answers Hw. rewrite Hl, Hact.
  cbn [negb]. unfold shareRoutes.reject_expired.
  rewrite run_bind, run_getShareLinkByToken by answers Hw.
  wsimpl. rewrite Hl. rewrite run_bind.
  edestruct run_createAuditLog as [entry ->];
    [answers Hw|apply (audit_parse_link (Some (ShareLink.fileId l)))|].
  rewrite run_ret. split; reflexivity.
Qed.

(** C8. A download of a shared file first evaluates the policy and only
    then increments. For a user share: when the share the recipient holds is
    expired or exhausted the route answers 403 and every user share is as it
    was; when the policy allows it the route answers 200, the access count of
    the share has grown by one, its updatedAt is the time of the request and
    no other share has changed. For a public link: a link that is not active
    is answered 403 with the share links as they were, and a 200 response
    means the link's counter and updatedAt were updated. *)
Theorem consumption_checks_first :
  (forall w req u fileId s,
      faults w = [] -> user req = Some u ->
      params_fileId req = Some (WellFormed fileId) ->
      shared_with (db w) u fileId s ->
      let r := run (fileRoutes.download req) w in
      (expired_or_exhausted s (now w) ->
         fst r = Ok share_rejected
         /\ userShares (db (snd r)) = userShares (db w))
      /\ (policy_allows s (now w) ->
          exists res s',
            fst r = Ok res /\ status res = 200
            /\ stored_share (db (snd r)) (UserShare._id s) = Some s'
            /\ UserShare.accessCount s' = (UserShare.accessCount s + 1)%Z
            /\ UserShare.updatedAt s' = now w
            /\ userShares (db (snd r))
               = Collection.updateOne
                   (userSharesData.has_id (UserShare._id s))
                   (UserShare.inc_accessCount (now w)) (userShares (db w))))
  /\ (forall w req l,
        faults w = [] ->
        stored_link (db w) (params_token req) = Some l ->
        shareTokenSchema_ok (params_token req) = true ->
        let r := run (shareRoutes.download req) w in
        (shareLinksData.isActive l (now w) = false ->
           fst r = Ok (json 403 (ErrorBody shareRoutes.expired_message))
           /\ shareLinks (db (snd r)) = shareLinks (db w))
        /\ (forall res, fst r = Ok res -> status res = 200 ->
              exists l',
                stored_link (db (snd r)) (params_token req) = Some l'
                /\ ShareLink.accessCount l' = (ShareLink.accessCount l + 1)%Z
                /\ ShareLink.updatedAt l' = now w)).
Proof.
  split.
  - intros w req u fileId s Hw Hu Hp Hshared r.
    destruct (@download_by_recipient w req u fileId s Hw Hu Hp Hshared)
      as [res [w' [Hrun [_ [_ Hcase]]]]].
    subst r. rewrite Hrun. cbn [fst snd]. split.
    + intros Hbad. rewrite (@expired_or_exhausted_rejected s (now w) Hbad) in Hcase.
      destruct Hcase as [-> ->]. split; reflexivity.
    + intros Hgood. apply policy_allowsb_spec in Hgood. rewrite Hgood in Hcase.
      destruct Hcase as [Hstatus [Hshares _]].
      exists res, (UserShare.inc_accessCount (now w) s).
      repeat split; auto.
      unfold stored_share. rewrite Hshares.
      apply incremented_share.
      destruct Hshared as [_ [Hnd Hpick]].
      apply latest_In, filter_In in Hpick. destruct Hpick as [Hin _].
      apply (@find_by_id (userShares (db w)) s Hnd Hin).
  - intros w req l Hw Hl Htok r. split.
    + intros Hact. apply (@link_download_rejects w req l Hw Hl Htok Hact).
    + intros res Hres Hstatus.
      exists (shareLinksData.consume (now w) l).
      split; [|split; reflexivity].
      apply (@link_download_consumes w req l res Hw Hl Hres Hstatus).
Qed.

Lemma consumption_checks_first_witness :
  exists res s',
    fst (run (fileRoutes.download bob_request) alice_world) = Ok res
    /\ status res = 200
    /\ stored_share (db (snd (run (fileRoutes.download bob_request) alice_world)))
                    8 = Some s'
    /\ UserShare.accessCount s' = 1%Z.
Proof.
  assert (Hshared : shared_with (db alice_world) bob 5 alice_share).
  { split; [|split].
    - exists alice_file. split; [reflexivity|]. cbn. discriminate.
    - cbn. constructor; [intros []|constructor].
    - reflexivity. }
  assert (Hgood : policy_allows alice_share (now alice_world)).
  { split; [reflexivity|]. split.
    - intros e He. discriminate.
    - intros m Hm. inversion Hm. reflexivity. }
  destruct consumption_checks_first as [H _].
  destruct (H alice_world bob_request bob 5 alice_share
              eq_refl eq_refl eq_refl Hshared) as [_ H2].
  destruct (H2 Hgood) as [res [s' [H3 [H4 [H5 [H6 _]]]]]].
  exists res, s'. repeat split; assumption.
Defined.

(** ** At most N consumptions *)

(** C1, counterexample. Bob's share of file 5 allows one access. Two of his
    downloads are in flight and both pass validateUserShare before either
    reaches incrementUserShareAccess: both are answered 200 and the counter
    ends at 2. The increment itself is unconditional: on the exhausted share
    it counts once more. Alice's public link of file 5 allows one access
    too. Two downloads through it are in flight and both get the answer of
    validateShareLink before either reaches incrementShareAccess: both are
    answered 200, the route never looking at what the increment matched,
    while the counter ends at 1. *)
Lemma two_downloads_of_one :
  (let out := interleave both_check_first
                (repeat (fileRoutes.download bob_request) 2) alice_world in
   map status (answered (fst out)) = [200; 200]
   /\ map UserShare.accessCount (userShares (db (snd out))) = [2%Z]
   /\ map UserShare.maxAccessCount (userShares (db (snd out))) = [Some 1%Z]
   /\ map UserShare.accessCount
        (userShares (db (snd (run (userSharesData.incrementUserShareAccess
                                     (WellFormed 8)) (snd out))))) = [3%Z]
   /\ ~ never_over_consumed alice_world bob_request alice_share)
  /\ (let out := interleave link_both_check_first
                   (repeat (shareRoutes.download link_request) 2)
                   alice_world in
      map status (answered (fst out)) = [200; 200]
      /\ map ShareLink.accessCount (shareLinks (db (snd out))) = [1%Z]
      /\ map ShareLink.maxAccessCount (shareLinks (db (snd out))) = [Some 1%Z]
      /\ ~ link_never_over_consumed alice_world link_request alice_link).
Proof.
  split.
  - split; [vm_compute; reflexivity|]. split; [vm_compute; reflexivity|].
    split; [vm_compute; reflexivity|]. split; [vm_compute; reflexivity|].
    intros H. specialize (H both_check_first 2 1%Z eq_refl).
    vm_compute in H. apply H. reflexivity.
  - split; [vm_compute; reflexivity|]. split; [vm_compute; reflexivity|].
    split; [vm_compute; reflexivity|].
    intros H. specialize (H link_both_check_first 2 1%Z eq_refl).
    vm_compute in H. apply H. reflexivity.
Qed.

Lemma shared_active (d : Db) (u : AuthUser) (fileId : ObjectId) (s : UserShare.t) :
  shared_with d u fileId s -> UserShare.isActive s = true.
Proof.
  intros [_ [_ Hpick]]. apply latest_In, filter_In in Hpick.
  destruct Hpick as [_ H]. unfold userSharesData.active_for in H.
  apply andb_true_iff in H. apply H.
Qed.

Lemma shared_stored (d : Db) (u : AuthUser) (fileId : ObjectId) (s : UserShare.t) :
  shared_with d u fileId s -> stored_share d (UserShare._id s) = Some s.
Proof.
  intros [_ [Hnd Hpick]]. apply latest_In, filter_In in Hpick.
  destruct Hpick as [Hin _]. apply (@find_by_id (userShares d) s Hnd Hin).
Qed.

Lemma capacity_decides (s : UserShare.t) (t : Date) (N : Z) :
  UserShare.isActive s = true ->
  (forall e, UserShare.expiresAt s = Some e -> (t < e)%Z) ->
  UserShare.maxAccessCount s = Some N ->
  policy_allowsb s t = (UserShare.accessCount s <? N)%Z.
Proof.
  intros Hact Hexp Hmax. unfold policy_allowsb. rewrite Hact, Hmax.
  destruct (UserShare.expiresAt s) as [e|]; [|reflexivity].
  rewrite (proj2 (Z.ltb_lt t e) (Hexp e eq_refl)). reflexivity.
Qed.

Lemma successes_cons (res : Response) (resps : list Response) :
  successes (res :: resps)
  = (if status res =? 200 then 1 else 0) + successes resps.
Proof.
  unfold successes. cbn [filter]. destruct (status res =? 200); reflexivity.
Qed.

Lemma run_arriving_at {A} (t : Date) (m : Async A) (w : World) :
  run (arriving_at t m) w = run m (set_now t w).
Proof. reflexivity. Qed.

(** Downloads by the recipient, one after the other. *)
Lemma downloads_in_a_row (req : Request) (u : AuthUser) (fileId : ObjectId)
      (N : Z) (times : list Date) :
  user req = Some u -> params_fileId req = Some (WellFormed fileId) ->
  forall (w : World) (s : UserShare.t),
    faults w = [] -> shared_with (db w) u fileId s ->
    Forall (fun t => forall e, UserShare.expiresAt s = Some e -> (t < e)%Z)
           times ->
    UserShare.maxAccessCount s = Some N ->
    (UserShare.accessCount s <= N)%Z ->
    exists resps w' s',
      run (mapM (fun t => arriving_at t (fileRoutes.download req)) times) w
      = (Ok resps, w')
      /\ Z.of_nat (successes resps)
         = Z.min (Z.of_nat (List.length times)) (N - UserShare.accessCount s)
      /\ stored_share (db w') (UserShare._id s) = Some s'
      /\ UserShare.accessCount s'
         = (UserShare.accessCount s
            + Z.min (Z.of_nat (List.length times))
                    (N - UserShare.accessCount s))%Z.
Proof.
  intros Hu Hp. induction times as [|t times IH];
    intros w s Hw Hshared Hexp Hmax Hle.
  - exists [], w, s. cbn [mapM List.length]. rewrite run_ret.
    split; [reflexivity|]. split; [cbn; lia|].
    split; [apply (@shared_stored (db w) u fileId s Hshared)|lia].
  - inversion Hexp as [|? ? Ht Htimes]; subst.
    cbn [mapM List.length]. rewrite run_bind, run_arriving_at.
    destruct (@download_by_recipient (set_now t w) req u fileId s
                Hw Hu Hp Hshared)
      as [res [w1 [Hrun [Hw1 [_ Hcase]]]]].
    rewrite Hrun. cbn [now set_now] in Hcase.
    rewrite (@capacity_decides s t N
               (@shared_active (db w) u fileId s Hshared) Ht Hmax) in Hcase.
    destruct (UserShare.accessCount s <? N)%Z eqn:Hcap.
    + apply Z.ltb_lt in Hcap. destruct Hcase as [Hstatus [_ Hshared1]].
      destruct (IH w1 (UserShare.inc_accessCount t s) Hw1 Hshared1)
        as [resps [w2 [s2 [Hrun2 [Hcount [Hstored Hfinal]]]]]].
      * exact Htimes.
      * exact Hmax.
      * cbn. lia.
      * rewrite run_bind, Hrun2, run_ret.
        exists (res :: resps), w2, s2. split; [reflexivity|].
        cbn [UserShare.accessCount UserShare.inc_accessCount UserShare._id] in *.
        split; [|split; [exact Hstored|]].
        -- rewrite successes_cons, Hstatus. change (200 =? 200) with true.
           cbv iota. rewrite Nat2Z.inj_add, Hcount. lia.
        -- rewrite Hfinal. lia.
    + apply Z.ltb_ge in Hcap. destruct Hcase as [Hres Hdb].
      assert (Hshared1 : shared_with (db w1) u fileId s)
        by (rewrite Hdb; exact Hshared).
      destruct (IH w1 s Hw1 Hshared1)
        as [resps [w2 [s2 [Hrun2 [Hcount [Hstored Hfinal]]]]]].
      * exact Htimes.
      * exact Hmax.
      * exact Hle.
      * rewrite run_bind, Hrun2, run_ret.
        exists (res :: resps), w2, s2. split; [reflexivity|].
        split; [|split; [exact Hstored|]].
        -- rewrite successes_cons, Hres. cbn [status share_rejected json].
           change (403 =? 200) with false.
           cbv iota. rewrite Nat2Z.inj_add, Hcount. lia.
        -- rewrite Hfinal. lia.
Qed.

Lemma link_download_step (w : World) (req : Request) (l : ShareLink.t)
      (f : File.t) :
  faults w = [] ->
  shareTokenSchema_ok (params_token req) = true ->
  stored_link (db w) (params_token req) = Some l ->
  find (filesData.has_id (ShareLink.fileId l)) (files (db w)) = Some f ->
  exists res w',
    run (shareRoutes.download req) w = (Ok res, w')
    /\ faults w' = []
    /\ (exists f', find (filesData.has_id (ShareLink.fileId l)) (files (db w'))
                   = Some f')
    /\ if shareLinksData.isActive l (now w)
       then status res = 200
            /\ stored_link (db w') (params_token req)
               = Some (shareLinksData.consume (now w) l)
       else status res = 403
            /\ stored_link (db w') (params_token req) = Some l.
Proof.
  intros Hw Htok Hl Hfile.
  unfold shareRoutes.download. rewrite run_try_catch, run_bind.
  unfold shareTokenSchema_parse. rewrite Htok, run_ret.
  rewrite run_bind, run_validateShareLink by answers Hw. rewrite Hl.
  destruct (shareLinksData.isActive l (now w)) eqn:Hact; cbn [negb].
  - unfold shareRoutes.link_and_file.
    rewrite !run_bind, run_getShareLinkByToken by answers Hw.
    wsimpl. rewrite Hl. rewrite run_bind, run_getFileById by answers Hw.
    wsimpl. rewrite run_ret. wsimpl. rewrite Hfile.
    unfold s3.getDownloadUrl.
    rewrite run_bind, run_s3_call by answers Hw.
    rewrite run_bind.
    edestruct run_incrementShareAccess as [n1 ->]; [answers Hw|].
    rewrite run_bind.
    edestruct run_updateAccessStats as [n2 ->]; [answers Hw|].
    rewrite run_bind.
    edestruct run_createAuditLog as [entry ->];
      [answers Hw|apply (audit_parse_link (Some (File._id f)))|].
    rewrite run_ret. wsimpl.
    do 2 eexists. split; [reflexivity|]. wsimpl.
    split; [exact Hw|]. split.
    + eexists. apply find_touched, Hfile.
    + split; [reflexivity|].
      unfold stored_link. wsimpl. apply consumed_link; [exact Hl|].
      unfold shareLinksData.isActive in Hact.
      apply andb_true_iff in Hact. apply Hact.
  - unfold shareRoutes.reject_expired.
    rewrite run_bind, run_getShareLinkByToken by answers Hw.
    wsimpl. rewrite Hl. rewrite run_bind.
    edestruct run_createAuditLog as [entry ->];
      [answers Hw|apply (audit_parse_link (Some (ShareLink.fileId l)))|].
    rewrite run_ret. do 2 eexists. split; [reflexivity|]. wsimpl.
    split; [exact Hw|]. split; [exists f; exact Hfile|].
    split; [reflexivity|exact Hl].
Qed.

Lemma link_capacity_decides (l : ShareLink.t) (t : Date) (N : Z) :
  ShareLink.isActive l = true ->
  (forall e, ShareLink.expiresAt l = Some e -> (t < e)%Z) ->
  ShareLink.maxAccessCount l = Some N ->
  shareLinksData.isActive l t = (ShareLink.accessCount l <? N)%Z.
Proof.
  intros Hact Hexp Hmax. unfold shareLinksData.isActive. rewrite Hact, Hmax.
  destruct (ShareLink.expiresAt l) as [e|]; [|reflexivity].
  rewrite (proj2 (Z.ltb_lt t e) (Hexp e eq_refl)). reflexivity.
Qed.

(** Downloads through a public link, one after the other. *)
Lemma link_downloads_in_a_row (req : Request) (N : Z) (times : list Date) :
  shareTokenSchema_ok (params_token req) = true ->
  forall (w : World) (l : ShareLink.t) (f : File.t),
    faults w = [] ->
    stored_link (db w) (params_token req) = Some l ->
    find (filesData.has_id (ShareLink.fileId l)) (files (db w)) = Some f ->
    ShareLink.isActive l = true ->
    Forall (fun t => forall e, ShareLink.expiresAt l = Some e -> (t < e)%Z)
           times ->
    ShareLink.maxAccessCount l = Some N ->
    (ShareLink.accessCount l <= N)%Z ->
    exists resps w' l',
      run (mapM (fun t => arriving_at t (shareRoutes.download req)) times) w
      = (Ok resps, w')
      /\ Z.of_nat (successes resps)
         = Z.min (Z.of_nat (List.length times)) (N - ShareLink.accessCount l)
      /\ stored_link (db w') (params_token req) = Some l'
      /\ ShareLink.accessCount l'
         = (ShareLink.accessCount l
            + Z.min (Z.of_nat (List.length times))
                    (N - ShareLink.accessCount l))%Z.
Proof.
  intros Htok. induction times as [|t times IH];
    intros w l f Hw Hl Hfile Hact Hexp Hmax Hle.
  - exists [], w, l. cbn [mapM List.length]. rewrite run_ret.
    split; [reflexivity|]. split; [cbn; lia|]. split; [exact Hl|lia].
  - inversion Hexp as [|? ? Ht Htimes]; subst.
    cbn [mapM List.length]. rewrite run_bind, run_arriving_at.
    destruct (@link_download_step (set_now t w) req l f Hw Htok Hl Hfile)
      as [res [w1 [Hrun [Hw1 [[f1 Hfile1] Hcase]]]]].
    rewrite Hrun. cbn [now set_now] in Hcase.
    rewrite (@link_capacity_decides l t N Hact Ht Hmax) in Hcase.
    destruct (ShareLink.accessCount l <? N)%Z eqn:Hcap.
    + apply Z.ltb_lt in Hcap. destruct Hcase as [Hstatus Hl1].
      destruct (IH w1 (shareLinksData.consume t l) f1 Hw1 Hl1 Hfile1)
        as [resps [w2 [l2 [Hrun2 [Hcount [Hstored Hfinal]]]]]].
      * exact Hact.
      * exact Htimes.
      * exact Hmax.
      * cbn. lia.
      * rewrite run_bind, Hrun2, run_ret.
        exists (res :: resps), w2, l2. split; [reflexivity|].
        cbn [ShareLink.accessCount shareLinksData.consume] in *.
        split; [|split; [exact Hstored|]].
        -- rewrite successes_cons, Hstatus. change (200 =? 200) with true.
           cbv iota. rewrite Nat2Z.inj_add, Hcount. lia.
        -- rewrite Hfinal. lia.
    + apply Z.ltb_ge in Hcap. destruct Hcase as [Hstatus Hl1].
      destruct (IH w1 l f1 Hw1 Hl1 Hfile1)
        as [resps [w2 [l2 [Hrun2 [Hcount [Hstored Hfinal]]]]]].
      * exact Hact.
      * exact Htimes.
      * exact Hmax.
      * exact Hle.
      * rewrite run_bind, Hrun2, run_ret.
        exists (res :: resps), w2, l2. split; [reflexivity|].
        split; [|split; [exact Hstored|]].
        -- rewrite successes_cons, Hstatus. change (403 =? 200) with false.
           cbv iota. rewrite Nat2Z.inj_add, Hcount. lia.
        -- rewrite Hfinal. lia.
Qed.

(** C1, as the code has it. When the downloads of a shared file run one after
    the other, each request finishing before the next arrives, a share that
    is switched on and unexpired, with maxAccessCount = N and accessCount = c,
    grants exactly min(k, N - c) of k attempts: at most N succeed, the
    counter grows by one per success and never passes N. This holds for a
    user share, which the recipient consumes through the download route of
    the files, and for a share link, which anybody consumes through
    POST /api/share/:token/download. *)
Theorem sequential_consumption :
  (forall (w : World) (req : Request) (u : AuthUser) (fileId : ObjectId)
          (s : UserShare.t) (N : Z) (times : list Date),
      faults w = [] -> user req = Some u ->
      params_fileId req = Some (WellFormed fileId) ->
      shared_with (db w) u fileId s ->
      Forall (fun t => forall e, UserShare.expiresAt s = Some e -> (t < e)%Z)
             times ->
      UserShare.maxAccessCount s = Some N ->
      (0 <= UserShare.accessCount s <= N)%Z ->
      exists resps w' s',
        run (mapM (fun t => arriving_at t (fileRoutes.download req)) times) w
        = (Ok resps, w')
        /\ Z.of_nat (successes resps)
           = Z.min (Z.of_nat (List.length times)) (N - UserShare.accessCount s)
        /\ (Z.of_nat (successes resps) <= N)%Z
        /\ stored_share (db w') (UserShare._id s) = Some s'
        /\ UserShare.accessCount s'
           = (UserShare.accessCount s + Z.of_nat (successes resps))%Z
        /\ (UserShare.accessCount s' <= N)%Z)
  /\ (forall (w : World) (req : Request) (l : ShareLink.t) (f : File.t)
             (N : Z) (times : list Date),
        faults w = [] ->
        shareTokenSchema_ok (params_token req) = true ->
        stored_link (db w) (params_token req) = Some l ->
        find (filesData.has_id (ShareLink.fileId l)) (files (db w)) = Some f ->
        ShareLink.isActive l = true ->
        Forall (fun t => forall e, ShareLink.expiresAt l = Some e -> (t < e)%Z)
               times ->
        ShareLink.maxAccessCount l = Some N ->
        (0 <= ShareLink.accessCount l <= N)%Z ->
        exists resps w' l',
          run (mapM (fun t => arriving_at t (shareRoutes.download req)) times) w
          = (Ok resps, w')
          /\ Z.of_nat (successes resps)
             = Z.min (Z.of_nat (List.length times)) (N - ShareLink.accessCount l)
          /\ (Z.of_nat (successes resps) <= N)%Z
          /\ stored_link (db w') (params_token req) = Some l'
          /\ ShareLink.accessCount l'
             = (ShareLink.accessCount l + Z.of_nat (successes resps))%Z
          /\ (ShareLink.accessCount l' <= N)%Z).
Proof.
  split.
  - intros w req u fileId s N times Hw Hu Hp Hshared Hexp Hmax [H0 Hle].
    destruct (@downloads_in_a_row req u fileId N times Hu Hp w s
                Hw Hshared Hexp Hmax Hle)
      as [resps [w' [s' [Hrun [Hcount [Hstored Hfinal]]]]]].
    exists resps, w', s'. split; [exact Hrun|]. split; [exact Hcount|].
    split; [lia|]. split; [exact Hstored|]. split; lia.
  - intros w req l f N times Hw Htok Hl Hfile Hact Hexp Hmax [H0 Hle].
    destruct (@link_downloads_in_a_row req N times Htok w l f
                Hw Hl Hfile Hact Hexp Hmax Hle)
      as [resps [w' [l' [Hrun [Hcount [Hstored Hfinal]]]]]].
    exists resps, w', l'. split; [exact Hrun|]. split; [exact Hcount|].
    split; [lia|]. split; [exact Hstored|]. split; lia.
Qed.

Lemma sequential_consumption_witness :
  (exists resps w',
     run (mapM (fun t => arriving_at t (fileRoutes.download bob_request))
               [1000; 2000; 3000]%Z) alice_world
     = (Ok resps, w')
     /\ Z.of_nat (successes resps) = 1%Z)
  /\ (exists resps w',
        run (mapM (fun t => arriving_at t (shareRoutes.download link_request))
                  [1000; 2000; 3000]%Z) alice_world
        = (Ok resps, w')
        /\ Z.of_nat (successes resps) = 1%Z).
Proof.
  split.
  - assert (Hshared : shared_with (db alice_world) bob 5 alice_share).
    { split; [|split].
      - exists alice_file. split; [reflexivity|]. cbn. discriminate.
      - cbn. constructor; [intros []|constructor].
      - reflexivity. }
    assert (Hexp : Forall (fun t => forall e,
                             UserShare.expiresAt alice_share = Some e ->
                             (t < e)%Z) [1000; 2000; 3000]%Z)
      by (repeat constructor; intros e He; discriminate).
    assert (Hcount : (0 <= UserShare.accessCount alice_share <= 1)%Z)
      by (cbn; lia).
    destruct (proj1 sequential_consumption alice_world bob_request bob 5
                alice_share 1%Z [1000; 2000; 3000]%Z eq_refl eq_refl eq_refl
                Hshared Hexp eq_refl Hcount)
      as [resps [w' [_ [Hrun [Hn _]]]]].
    exists resps, w'. split; [exact Hrun|exact Hn].
  - assert (Hexp : Forall (fun t => forall e,
                             ShareLink.expiresAt alice_link = Some e ->
                             (t < e)%Z) [1000; 2000; 3000]%Z)
      by (repeat constructor; intros e He; discriminate).
    assert (Hcount : (0 <= ShareLink.accessCount alice_link <= 1)%Z)
      by (cbn; lia).
    destruct (proj2 sequential_consumption alice_world link_request alice_link
                alice_file 1%Z [1000; 2000; 3000]%Z eq_refl eq_refl eq_refl
                eq_refl eq_refl Hexp eq_refl Hcount)
      as [resps [w' [_ [Hrun [Hn _]]]]].
    exists resps, w'. split; [exact Hrun|exact Hn].
Defined.

(** * Properties of the rest of the data layer and of the routes *)

(** ** Sorting by a date, newest first *)

Section SortDesc.
Variable A : Type.
Variable key : A -> Z.

Lemma insertDesc_In (x y : A) (l : list A) :
  In y (Collection.insertDesc key x l) <-> y = x \/ In y l.
Proof.
  induction l as [|z r IH]; cbn.
  - intuition.
  - destruct (key x >=? key z)%Z; cbn; [intuition|].
    rewrite IH. intuition.
Qed.

Lemma sortDesc_cons (x : A) (l : list A) :
  Collection.sortDesc key (x :: l)
  = Collection.insertDesc key x (Collection.sortDesc key l).
Proof. reflexivity. Qed.

Lemma sortDesc_In (y : A) (l : list A) :
  In y (Collection.sortDesc key l) <-> In y l.
Proof.
  induction l as [|x r IH]; cbn; [tauto|].
  rewrite insertDesc_In, IH. intuition.
Qed.

Lemma insertDesc_sorted (x : A) (l : list A) :
  newest_first key l -> newest_first key (Collection.insertDesc key x l).
Proof.
  induction l as [|z r IH]; cbn; intros H.
  - split; [intros y []|exact I].
  - destruct H as [Hz Hr].
    destruct (key x >=? key z)%Z eqn:E; cbn.
    + apply Z.geb_le in E. split; [|split; assumption].
      intros y [<-|Hy]; [exact E|]. specialize (Hz y Hy). lia.
    + rewrite Z.geb_leb in E. apply Z.leb_gt in E. split; [|apply IH, Hr].
      intros y Hy. apply insertDesc_In in Hy. destruct Hy as [->|Hy]; [lia|].
      apply Hz, Hy.
Qed.

Lemma sortDesc_sorted (l : list A) : newest_first key (Collection.sortDesc key l).
Proof.
  induction l as [|x r IH]; cbn; [exact I|]. apply insertDesc_sorted, IH.
Qed.

Lemma insertDesc_length (x : A) (l : list A) :
  List.length (Collection.insertDesc key x l) = S (List.length l).
Proof.
  induction l as [|z r IH]; cbn; [reflexivity|].
  destruct (key x >=? key z)%Z; cbn; [reflexivity|]. rewrite IH. reflexivity.
Qed.

Lemma sortDesc_length (l : list A) :
  List.length (Collection.sortDesc key l) = List.length l.
Proof.
  induction l as [|x r IH]; [reflexivity|].
  rewrite sortDesc_cons, insertDesc_length, IH. reflexivity.
Qed.
End SortDesc.


Lemma sort_desc_sortDesc (l : list UserShare.t) :
  userSharesData.sort_desc l = Collection.sortDesc UserShare.createdAt l.
Proof.
  induction l as [|x r IH]; [reflexivity|].
  rewrite sortDesc_cons, <- IH. cbn [userSharesData.sort_desc fold_right].
  fold (userSharesData.sort_desc r).
  generalize (userSharesData.sort_desc r). intros l'.
  induction l' as [|z r' IH']; cbn; [reflexivity|].
  destruct (UserShare.createdAt x >=? UserShare.createdAt z)%Z; [reflexivity|].
  rewrite IH'. reflexivity.
Qed.

Lemma newest_first_map (A B : Type) (key : B -> Z) (f : A -> B) (l : list A) :
  newest_first (fun a => key (f a)) l -> newest_first key (map f l).
Proof.
  induction l as [|x r IH]; cbn; [trivial|]. intros [H1 H2]. split; [|apply IH, H2].
  intros y Hy. apply in_map_iff in Hy. destruct Hy as [a [<- Ha]]. apply H1, Ha.
Qed.

(** ** The listing of a file's active user shares *)

Lemma iter_bump_faults (n : nat) (w : World) :
  faults (Nat.iter n bump w) = faults w.
Proof. induction n as [|n IH]; cbn; [reflexivity|exact IH]. Qed.

Lemma run_enrich (found : list UserShare.t) :
  forall w, faults w = [] ->
  run (mapM (fun share =>
         recipient <- query false (fun d =>
           Collection.findOne (fun u => User._id u =? UserShare.recipientId share)
                              (users d)) ;;
         ret (mkEnrichedShare share recipient
                match UserShare.maxAccessCount share with
                | Some m => Some (Z.max 0 (m - UserShare.accessCount share))
                | None => None
                end)) found) w
  = (Ok (map (enriched (db w)) found), Nat.iter (List.length found) bump w).
Proof.
  induction found as [|s r IH]; intros w Hw; [reflexivity|].
  cbn [mapM map List.length]. rewrite !run_bind.
  rewrite run_query by (apply fails_no_faults, Hw).
  cbn [run ret]. rewrite run_bind, (IH (bump w)) by exact Hw.
  cbn [run ret]. f_equal. rewrite Nat.iter_succ_r. reflexivity.
Qed.

Lemma run_getActiveUserSharesByFile (fileId : ObjectId) (w : World) :
  faults w = [] ->
  run (userSharesData.getActiveUserSharesByFile (WellFormed fileId)) w
  = (Ok (map (enriched (db w))
           (Collection.sortDesc UserShare.createdAt
              (filter (userSharesData.active_unexpired fileId (now w))
                      (userShares (db w))))),
     Nat.iter (S (List.length
                    (filter (userSharesData.active_unexpired fileId (now w))
                            (userShares (db w))))) bump w).
Proof.
  intros Hw. unfold userSharesData.getActiveUserSharesByFile.
  cbn [objectIdSchema_parse bind ret].
  rewrite run_bind, run_newDate, run_bind.
  rewrite run_query by (apply fails_no_faults, Hw).
  rewrite run_enrich by exact Hw. unfold Collection.findMany.
  rewrite sort_desc_sortDesc, sortDesc_length.
  cbn [db]. f_equal. rewrite Nat.iter_succ_r. reflexivity.
Qed.

Lemma active_unexpired_policy (fileId : ObjectId) (t : Date) (s : UserShare.t) :
  userSharesData.active_unexpired fileId t s
  = (UserShare.fileId s =? fileId) && policy_allowsb s t.
Proof.
  unfold userSharesData.active_unexpired, policy_allowsb.
  destruct (UserShare.fileId s =? fileId), (UserShare.isActive s); cbn; try reflexivity.
  destruct (UserShare.expiresAt s) as [e|]; [|reflexivity].
  rewrite Z.gtb_ltb. reflexivity.
Qed.

(** X4. The listing of a file's active user shares holds exactly the shares
    of the file that validateUserShare accepts at that moment (the _id
    values of the shares being unique), newest first;
    each comes with its recipient as the users collection has it, and with a
    remaining count that is at least one when the share has a maximum. The
    listing writes nothing. *)
Theorem getActiveUserSharesByFile_lists_valid (w : World) (fileId : ObjectId) :
  faults w = [] ->
  NoDup (map UserShare._id (userShares (db w))) ->
  let r := run (userSharesData.getActiveUserSharesByFile (WellFormed fileId)) w in
  exists listed,
    fst r = Ok listed
    /\ db (snd r) = db w
    /\ (forall s, In s (map e_share listed) <->
          In s (userShares (db w)) /\ UserShare.fileId s = fileId
          /\ fst (run (userSharesData.validateUserShare
                         (WellFormed (UserShare._id s))) w) = Ok true)
    /\ newest_first UserShare.createdAt (map e_share listed)
    /\ (forall e, In e listed ->
          e_recipientInfo e
          = find (fun u => User._id u =? UserShare.recipientId (e_share e))
                 (users (db w))
          /\ match UserShare.maxAccessCount (e_share e) with
             | Some m =>
                 e_remainingAccesses e
                 = Some (m - UserShare.accessCount (e_share e))%Z
                 /\ (UserShare.accessCount (e_share e) < m)%Z
             | None => e_remainingAccesses e = None
             end).
Proof.
  intros Hw Hnd r. subst r.
  rewrite run_getActiveUserSharesByFile by exact Hw. cbn [fst snd].
  eexists. split; [reflexivity|].
  split; [apply iter_bump_frame|].
  assert (Hshare : forall l, map e_share (map (enriched (db w)) l) = l).
  { intros l. rewrite map_map. cbn. apply map_id. }
  rewrite Hshare.
  split; [|split].
  - intros s. rewrite sortDesc_In, filter_In, active_unexpired_policy.
    rewrite andb_true_iff, Nat.eqb_eq.
    rewrite validateUserShare_run by (apply fails_no_faults, Hw). cbn [fst].
    split.
    + intros [Hin [Hf Hp]]. split; [exact Hin|]. split; [exact Hf|].
      unfold verdict_of, stored_share.
      change (fun s0 => UserShare._id s0 =? UserShare._id s)
        with (userSharesData.has_id (UserShare._id s)).
      rewrite (@find_by_id _ _ Hnd Hin). f_equal. exact Hp.
    + intros [Hin [Hf Hv]]. split; [exact Hin|]. split; [exact Hf|].
      unfold verdict_of, stored_share in Hv.
      change (fun s0 => UserShare._id s0 =? UserShare._id s)
        with (userSharesData.has_id (UserShare._id s)) in Hv.
      rewrite (@find_by_id _ _ Hnd Hin) in Hv. congruence.
  - apply sortDesc_sorted.
  - intros e He. apply in_map_iff in He. destruct He as [s [<- Hs]].
    apply sortDesc_In in Hs. apply filter_In in Hs. destruct Hs as [_ Hs].
    cbn. split; [reflexivity|].
    unfold userSharesData.active_unexpired in Hs.
    destruct (UserShare.maxAccessCount s) as [m|]; [|reflexivity].
    rewrite !andb_true_iff in Hs. destruct Hs as [_ Hm].
    apply Z.ltb_lt in Hm. split; [|exact Hm]. f_equal. lia.
Qed.

Lemma getActiveUserSharesByFile_lists_valid_witness :
  exists listed,
    fst (run (userSharesData.getActiveUserSharesByFile (WellFormed 5)) alice_world)
    = Ok listed
    /\ map e_share listed = [alice_share].
Proof.
  destruct (@getActiveUserSharesByFile_lists_valid alice_world 5 eq_refl)
    as [listed [H1 _]].
  - vm_compute. repeat constructor; intros [].
  - exists listed. split; [exact H1|].
    vm_compute in H1. inversion H1. reflexivity.
Defined.

(** ** What createUserShare accepts *)

Lemma same_string_true (a b : IdParam) : same_string a b = true -> a = b.
Proof.
  destruct a as [x| |x i], b as [y| |y j]; cbn; try discriminate.
  - intros H. apply Nat.eqb_eq in H. congruence.
  - intros H. apply andb_true_iff in H. destruct H as [H1 H2].
    apply Nat.eqb_eq in H1. apply Nat.eqb_eq in H2. congruence.
Qed.

Lemma same_string_refl (a : IdParam) : a <> Malformed -> same_string a a = true.
Proof.
  destruct a as [x| |x i]; cbn; intros H.
  - apply Nat.eqb_refl.
  - contradiction.
  - rewrite !Nat.eqb_refl. reflexivity.
Qed.

Lemma limits_turned_down (em mx : option Z) :
  optional_ok expirationMinutes_ok em && optional_ok positiveIntSchema_ok mx
  && (is_some em || is_some mx) = false
  <-> (em = None /\ mx = None)
      \/ (exists m, em = Some m /\ (m < 10 \/ 525960 < m)%Z)
      \/ (exists m, mx = Some m /\ (m <= 0)%Z).
Proof.
  unfold expirationMinutes_ok, positiveIntSchema_ok.
  destruct em as [m|], mx as [m'|]; cbn [optional_ok is_some orb].
  all: rewrite ?andb_true_r, ?andb_false_r, ?andb_false_iff,
         ?Z.leb_gt, ?Z.ltb_ge.
  all: split;
    [ intros H
    | intros [[H1 H2]|[[x [H1 H2]]|[x [H1 H2]]]];
      try discriminate; try (inversion H1; subst; clear H1) ].
  all: try tauto; try lia; try discriminate.
  all: try (destruct H as [[H|H]|H];
            [right; left; exists m; split; [reflexivity|lia]
            |right; left; exists m; split; [reflexivity|lia]
            |right; right; exists m'; split; [reflexivity|lia]]).
  all: try (destruct H as [H|H];
            [right; left; exists m; split; [reflexivity|lia]
            |right; left; exists m; split; [reflexivity|lia]]).
  all: try (right; right; exists m'; split; [reflexivity|lia]).
Qed.

Lemma createUserShareSchema_verdict (data : userSharesData.CreateUserShareInput) :
  (rejected_input data
   /\ userSharesData.createUserShareSchema_parse data = throw ZodError)
  \/ (~ rejected_input data
      /\ exists v, userSharesData.createUserShareSchema_parse data = ret v).
Proof.
  unfold rejected_input, userSharesData.createUserShareSchema_parse.
  destruct data as [f o r em mx].
  cbn [userSharesData.in_fileId userSharesData.in_ownerId
       userSharesData.in_recipientId userSharesData.in_expirationMinutes
       userSharesData.in_maxAccessCount].
  assert (Hbad : forall p : IdParam, p = Malformed \/ p <> Malformed)
    by (intros [x| |x i]; [right; discriminate|left; reflexivity
                          |right; discriminate]).
  destruct (Hbad f) as [->|Hf]; [left; split; [auto|reflexivity]|].
  destruct (Hbad o) as [->|Ho];
    [left; split; [auto|destruct f; reflexivity]|].
  destruct (Hbad r) as [->|Hr];
    [left; split; [auto|destruct f, o; reflexivity]|].
  pose proof (limits_turned_down em mx) as Hlim.
  pose proof (@same_string_true o r) as Hsame.
  pose proof (@same_string_refl o Ho) as Hrefl.
  destruct (optional_ok expirationMinutes_ok em
            && optional_ok positiveIntSchema_ok mx
            && (is_some em || is_some mx)) eqn:E.
  - destruct (same_string o r) eqn:Es.
    + left. split; [do 3 right; left; apply Hsame; reflexivity|].
      destruct f, o, r; try contradiction; reflexivity.
    + right. split.
      * intros [H|[H|[H|[H|H]]]]; try contradiction.
        -- subst r. rewrite Hrefl in Es. discriminate.
        -- assert (Hno : true = false) by (apply Hlim; tauto). discriminate.
      * destruct f, o, r; try contradiction; eexists; reflexivity.
  - left. split.
    + destruct (proj1 Hlim eq_refl) as [H|[H|H]]; auto 8.
    + destruct f, o, r; try contradiction; reflexivity.
Qed.

(** X1. createUserShare throws a ZodError exactly on the inputs its schema
    turns down (an owner and a recipient given by the same string, no limit,
    an expiry under 10 minutes or over a year, a maximum below one, an id
    that is no ObjectId), and then it has not called the database: the world
    is as it was, whatever calls would have failed. The comparison of owner
    and recipient is one of strings: two spellings of one id are not turned
    down. *)
Theorem createUserShare_rejects_before_any_call
    (w : World) (data : userSharesData.CreateUserShareInput) :
  (rejected_input data ->
     run (userSharesData.createUserShare data) w = (Err ZodError, w))
  /\ (faults w = [] ->
      fst (run (userSharesData.createUserShare data) w) = Err ZodError ->
      rejected_input data)
  /\ (forall id n,
        userSharesData.in_ownerId data = WellFormed id ->
        userSharesData.in_recipientId data = Respelled id n ->
        userSharesData.in_fileId data <> Malformed ->
        userSharesData.in_expirationMinutes data = None ->
        (exists m, userSharesData.in_maxAccessCount data = Some m /\ (0 < m)%Z) ->
        faults w = [] ->
        exists share,
          fst (run (userSharesData.createUserShare data) w) = Ok share
          /\ UserShare.ownerId share = id
          /\ UserShare.recipientId share = id).
Proof.
  split; [|split].
  - intros H. unfold userSharesData.createUserShare.
    destruct (createUserShareSchema_verdict data) as [[_ Hv]|[Hn _]];
      [|contradiction].
    rewrite Hv. reflexivity.
  - intros Hw Hr.
    destruct (createUserShareSchema_verdict data) as [[H _]|[_ [v Hv]]];
      [exact H|]. exfalso.
    unfold userSharesData.createUserShare in Hr. rewrite Hv in Hr.
    cbn [bind ret] in Hr. rewrite run_bind in Hr.
    destruct (@deactivateExisting_run v w Hw) as [w1 [H1 [Hw1 _]]].
    rewrite H1 in Hr.
    destruct (@insertNew_run v w1 Hw1) as [w2 [share [H2 _]]].
    rewrite H2 in Hr. discriminate.
  - intros id n Ho Hr Hf Hem [m [Hmx Hm]] Hw.
    assert (Hv : exists f,
              userSharesData.createUserShareSchema_parse data
              = ret (userSharesData.mkValidated f id id None (Some m))).
    { unfold userSharesData.createUserShareSchema_parse.
      rewrite Ho, Hr, Hem, Hmx. cbn [optional_ok is_some orb same_string negb].
      unfold positiveIntSchema_ok.
      rewrite (proj2 (Z.ltb_lt 0 m) Hm). cbn [andb].
      destruct (userSharesData.in_fileId data) as [f| |f sf];
        [exists f; reflexivity|contradiction|exists f; reflexivity]. }
    destruct Hv as [f Hv].
    unfold userSharesData.createUserShare. rewrite Hv.
    cbn [bind ret]. rewrite run_bind.
    destruct (@deactivateExisting_run
                (userSharesData.mkValidated f id id None (Some m)) w Hw)
      as [w1 [H1 [Hw1 _]]].
    rewrite H1.
    destruct (@insertNew_run
                (userSharesData.mkValidated f id id None (Some m)) w1 Hw1)
      as [w2 [share [H2 [_ [_ [_ [_ [_ [Hso [Hsr _]]]]]]]]]].
    rewrite H2. exists share. split; [reflexivity|].
    rewrite Hso, Hsr. split; reflexivity.
Qed.

Lemma createUserShare_rejects_before_any_call_witness :
  run (userSharesData.createUserShare self_share_input) third_call_fails
  = (Err ZodError, third_call_fails)
  /\ exists share,
       fst (run (userSharesData.createUserShare respelled_self_share)
                sample_world) = Ok share
       /\ UserShare.ownerId share = 10 /\ UserShare.recipientId share = 10.
Proof.
  split.
  - apply (proj1 (createUserShare_rejects_before_any_call
                    third_call_fails self_share_input)).
    unfold rejected_input. right. right. right. left. reflexivity.
  - apply (proj2 (proj2 (createUserShare_rejects_before_any_call
                           sample_world respelled_self_share)) 10 0);
      try reflexivity.
    + discriminate.
    + exists 5%Z. split; [reflexivity|reflexivity].
Defined.

(** ** A new share is usable at once *)

Lemma insertNew_share (v : userSharesData.ValidatedUserShare) (w : World) :
  faults w = [] ->
  let share :=
    UserShare.mk (nextId w) (userSharesData.v_fileId v)
      (userSharesData.v_ownerId v) (userSharesData.v_recipientId v)
      (option_map (fun m => (now w + m * 60000)%Z)
                  (userSharesData.v_expirationMinutes v))
      (userSharesData.v_maxAccessCount v) 0%Z true (now w) (now w) in
  run (userSharesData.insertNew v) w
  = (Ok share,
     bump (set_db (on_userShares (Collection.insertOne share) (db w))
                  (bump_id w))).
Proof.
  intros Hw. unfold userSharesData.insertNew.
  destruct (userSharesData.v_expirationMinutes v) as [m|]; cbn;
    unfold fails; cbn; rewrite Hw; cbn; reflexivity.
Qed.

Lemma find_fresh (next : ObjectId) (l : list UserShare.t) (s : UserShare.t) :
  Forall (fun x => UserShare._id x < next) l -> UserShare._id s = next ->
  find (fun x => UserShare._id x =? next) (l ++ [s]) = Some s.
Proof.
  intros Hl Hs. induction Hl as [|x r Hx Hr IH]; cbn.
  - rewrite Hs, Nat.eqb_refl. reflexivity.
  - replace (UserShare._id x =? next) with false; [exact IH|].
    symmetry. apply Nat.eqb_neq. intros E. rewrite E in Hx.
    exact (Nat.lt_irrefl _ Hx).
Qed.

Lemma parsed_input (data : userSharesData.CreateUserShareInput)
      (v : userSharesData.ValidatedUserShare) :
  userSharesData.createUserShareSchema_parse data = ret v ->
  objectIdSchema_parse (userSharesData.in_fileId data)
  = ret (userSharesData.v_fileId v)
  /\ objectIdSchema_parse (userSharesData.in_recipientId data)
     = ret (userSharesData.v_recipientId v)
  /\ (forall m, userSharesData.v_expirationMinutes v = Some m ->
                (10 <= m <= 525960)%Z)
  /\ (forall m, userSharesData.v_maxAccessCount v = Some m -> (0 < m)%Z)
  /\ (userSharesData.v_expirationMinutes v <> None
      \/ userSharesData.v_maxAccessCount v <> None).
Proof.
  unfold userSharesData.createUserShareSchema_parse.
  destruct data as [f o r em mx].
  cbn [userSharesData.in_fileId userSharesData.in_ownerId
       userSharesData.in_recipientId userSharesData.in_expirationMinutes
       userSharesData.in_maxAccessCount].
  destruct (optional_ok expirationMinutes_ok em) eqn:E1;
    [|destruct f, o, r; discriminate].
  destruct (optional_ok positiveIntSchema_ok mx) eqn:E2;
    [|destruct f, o, r; discriminate].
  destruct (is_some em || is_some mx) eqn:E3;
    [|destruct f, o, r; discriminate].
  destruct (same_string o r) eqn:E4; [destruct f, o, r; discriminate|].
  cbn [andb negb].
  intros H.
  assert (Hv : objectIdSchema_parse f = ret (userSharesData.v_fileId v)
               /\ objectIdSchema_parse r = ret (userSharesData.v_recipientId v)
               /\ userSharesData.v_expirationMinutes v = em
               /\ userSharesData.v_maxAccessCount v = mx)
    by (destruct f, o, r; try discriminate; inversion H; subst;
        repeat split; reflexivity).
  destruct Hv as [Hf [Hr [Hem Hmx]]]. rewrite Hem, Hmx.
  split; [exact Hf|]. split; [exact Hr|].
  split; [|split].
  - intros m ->. cbn in E1. unfold expirationMinutes_ok in E1.
    apply andb_true_iff in E1. destruct E1 as [Ha Hb].
    apply Z.leb_le in Ha. apply Z.leb_le in Hb. lia.
  - intros m ->. cbn in E2. apply Z.ltb_lt in E2. exact E2.
  - destruct em; [left; discriminate|]. destruct mx; [right; discriminate|].
    discriminate.
Qed.

(** X2. In a collection with unique _id values and at most one active share
    per file and recipient, a share that createUserShare has just stored is
    usable at once: its expiry is the creation time plus the minutes asked
    for (setMinutes being the addition of that many minutes, as it is where
    the server's clock has no daylight-saving changes), its maximum is the
    one asked for, validateUserShare accepts it, and
    getShareByFileAndRecipient finds it for its file and recipient. *)
Theorem createUserShare_then_usable
    (w : World) (data : userSharesData.CreateUserShareInput)
    (v : userSharesData.ValidatedUserShare) :
  faults w = [] ->
  userSharesData.createUserShareSchema_parse data = ret v ->
  at_most_one_active (userShares (db w)) ->
  ids_in_order (nextId w) (userShares (db w)) ->
  exists share w',
    run (userSharesData.createUserShare data) w = (Ok share, w')
    /\ UserShare.expiresAt share
       = option_map (fun m => (now w + m * 60000)%Z)
                    (userSharesData.v_expirationMinutes v)
    /\ UserShare.maxAccessCount share = userSharesData.v_maxAccessCount v
    /\ UserShare.accessCount share = 0%Z
    /\ UserShare.createdAt share = now w
    /\ fst (run (userSharesData.validateUserShare
                   (WellFormed (UserShare._id share))) w') = Ok true
    /\ fst (run (userSharesData.getShareByFileAndRecipient
                   (userSharesData.in_fileId data)
                   (userSharesData.in_recipientId data)) w')
       = Ok (Some share).
Proof.
  intros Hw Hv Hone Hids.
  destruct (parsed_input data Hv) as [Hf [Hr [Hem [Hmx Hlim]]]].
  unfold userSharesData.createUserShare. rewrite Hv. cbn [bind ret].
  destruct (@deactivateExisting_run v w Hw) as [w1 [H1 [Hw1 [Hn1 [Ht1 _]]]]].
  destruct (@deactivated_shares v w w1 Hw H1 Hone Hids) as [Hc [_ [Hids1 _]]].
  rewrite run_bind, H1.
  rewrite insertNew_share by exact Hw1. cbv zeta.
  rewrite Ht1.
  set (share := UserShare.mk (nextId w1) _ _ _ _ _ _ _ _ _).
  exists share. eexists. split; [reflexivity|].
  cbn [UserShare.expiresAt UserShare.maxAccessCount UserShare.accessCount
       UserShare.createdAt share UserShare._id].
  do 4 (split; [reflexivity|]).
  split.
  - rewrite validateUserShare_run by (apply fails_no_faults; wsimpl; exact Hw1).
    cbn [fst]. f_equal. unfold verdict_of, stored_share. wsimpl.
    unfold Collection.insertOne.
    destruct Hids1 as [_ Hlt].
    rewrite (@find_fresh (nextId w1) (userShares (db w1)) share Hlt eq_refl).
    unfold policy_allowsb, share. cbn.
    rewrite Ht1.
    destruct (userSharesData.v_expirationMinutes v) as [m|] eqn:Em; cbn.
    + specialize (Hem m eq_refl).
      replace (now w <? now w + m * 60000)%Z with true
        by (symmetry; apply Z.ltb_lt; lia).
      destruct (userSharesData.v_maxAccessCount v) as [m'|] eqn:Emx; [|reflexivity].
      apply Z.ltb_lt, Hmx. reflexivity.
    + destruct (userSharesData.v_maxAccessCount v) as [m'|] eqn:Emx; [|reflexivity].
      apply Z.ltb_lt, Hmx. reflexivity.
  - replace (userSharesData.getShareByFileAndRecipient
               (userSharesData.in_fileId data)
               (userSharesData.in_recipientId data))
      with (userSharesData.getShareByFileAndRecipient
              (WellFormed (userSharesData.v_fileId v))
              (WellFormed (userSharesData.v_recipientId v)))
      by (unfold userSharesData.getShareByFileAndRecipient;
          rewrite Hf, Hr; reflexivity).
    rewrite run_getShareByFileAndRecipient
      by (apply fails_no_faults; wsimpl; exact Hw1).
    cbn [fst]. f_equal. wsimpl. unfold Collection.insertOne.
    rewrite filter_app.
    unfold count_active in Hc. apply length_zero_iff_nil in Hc. rewrite Hc.
    cbn. unfold userSharesData.active_for at 1. unfold share at 1 2 3. cbn.
    rewrite !Nat.eqb_refl. reflexivity.
Qed.

Lemma createUserShare_then_usable_witness :
  exists share w',
    run (userSharesData.createUserShare hour_input) sample_world = (Ok share, w')
    /\ UserShare.expiresAt share = Some 3601000%Z
    /\ fst (run (userSharesData.validateUserShare
                   (WellFormed (UserShare._id share))) w') = Ok true.
Proof.
  destruct (@createUserShare_then_usable sample_world hour_input
              (userSharesData.mkValidated 1 10 30 (Some 60%Z) None)
              eq_refl eq_refl)
    as [share [w' [H1 [H2 [_ [_ [_ [H3 _]]]]]]]].
  - intros f r. unfold count_active. cbn.
    destruct (userSharesData.active_for f r sample_share); cbn; lia.
  - split; [repeat constructor; intros []|].
    repeat constructor.
  - exists share, w'. split; [exact H1|]. split; [exact H2|exact H3].
Defined.

(** ** The share a recipient's download uses *)

Lemma latest_newest (l : list UserShare.t) :
  match userSharesData.latest l with
  | Some s => In s l /\ forall s', In s' l ->
                (UserShare.createdAt s' <= UserShare.createdAt s)%Z
  | None => l = []
  end.
Proof.
  induction l as [|x r IH]; [reflexivity|]. cbn.
  destruct (userSharesData.latest r) as [y|].
  - destruct IH as [Hy Hmax].
    destruct (UserShare.createdAt x <? UserShare.createdAt y)%Z eqn:E.
    + apply Z.ltb_lt in E. split; [right; exact Hy|].
      intros s' [<-|Hs]; [lia|apply Hmax, Hs].
    + apply Z.ltb_ge in E. split; [left; reflexivity|].
      intros s' [<-|Hs]; [lia|]. specialize (Hmax s' Hs). lia.
  - subst r. split; [left; reflexivity|]. intros s' [<-|[]]. lia.
Qed.

(** X3. getShareByFileAndRecipient answers with an active share of the file
    with the recipient that no other active share of the pair is newer than,
    and with null exactly when the pair has no active share; shares whose
    flag is off are never returned. A malformed id is a ZodError, thrown
    before the database is called. *)
Theorem getShareByFileAndRecipient_newest_active
    (w : World) (fileId recipientId : ObjectId) :
  faults w = [] ->
  let r := run (userSharesData.getShareByFileAndRecipient
                  (WellFormed fileId) (WellFormed recipientId)) w in
  db (snd r) = db w
  /\ run (userSharesData.getShareByFileAndRecipient
            Malformed (WellFormed recipientId)) w = (Err ZodError, w)
  /\ run (userSharesData.getShareByFileAndRecipient
            (WellFormed fileId) Malformed) w = (Err ZodError, w)
  /\ exists found,
       fst r = Ok found
       /\ match found with
          | Some s =>
              In s (userShares (db w))
              /\ UserShare.fileId s = fileId
              /\ UserShare.recipientId s = recipientId
              /\ UserShare.isActive s = true
              /\ forall s', In s' (userShares (db w)) ->
                   userSharesData.active_for fileId recipientId s' = true ->
                   (UserShare.createdAt s' <= UserShare.createdAt s)%Z
          | None =>
              forall s', In s' (userShares (db w)) ->
                userSharesData.active_for fileId recipientId s' = false
          end.
Proof.
  intros Hw r. subst r.
  rewrite run_getShareByFileAndRecipient by (apply fails_no_faults, Hw).
  cbn [fst snd]. split; [reflexivity|].
  split; [reflexivity|]. split; [reflexivity|].
  eexists. split; [reflexivity|].
  pose proof (latest_newest
                (filter (userSharesData.active_for fileId recipientId)
                        (userShares (db w)))) as H.
  destruct (userSharesData.latest _) as [s|].
  - destruct H as [Hin Hmax]. apply filter_In in Hin. destruct Hin as [Hin Ha].
    unfold userSharesData.active_for in Ha.
    rewrite !andb_true_iff, !Nat.eqb_eq in Ha. destruct Ha as [[Hf Hr] Hact].
    repeat (split; [assumption|]).
    intros s' Hs' Ha'. apply Hmax, filter_In. split; assumption.
  - intros s' Hs'.
    destruct (userSharesData.active_for fileId recipientId s') eqn:E; [|reflexivity].
    assert (Hin : In s' (filter (userSharesData.active_for fileId recipientId)
                                (userShares (db w))))
      by (apply filter_In; split; assumption).
    rewrite H in Hin. destruct Hin.
Qed.

Lemma getShareByFileAndRecipient_newest_active_witness :
  fst (run (userSharesData.getShareByFileAndRecipient
              (WellFormed 5) (WellFormed 2)) shares_world) = Ok (Some new_share).
Proof.
  destruct (@getShareByFileAndRecipient_newest_active shares_world 5 2 eq_refl)
    as [_ [_ [_ [found [H _]]]]].
  rewrite H. vm_compute in H. inversion H. reflexivity.
Defined.

(** ** Revoking user shares *)

Lemma run_revokeAllUserSharesByFile (fileId : ObjectId) (w : World) :
  fails w = false ->
  let filter_ := fun s => (UserShare.fileId s =? fileId) && UserShare.isActive s in
  run (userSharesData.revokeAllUserSharesByFile (WellFormed fileId)) w
  = (Ok (mkUpdateResult (List.length (filter filter_ (userShares (db w))))),
     bump (set_db (on_userShares
                     (Collection.updateMany filter_
                        (UserShare.set_isActive false (now w))) (db w)) w)).
Proof.
  intros Hf filter_. unfold userSharesData.revokeAllUserSharesByFile.
  cbn [objectIdSchema_parse bind ret].
  rewrite run_bind, run_newDate. rewrite run_statement by exact Hf.
  reflexivity.
Qed.

(** X5. revokeAllUserSharesByFile switches off every active user share of the
    file and nothing else: it reports how many it switched off, no share is
    added or removed, the shares of other files are untouched, afterwards
    validateUserShare rejects every share of the file, the listing of the
    file's active shares is empty, and a second revocation finds nothing to
    do. *)
Theorem revokeAllUserSharesByFile_revokes_all (w : World) (fileId : ObjectId) :
  faults w = [] ->
  let r := run (userSharesData.revokeAllUserSharesByFile (WellFormed fileId)) w in
  let before := userShares (db w) in
  let after := userShares (db (snd r)) in
  let of_file := fun s => UserShare.fileId s =? fileId in
  fst r = Ok (mkUpdateResult
                (List.length (filter (fun s => of_file s && UserShare.isActive s)
                                     before)))
  /\ map UserShare._id after = map UserShare._id before
  /\ filter (fun s => negb (of_file s)) after
     = filter (fun s => negb (of_file s)) before
  /\ (forall s, In s after -> UserShare.fileId s = fileId ->
                UserShare.isActive s = false)
  /\ (forall id s, stored_share (db (snd r)) id = Some s ->
        UserShare.fileId s = fileId ->
        fst (run (userSharesData.validateUserShare (WellFormed id)) (snd r))
        = Ok false)
  /\ fst (run (userSharesData.getActiveUserSharesByFile (WellFormed fileId))
              (snd r)) = Ok []
  /\ run (userSharesData.revokeAllUserSharesByFile (WellFormed fileId)) (snd r)
     = (Ok (mkUpdateResult 0), bump (snd r)).
Proof.
  intros Hw r before after of_file. subst r before after.
  rewrite run_revokeAllUserSharesByFile by (apply fails_no_faults, Hw).
  cbn [fst snd]. wsimpl. subst of_file.
  set (p := fun s => (UserShare.fileId s =? fileId) && UserShare.isActive s).
  set (g := UserShare.set_isActive false (now w)).
  assert (Hoff : forall s, In s (Collection.updateMany p g (userShares (db w))) ->
                           UserShare.fileId s = fileId ->
                           UserShare.isActive s = false).
  { intros s Hs Hf. unfold Collection.updateMany in Hs.
    apply in_map_iff in Hs. destruct Hs as [x [Hx Hin]].
    unfold p in Hx. destruct (UserShare.fileId x =? fileId) eqn:E; cbn in Hx.
    - destruct (UserShare.isActive x) eqn:Ea; subst s; [reflexivity|exact Ea].
    - subst s. apply Nat.eqb_neq in E. contradiction. }
  assert (Hnone : filter p (Collection.updateMany p g (userShares (db w))) = []).
  { apply filter_nil_all. intros s Hs. unfold p.
    destruct (UserShare.fileId s =? fileId) eqn:E; [|reflexivity].
    apply Nat.eqb_eq in E. rewrite (Hoff s Hs E). reflexivity. }
  split; [reflexivity|]. split; [|split; [|split; [|split; [|split]]]].
  - unfold Collection.updateMany. rewrite map_map. apply map_ext.
    intros x. destruct (p x); reflexivity.
  - unfold Collection.updateMany. clear Hoff Hnone.
    induction (userShares (db w)) as [|x l IH]; [reflexivity|]. cbn.
    unfold p at 1 2. destruct (UserShare.fileId x =? fileId) eqn:E; cbn.
    + destruct (UserShare.isActive x); cbn; rewrite E; cbn; exact IH.
    + rewrite E. cbn. f_equal. exact IH.
  - exact Hoff.
  - intros id s Hs Hf.
    rewrite validateUserShare_run by (apply fails_no_faults; wsimpl; exact Hw).
    cbn [fst]. f_equal. wsimpl. unfold verdict_of. rewrite Hs.
    unfold stored_share in Hs.
    cbn [db bump set_db userShares on_userShares] in Hs. apply find_some in Hs.
    destruct Hs as [Hin _]. unfold policy_allowsb.
    rewrite (Hoff s Hin Hf). reflexivity.
  - rewrite run_getActiveUserSharesByFile by (wsimpl; exact Hw).
    cbn [fst]. wsimpl.
    replace (filter (userSharesData.active_unexpired fileId (now w))
                    (Collection.updateMany p g (userShares (db w)))) with
      (@nil UserShare.t); [reflexivity|].
    symmetry. apply filter_nil_all. intros s Hs.
    unfold userSharesData.active_unexpired.
    destruct (UserShare.fileId s =? fileId) eqn:E; [|reflexivity].
    apply Nat.eqb_eq in E. rewrite (Hoff s Hs E). reflexivity.
  - rewrite run_revokeAllUserSharesByFile
      by (apply fails_no_faults; wsimpl; exact Hw).
    cbv zeta. wsimpl. fold p. fold g. rewrite Hnone. cbn [List.length].
    f_equal.
    assert (Hidem : Collection.updateMany p g
                      (Collection.updateMany p g (userShares (db w)))
                    = Collection.updateMany p g (userShares (db w))).
    { unfold Collection.updateMany at 1.
      rewrite <- (map_id (Collection.updateMany p g (userShares (db w)))) at 2.
      apply map_ext_in. intros s Hs.
      assert (E : p s = false).
      { destruct (p s) eqn:Ep; [|reflexivity].
        assert (Hin : In s (filter p (Collection.updateMany p g (userShares (db w)))))
          by (apply filter_In; split; assumption).
        rewrite Hnone in Hin. destruct Hin. }
      rewrite E. reflexivity. }
    unfold on_userShares. wsimpl. rewrite Hidem.
    destruct w; reflexivity.
Qed.

Lemma revokeAllUserSharesByFile_revokes_all_witness :
  fst (run (userSharesData.revokeAllUserSharesByFile (WellFormed 5)) shares_world)
  = Ok (mkUpdateResult 1)
  /\ fst (run (userSharesData.getActiveUserSharesByFile (WellFormed 5))
              (snd (run (userSharesData.revokeAllUserSharesByFile (WellFormed 5))
                        shares_world))) = Ok [].
Proof.
  destruct (@revokeAllUserSharesByFile_revokes_all shares_world 5 eq_refl)
    as [H1 [_ [_ [_ [_ [H2 _]]]]]].
  split; [exact H1|exact H2].
Defined.

Lemma run_deactivateUserShare (id : ObjectId) (w : World) :
  fails w = false ->
  run (userSharesData.deactivateUserShare (WellFormed id)) w
  = (Ok (mkUpdateResult
           (Collection.countFirst (userSharesData.has_id id) (userShares (db w)))),
     bump (set_db (on_userShares
                     (Collection.updateOne (userSharesData.has_id id)
                        (UserShare.set_isActive false (now w))) (db w)) w)).
Proof.
  intros Hf. unfold userSharesData.deactivateUserShare.
  cbn [objectIdSchema_parse bind ret].
  rewrite run_bind, run_newDate. rewrite run_statement by exact Hf.
  reflexivity.
Qed.

Section UpdateOneById.
Variable A : Type.
Variable key : A -> ObjectId.
Variable id : ObjectId.
Variable g : A -> A.
Hypothesis g_key : forall x, key (g x) = key x.

Lemma find_updated (l : list A) :
  find (fun x => key x =? id) (Collection.updateOne (fun x => key x =? id) g l)
  = option_map g (find (fun x => key x =? id) l).
Proof.
  induction l as [|x r IH]; [reflexivity|]. cbn.
  destruct (key x =? id) eqn:E; cbn.
  - rewrite g_key, E. reflexivity.
  - rewrite E. exact IH.
Qed.

Lemma find_not_updated (id' : ObjectId) (l : list A) :
  id' <> id ->
  find (fun x => key x =? id') (Collection.updateOne (fun x => key x =? id) g l)
  = find (fun x => key x =? id') l.
Proof.
  intros Hne. induction l as [|x r IH]; [reflexivity|]. cbn.
  destruct (key x =? id) eqn:E; cbn.
  - rewrite g_key. apply Nat.eqb_eq in E.
    replace (key x =? id') with false; [reflexivity|].
    symmetry. apply Nat.eqb_neq. congruence.
  - destruct (key x =? id'); [reflexivity|exact IH].
Qed.

Lemma updateOne_absent (l : list A) :
  find (fun x => key x =? id) l = None ->
  Collection.updateOne (fun x => key x =? id) g l = l
  /\ Collection.countFirst (fun x => key x =? id) l = 0.
Proof.
  unfold Collection.countFirst.
  induction l as [|x r IH]; [split; reflexivity|]. cbn.
  destruct (key x =? id); [discriminate|].
  intros H. destruct (IH H) as [H1 H2]. rewrite H1. cbn. split; [reflexivity|].
  exact H2.
Qed.

Lemma countFirst_present (l : list A) (s : A) :
  find (fun x => key x =? id) l = Some s ->
  Collection.countFirst (fun x => key x =? id) l = 1.
Proof.
  unfold Collection.countFirst. intros H.
  replace (existsb (fun x => key x =? id) l) with true; [reflexivity|].
  symmetry. apply existsb_exists. exists s. apply find_some in H. exact H.
Qed.

Lemma updateOne_keys (l : list A) (p : A -> bool) :
  map key (Collection.updateOne p g l) = map key l.
Proof.
  induction l as [|x r IH]; [reflexivity|]. cbn.
  destruct (p x); cbn; [rewrite g_key; reflexivity|]. rewrite IH. reflexivity.
Qed.
End UpdateOneById.

(** X6. deactivateUserShare switches the share off for good: afterwards
    validateUserShare rejects it, whatever its expiry and its counter; the
    share keeps its other fields but updatedAt, every other share is as it
    was, and for an id that names no share the update matches nothing and
    the database stays as it is. *)
Theorem deactivateUserShare_invalidates (w : World) (id : ObjectId) :
  faults w = [] ->
  let r := run (userSharesData.deactivateUserShare (WellFormed id)) w in
  fst (run (userSharesData.validateUserShare (WellFormed id)) (snd r)) = Ok false
  /\ (forall id', id' <> id ->
        stored_share (db (snd r)) id' = stored_share (db w) id')
  /\ match stored_share (db w) id with
     | Some s =>
         fst r = Ok (mkUpdateResult 1)
         /\ stored_share (db (snd r)) id
            = Some (UserShare.set_isActive false (now w) s)
     | None => fst r = Ok (mkUpdateResult 0) /\ db (snd r) = db w
     end.
Proof.
  intros Hw r. subst r.
  rewrite run_deactivateUserShare by (apply fails_no_faults, Hw).
  cbn [fst snd].
  rewrite validateUserShare_run by (apply fails_no_faults; wsimpl; exact Hw).
  cbn [fst]. unfold verdict_of, stored_share. wsimpl.
  unfold userSharesData.has_id.
  rewrite (@find_updated _ UserShare._id id
             (UserShare.set_isActive false (now w)) (fun x => eq_refl)).
  split; [|split].
  - destruct (find _ (userShares (db w))); reflexivity.
  - intros id' Hne.
    apply (@find_not_updated _ UserShare._id id
             (UserShare.set_isActive false (now w)) (fun x => eq_refl) id' _ Hne).
  - destruct (find (fun x => UserShare._id x =? id) (userShares (db w)))
      as [s|] eqn:E.
    + rewrite (@countFirst_present _ UserShare._id id _ _ E).
      split; reflexivity.
    + destruct (@updateOne_absent _ UserShare._id id
                  (UserShare.set_isActive false (now w)) _ E) as [H1 H2].
      rewrite H2. split; [reflexivity|].
      unfold on_userShares. rewrite H1. destruct (db w); reflexivity.
Qed.

Lemma deactivateUserShare_invalidates_witness :
  fst (run (userSharesData.validateUserShare (WellFormed 9)) shares_world)
  = Ok true
  /\ fst (run (userSharesData.validateUserShare (WellFormed 9))
              (snd (run (userSharesData.deactivateUserShare (WellFormed 9))
                        shares_world))) = Ok false.
Proof.
  split; [reflexivity|].
  exact (proj1 (@deactivateUserShare_invalidates shares_world 9 eq_refl)).
Defined.

(** ** What a recipient is shown *)






(** ** The cascade of deleteFile, when every statement goes through *)

Lemma deleteMany_In (A : Type) (p : A -> bool) (l : list A) (x : A) :
  In x (Collection.deleteMany p l) <-> In x l /\ p x = false.
Proof.
  unfold Collection.deleteMany. rewrite filter_In, negb_true_iff. tauto.
Qed.

Lemma deleteMany_count (A : Type) (p : A -> bool) (l : list A) :
  Collection.countMatching p l + List.length (Collection.deleteMany p l)
  = List.length l.
Proof.
  unfold Collection.countMatching, Collection.deleteMany.
  induction l as [|x r IH]; [reflexivity|]. cbn.
  destruct (p x); cbn; lia.
Qed.

Lemma deleteOne_count (A : Type) (p : A -> bool) (l : list A) :
  Collection.countFirst p l + List.length (Collection.deleteOne p l)
  = List.length l.
Proof.
  unfold Collection.countFirst.
  induction l as [|x r IH]; [reflexivity|]. cbn.
  destruct (p x); cbn; [reflexivity|].
  destruct (existsb p r); cbn in *; lia.
Qed.

Lemma deleteOne_unique_In (A : Type) (key : A -> ObjectId) (l : list A)
      (id : ObjectId) (f : A) :
  NoDup (map key l) ->
  (In f (Collection.deleteOne (fun x => key x =? id) l)
   <-> In f l /\ key f <> id).
Proof.
  induction l as [|x r IH]; intros Hnd; cbn; [tauto|].
  inversion Hnd as [|? ? Hx Hr]; subst.
  destruct (key x =? id) eqn:E.
  - apply Nat.eqb_eq in E. split.
    + intros Hf. split; [right; exact Hf|]. intros Ef. apply Hx.
      apply in_map_iff. exists f. split; [congruence|exact Hf].
    + intros [[->|Hf] Hne]; [contradiction|exact Hf].
  - apply Nat.eqb_neq in E. cbn. rewrite (IH Hr). split.
    + intros [->|[Hf Hne]]; [split; [left; reflexivity|exact E]|].
      split; [right; exact Hf|exact Hne].
    + intros [[->|Hf] Hne]; [left; reflexivity|right; split; assumption].
Qed.

Lemma run_deleteFile (fileId : ObjectId) (w : World) :
  faults w = [] ->
  let d := db w in
  run (filesData.deleteFile (WellFormed fileId)) w
  = (Ok (filesData.mkDeleteFileResult
           (Collection.countFirst (filesData.has_id fileId) (files d))
           (Collection.countMatching (fun s => ShareLink.fileId s =? fileId)
                                     (shareLinks d))
           (Collection.countMatching (fun s => UserShare.fileId s =? fileId)
                                     (userShares d))
           (Collection.countMatching (filesData.audit_on_file fileId)
                                     (auditLogs d))),
     bump (bump (bump (bump
       (set_db (mkDb (users d)
                  (Collection.deleteOne (filesData.has_id fileId) (files d))
                  (Collection.deleteMany (fun s => ShareLink.fileId s =? fileId)
                                         (shareLinks d))
                  (Collection.deleteMany (fun s => UserShare.fileId s =? fileId)
                                         (userShares d))
                  (Collection.deleteMany (filesData.audit_on_file fileId)
                                         (auditLogs d))) w))))).
Proof.
  intros Hw d. subst d. unfold filesData.deleteFile.
  cbn [objectIdSchema_parse bind ret].
  rewrite run_bind, run_statement by (apply fails_no_faults; wsimpl; exact Hw).
  cbn [fst snd].
  rewrite run_bind, run_statement by (apply fails_no_faults; wsimpl; exact Hw).
  cbn [fst snd].
  rewrite run_bind, run_statement by (apply fails_no_faults; wsimpl; exact Hw).
  cbn [fst snd].
  rewrite run_bind, run_statement by (apply fails_no_faults; wsimpl; exact Hw).
  cbn [fst snd run ret]. wsimpl. destruct w; reflexivity.
Qed.

(** X8. When its four statements all go through, deleteFile leaves nothing
    that refers to the file: no share link, no user share and no audit entry
    of the file is left, and with unique _id values no file document either,
    so that getFileById answers null; every document of another file is
    still there, the users are untouched, and each reported count is the
    number of documents its collection has lost. *)
Theorem deleteFile_cascade_complete (w : World) (fileId : ObjectId) :
  faults w = [] ->
  exists counts w',
    run (filesData.deleteFile (WellFormed fileId)) w = (Ok counts, w')
    /\ users (db w') = users (db w)
    /\ (forall l, In l (shareLinks (db w')) <->
                  In l (shareLinks (db w)) /\ ShareLink.fileId l <> fileId)
    /\ (forall s, In s (userShares (db w')) <->
                  In s (userShares (db w)) /\ UserShare.fileId s <> fileId)
    /\ (forall a, In a (auditLogs (db w')) <->
                  In a (auditLogs (db w)) /\ AuditLog.fileId a <> Some fileId)
    /\ (filesData.file_deletedCount counts + List.length (files (db w'))
        = List.length (files (db w))
        /\ filesData.shareLinks_deletedCount counts
           + List.length (shareLinks (db w')) = List.length (shareLinks (db w))
        /\ filesData.userShares_deletedCount counts
           + List.length (userShares (db w')) = List.length (userShares (db w))
        /\ filesData.auditLogs_deletedCount counts
           + List.length (auditLogs (db w')) = List.length (auditLogs (db w)))
    /\ (NoDup (map File._id (files (db w))) ->
        (forall f, In f (files (db w')) <->
                   In f (files (db w)) /\ File._id f <> fileId)
        /\ fst (run (filesData.getFileById (WellFormed fileId)) w') = Ok None).
Proof.
  intros Hw. do 2 eexists. split; [apply run_deleteFile, Hw|].
  wsimpl.
  split; [reflexivity|]. split; [|split; [|split; [|split]]].
  - intros l. rewrite deleteMany_In. rewrite Nat.eqb_neq. tauto.
  - intros s. rewrite deleteMany_In. rewrite Nat.eqb_neq. tauto.
  - intros a. rewrite deleteMany_In. unfold filesData.audit_on_file.
    destruct (AuditLog.fileId a) as [f|].
    + rewrite Nat.eqb_neq. split; intros [H1 H2]; (split; [exact H1|]); congruence.
    + split; intros [H1 H2]; (split; [exact H1|]); congruence.
  - cbn [filesData.file_deletedCount filesData.shareLinks_deletedCount
         filesData.userShares_deletedCount filesData.auditLogs_deletedCount].
    rewrite deleteOne_count, !deleteMany_count. repeat split; reflexivity.
  - intros Hnd. split; [intros f; apply (@deleteOne_unique_In _ File._id), Hnd|].
    rewrite run_getFileById by (apply fails_no_faults; wsimpl; exact Hw).
    cbn [fst]. wsimpl. f_equal.
    destruct (find _ _) as [f|] eqn:E; [|reflexivity].
    apply find_some in E. destruct E as [Hin E].
    apply (@deleteOne_unique_In _ File._id _ fileId f Hnd) in Hin. destruct Hin as [_ Hne].
    unfold filesData.has_id in E. apply Nat.eqb_eq in E. contradiction.
Qed.

Lemma deleteFile_cascade_complete_witness :
  exists counts w',
    run (filesData.deleteFile (WellFormed 5)) alice_world = (Ok counts, w')
    /\ filesData.auditLogs_deletedCount counts + List.length (auditLogs (db w'))
       = 1.
Proof.
  destruct (@deleteFile_cascade_complete alice_world 5 eq_refl)
    as [counts [w' [H [_ [_ [_ [_ [[_ [_ [_ Hc]]] _]]]]]]]].
  exists counts, w'. split; [exact H|exact Hc].
Defined.

(** ** What a committed account deletion leaves *)

Lemma deleteUserAccount_counts (w : World) (u : ObjectId)
      (counts : usersData.DeletionCounts) :
  fst (run (usersData.deleteUserAccount (WellFormed u)) w) = Ok counts ->
  let d := db w in
  let ids := map File._id (filter (filesData.owned_by u) (files d)) in
  db (snd (run (usersData.deleteUserAccount (WellFormed u)) w)) = purged u d
  /\ counts
     = usersData.mkDeletionCounts
         (Collection.countMatching (fun s => ShareLink.ownerId s =? u) (shareLinks d))
         (Collection.countMatching (fun s => UserShare.ownerId s =? u) (userShares d))
         (Collection.countMatching (usersData.fileId_in ids) (auditLogs d))
         (Collection.countMatching (usersData.actor_elsewhere u ids)
            (Collection.deleteMany (usersData.fileId_in ids) (auditLogs d)))
         (Collection.countMatching (filesData.owned_by u) (files d))
         (Collection.countFirst (fun x => User._id x =? u) (users d)).
Proof.
  unfold usersData.deleteUserAccount, withTransaction, fails. cbn.
  unfold fails. cbn.
  repeat (fault_case; [discriminate|]).
  intros H. inversion H. split; reflexivity.
Qed.

Lemma updateMany_length (A : Type) (p : A -> bool) (g : A -> A) (l : list A) :
  List.length (Collection.updateMany p g l) = List.length l.
Proof. unfold Collection.updateMany. apply length_map. Qed.

(** X12. Once deleteUserAccount has committed, the user's id is gone from
    every place the cascade covers: no file, share link or user share has
    the user as its owner, no audit entry has the user as its actor, no
    audit entry is about one of the files the user had, and with unique _id
    values no user document has the id. The share links, user shares, audit
    entries, files and user documents reported as deleted are the numbers of
    documents the collections have lost, and no audit entry is lost by the
    anonymization. *)
Theorem deleteUserAccount_purges_owner (w : World) (u : ObjectId)
    (counts : usersData.DeletionCounts) :
  let r := run (usersData.deleteUserAccount (WellFormed u)) w in
  let before := db w in
  let after := db (snd r) in
  fst r = Ok counts ->
  (forall f, In f (files after) -> File.ownerId f <> u)
  /\ (forall l, In l (shareLinks after) -> ShareLink.ownerId l <> u)
  /\ (forall s, In s (userShares after) -> UserShare.ownerId s <> u)
  /\ (forall a, In a (auditLogs after) -> AuditLog.userId a <> Value u)
  /\ (forall a f, In a (auditLogs after) -> In f (files before) ->
        File.ownerId f = u -> AuditLog.fileId a <> Some (File._id f))
  /\ (NoDup (map User._id (users before)) ->
      forall x, In x (users after) -> User._id x <> u)
  /\ usersData.c_files counts + List.length (files after)
     = List.length (files before)
  /\ usersData.c_shareLinks counts + List.length (shareLinks after)
     = List.length (shareLinks before)
  /\ usersData.c_userSharesOwned counts + List.length (userShares after)
     = List.length (userShares before)
  /\ usersData.c_auditLogsOwnFiles counts + List.length (auditLogs after)
     = List.length (auditLogs before)
  /\ usersData.c_user counts + List.length (users after)
     = List.length (users before).
Proof.
  intros r before after Hok. subst r before after.
  destruct (deleteUserAccount_counts w u Hok) as [Hdb Hc].
  rewrite Hdb, Hc. unfold purged.
  cbn [users files shareLinks userShares auditLogs
       usersData.c_files usersData.c_shareLinks usersData.c_userSharesOwned
       usersData.c_auditLogsOwnFiles usersData.c_user].
  set (ids := map File._id (filter (filesData.owned_by u) (files (db w)))).
  split; [|split; [|split; [|split; [|split; [|split]]]]].
  - intros f Hf. apply deleteMany_In in Hf. destruct Hf as [_ Hf].
    apply Nat.eqb_neq, Hf.
  - intros l Hl. apply deleteMany_In in Hl. destruct Hl as [_ Hl].
    apply Nat.eqb_neq, Hl.
  - intros s Hs. apply deleteMany_In in Hs. destruct Hs as [_ Hs].
    apply Nat.eqb_neq, Hs.
  - intros a Ha. unfold Collection.updateMany in Ha.
    apply in_map_iff in Ha. destruct Ha as [x [Hx Hin]].
    apply deleteMany_In in Hin. destruct Hin as [_ Hq].
    unfold usersData.actor_elsewhere in Hx. rewrite Hq in Hx. cbn in Hx.
    rewrite andb_true_r in Hx.
    destruct (usersData.acted_by u x) eqn:E; subst a; [discriminate|].
    unfold usersData.acted_by in E.
    destruct (AuditLog.userId x) as [| |v]; try discriminate.
    apply Nat.eqb_neq in E. congruence.
  - intros a f Ha Hf Ho. unfold Collection.updateMany in Ha.
    apply in_map_iff in Ha. destruct Ha as [x [Hx Hin]].
    apply deleteMany_In in Hin. destruct Hin as [_ Hq].
    assert (Hfid : AuditLog.fileId a = AuditLog.fileId x)
      by (destruct (usersData.actor_elsewhere u ids x); subst a; reflexivity).
    rewrite Hfid. intros E. unfold usersData.fileId_in in Hq. rewrite E in Hq.
    assert (Hex : existsb (Nat.eqb (File._id f)) ids = true).
    { apply existsb_exists. exists (File._id f). split; [|apply Nat.eqb_refl].
      unfold ids. apply in_map, filter_In. split; [exact Hf|].
      unfold filesData.owned_by. apply Nat.eqb_eq, Ho. }
    congruence.
  - intros Hnd x Hx.
    apply (@deleteOne_unique_In _ User._id _ u x Hnd) in Hx. tauto.
  - rewrite !deleteMany_count, updateMany_length, deleteMany_count, deleteOne_count.
    repeat split; reflexivity.
Qed.

Lemma deleteUserAccount_purges_owner_witness :
  exists counts,
    fst (run (usersData.deleteUserAccount (WellFormed 1)) alice_world) = Ok counts
    /\ usersData.c_files counts
       + List.length (files (db (snd (run (usersData.deleteUserAccount
                                             (WellFormed 1)) alice_world))))
       = 1.
Proof.
  eexists. split; [reflexivity|].
  apply (@deleteUserAccount_purges_owner alice_world 1 _ eq_refl).
Defined.

(** ** Renaming a file *)

Lemma filename_char_clean (c : Ascii.ascii) :
  filename_char_ok c = true
  <-> 32 <= Ascii.nat_of_ascii c /\ ~ In (Ascii.nat_of_ascii c) special_chars.
Proof.
  unfold filename_char_ok, special_chars.
  rewrite negb_true_iff, !orb_false_iff, Nat.ltb_ge, !Nat.eqb_neq.
  cbn [In]. split.
  - intros [[[[[[[[[Ha Hb] Hc] Hd] He] Hf] Hg] Hh] Hi] Hj].
    split; [exact Ha|].
    intros [E|[E|[E|[E|[E|[E|[E|[E|[E|[]]]]]]]]]]; congruence.
  - intros [Ha Hn]. repeat split; try exact Ha; intros E; apply Hn; rewrite E;
      tauto.
Qed.

Lemma filenameSchema_clean (name : string) :
  filenameSchema_ok name = true
  <-> 1 <= js_length name <= 255
      /\ forall c, In c (list_ascii_of_string name) ->
            32 <= Ascii.nat_of_ascii c
            /\ ~ In (Ascii.nat_of_ascii c) special_chars.
Proof.
  unfold filenameSchema_ok.
  rewrite !andb_true_iff, !Nat.leb_le, forallb_forall.
  split.
  - intros [[H1 H2] H3]. split; [lia|].
    intros c Hc. apply filename_char_clean, H3, Hc.
  - intros [[H1 H2] H3]. split; [split; assumption|].
    intros c Hc. apply filename_char_clean, H3, Hc.
Qed.

Lemma js_length_ascii (s : string) :
  Forall (fun c => Ascii.nat_of_ascii c < 128) (list_ascii_of_string s) ->
  js_length s = String.length s.
Proof.
  unfold js_length. induction s as [|c s IH]; intros H; [reflexivity|].
  cbn [list_ascii_of_string map String.length] in *.
  inversion H as [|? ? Hc Hs]; subst.
  change (list_sum (utf16_units c
                    :: map utf16_units (list_ascii_of_string s)))
    with (utf16_units c + list_sum (map utf16_units (list_ascii_of_string s))).
  rewrite (IH Hs).
  unfold utf16_units. apply Nat.ltb_lt in Hc. rewrite Hc. reflexivity.
Qed.

Lemma run_updateFilename (fileId : ObjectId) (name : string) (w : World) :
  fails w = false -> filenameSchema_ok name = true ->
  run (filesData.updateFilename (WellFormed fileId) name) w
  = (Ok (mkUpdateResult
           (Collection.countFirst (filesData.has_id fileId) (files (db w)))),
     bump (set_db (on_files
                     (Collection.updateOne (filesData.has_id fileId)
                        (filesData.rename name (now w))) (db w)) w)).
Proof.
  intros Hf Hn. unfold filesData.updateFilename, filenameSchema_parse.
  rewrite Hn. cbn [objectIdSchema_parse bind ret].
  rewrite run_bind, run_newDate. rewrite run_statement by exact Hf.
  reflexivity.
Qed.

(** X9. updateFilename turns a name down (a ZodError, before the database is
    called) exactly when its schema does, and the schema lets a name through
    exactly when its length, in UTF-16 code units as JavaScript counts it
    (the number of characters for an ASCII name), is 1 to 255 and it holds no
    control character, path separator, colon, wildcard, redirection, pipe or
    double quote; a name of 200 three-byte characters is let through. An
    accepted name replaces the filename of the file
    with the id and sets its updatedAt; the file keeps its id, its storage
    key, its owner and its access statistics, every other file and every
    other collection is as it was, and an id that names no file changes
    nothing. *)
Theorem updateFilename_renames_one (w : World) (fileId : ObjectId) (name : string) :
  let r := run (filesData.updateFilename (WellFormed fileId) name) w in
  let after := db (snd r) in
  (filenameSchema_ok name = false -> r = (Err ZodError, w))
  /\ (filenameSchema_ok name = true
      <-> 1 <= js_length name <= 255
          /\ forall c, In c (list_ascii_of_string name) ->
                32 <= Ascii.nat_of_ascii c
                /\ ~ In (Ascii.nat_of_ascii c) special_chars)
  /\ (Forall (fun c => Ascii.nat_of_ascii c < 128) (list_ascii_of_string name) ->
      js_length name = String.length name)
  /\ (faults w = [] -> filenameSchema_ok name = true ->
      users after = users (db w) /\ shareLinks after = shareLinks (db w)
      /\ userShares after = userShares (db w)
      /\ auditLogs after = auditLogs (db w)
      /\ map File._id (files after) = map File._id (files (db w))
      /\ (forall id', id' <> fileId ->
            find (filesData.has_id id') (files after)
            = find (filesData.has_id id') (files (db w)))
      /\ match find (filesData.has_id fileId) (files (db w)) with
         | Some f =>
             fst r = Ok (mkUpdateResult 1)
             /\ exists f',
                  find (filesData.has_id fileId) (files after) = Some f'
                  /\ File.filename f' = name /\ File.updatedAt f' = now w
                  /\ File._id f' = File._id f /\ File.s3Key f' = File.s3Key f
                  /\ File.ownerId f' = File.ownerId f
                  /\ File.accessCount f' = File.accessCount f
                  /\ File.lastAccessedAt f' = File.lastAccessedAt f
         | None => fst r = Ok (mkUpdateResult 0) /\ after = db w
         end).
Proof.
  intros r after. subst r after. split; [|split; [|split]].
  - intros Hn. unfold filesData.updateFilename, filenameSchema_parse.
    rewrite Hn. reflexivity.
  - apply filenameSchema_clean.
  - apply js_length_ascii.
  - intros Hw Hn.
    rewrite run_updateFilename by (try apply fails_no_faults; assumption).
    cbn [fst snd]. wsimpl.
    do 4 (split; [reflexivity|]).
    unfold filesData.has_id.
    split; [apply (@updateOne_keys _ File._id); reflexivity|].
    split.
    + intros id' Hne.
      apply (@find_not_updated _ File._id fileId
               (filesData.rename name (now w)) (fun x => eq_refl) id' _ Hne).
    + rewrite (@find_updated _ File._id fileId
                 (filesData.rename name (now w)) (fun x => eq_refl)).
      destruct (find (fun x => File._id x =? fileId) (files (db w)))
        as [f|] eqn:E.
      * rewrite (@countFirst_present _ File._id fileId _ _ E).
        split; [reflexivity|]. eexists. split; [reflexivity|].
        cbn. repeat split; reflexivity.
      * destruct (@updateOne_absent _ File._id fileId
                    (filesData.rename name (now w)) _ E) as [H1 H2].
        rewrite H2. split; [reflexivity|].
        unfold on_files. rewrite H1. destruct (db w); reflexivity.
Qed.

Lemma updateFilename_renames_one_witness :
  run (filesData.updateFilename (WellFormed 5) "../b.pdf") alice_world
  = (Err ZodError, alice_world)
  /\ map File.filename
         (files (db (snd (run (filesData.updateFilename (WellFormed 5) "b.pdf")
                              alice_world)))) = ["b.pdf"%string]
  /\ String.length cjk_name = 600 /\ js_length cjk_name = 200
  /\ map File.filename
         (files (db (snd (run (filesData.updateFilename (WellFormed 5) cjk_name)
                              alice_world)))) = [cjk_name]
  /\ run (filesData.updateFilename (WellFormed 5) (cjk_name ++ cjk_name))
         alice_world
     = (Err ZodError, alice_world).
Proof.
  split; [|split; [|split; [|split; [|split]]]].
  - apply (proj1 (updateFilename_renames_one alice_world 5 "../b.pdf")).
    reflexivity.
  - reflexivity.
  - vm_compute. reflexivity.
  - vm_compute. reflexivity.
  - vm_compute. reflexivity.
  - apply (proj1 (updateFilename_renames_one alice_world 5
                    (cjk_name ++ cjk_name))).
    vm_compute. reflexivity.
Defined.

(** ** The recent activity of files *)

Lemma Action_eqb_eq (a b : Action) : Action_eqb a b = true <-> a = b.
Proof. destruct a, b; cbn; split; intros H; congruence. Qed.

Lemma recent_match_spec (ids : list ObjectId) (e : AuditLog.t) :
  filesData.recent_match ids e = true
  <-> (exists f, AuditLog.fileId e = Some f /\ In f ids)
      /\ In (AuditLog.action e) filesData.recent_actions.
Proof.
  unfold filesData.recent_match. rewrite andb_true_iff.
  assert (Ha : existsb (Action_eqb (AuditLog.action e)) filesData.recent_actions
               = true <-> In (AuditLog.action e) filesData.recent_actions).
  { rewrite existsb_exists. split.
    - intros [x [Hx E]]. apply Action_eqb_eq in E. subst x. exact Hx.
    - intros H. exists (AuditLog.action e). split; [exact H|].
      apply Action_eqb_eq. reflexivity. }
  rewrite Ha. destruct (AuditLog.fileId e) as [f|].
  - rewrite existsb_exists. split.
    + intros [[x [Hx E]] H2]. apply Nat.eqb_eq in E. subst x.
      split; [exists f; auto|exact H2].
    + intros [[x [E Hx]] H2]. inversion E; subst x.
      split; [exists f; split; [exact Hx|apply Nat.eqb_refl]|exact H2].
  - split; [intros [H _]; discriminate|]. intros [[x [E _]] _]. discriminate.
Qed.

Lemma find_filter_compat (A : Type) (p q : A -> bool) (l : list A) :
  (forall x, q x = true -> p x = true) ->
  find q (filter p l) = find q l.
Proof.
  intros H. induction l as [|x r IH]; [reflexivity|]. cbn.
  destruct (p x) eqn:Ep; cbn.
  - destruct (q x); [reflexivity|exact IH].
  - destruct (q x) eqn:Eq; [|exact IH]. rewrite (H x Eq) in Ep. discriminate.
Qed.

Lemma Map_get_group_first (f : ObjectId) (l : list AuditLog.t) :
  filesData.Map_get f (filesData.group_first l)
  = option_map (fun e => filesData.mkRecentActivity (AuditLog.action e)
                                                    (AuditLog.timestamp e))
               (find (filesData.audit_on_file f) l).
Proof.
  unfold filesData.Map_get.
  induction l as [|x r IH]; [reflexivity|].
  cbn [filesData.group_first find]. unfold filesData.audit_on_file at 1.
  destruct (AuditLog.fileId x) as [f0|]; [|exact IH].
  cbn [find fst]. destruct (f0 =? f) eqn:E; [reflexivity|].
  rewrite find_filter_compat; [exact IH|].
  intros [k a] Hk. cbn in *. apply Nat.eqb_eq in Hk. subst k.
  rewrite Nat.eqb_sym, E. reflexivity.
Qed.

Lemma find_newest (A : Type) (key : A -> Z) (p : A -> bool) (l : list A) (e : A) :
  newest_first key l -> find p l = Some e ->
  forall e', In e' l -> (key e' <= key e)%Z \/ p e' = false.
Proof.
  induction l as [|x r IH]; [discriminate|]. cbn. intros [Hx Hr] Hf e' He'.
  destruct (p x) eqn:Ep.
  - inversion Hf; subst x. destruct He' as [<-|He']; [left; lia|].
    left. apply Hx, He'.
  - destruct He' as [<-|He']; [right; exact Ep|]. apply (IH Hr Hf e' He').
Qed.

(** X10. getRecentActivityForFiles answers an empty list of ids with an empty
    map, without calling the database. Otherwise the map has an entry for a
    file exactly when the file is among those asked for and has an audit
    entry whose action is an upload, a download, a rename, a share creation
    or an expired-link attempt; the entry is then the action and the time of
    such an audit entry that none of the others is later than. Category
    changes, deletions, link accesses and revocations never show. *)
Theorem getRecentActivityForFiles_latest (w : World) (fileIds : list ObjectId) :
  run (filesData.getRecentActivityForFiles []) w = (Ok [], w)
  /\ (faults w = [] -> fileIds <> [] ->
      exists m,
        run (filesData.getRecentActivityForFiles fileIds) w = (Ok m, bump w)
        /\ forall f,
             match filesData.Map_get f m with
             | Some a =>
                 In f fileIds
                 /\ In (filesData.ra_action a) filesData.recent_actions
                 /\ (exists e, In e (auditLogs (db w))
                               /\ AuditLog.fileId e = Some f
                               /\ AuditLog.action e = filesData.ra_action a
                               /\ AuditLog.timestamp e = filesData.ra_timestamp a)
                 /\ (forall e, In e (auditLogs (db w)) ->
                       AuditLog.fileId e = Some f ->
                       In (AuditLog.action e) filesData.recent_actions ->
                       (AuditLog.timestamp e <= filesData.ra_timestamp a)%Z)
             | None =>
                 ~ In f fileIds
                 \/ forall e, In e (auditLogs (db w)) ->
                      AuditLog.fileId e = Some f ->
                      ~ In (AuditLog.action e) filesData.recent_actions
             end).
Proof.
  split; [reflexivity|]. intros Hw Hne.
  destruct fileIds as [|i0 ids0]; [contradiction|].
  set (ids := i0 :: ids0). eexists. split.
  { unfold filesData.getRecentActivityForFiles. fold ids.
    apply run_query, fails_no_faults, Hw. }
  intros f. rewrite Map_get_group_first. unfold Collection.findMany.
  set (L := Collection.sortDesc AuditLog.timestamp
              (filter (filesData.recent_match ids) (auditLogs (db w)))).
  assert (HL : forall e, In e L <->
                 In e (auditLogs (db w)) /\ filesData.recent_match ids e = true)
    by (intros e; unfold L; rewrite sortDesc_In, filter_In; tauto).
  assert (Hon : forall e, filesData.audit_on_file f e = true
                          <-> AuditLog.fileId e = Some f).
  { intros e. unfold filesData.audit_on_file.
    destruct (AuditLog.fileId e) as [k|].
    - rewrite Nat.eqb_eq. split; congruence.
    - split; discriminate. }
  destruct (find (filesData.audit_on_file f) L) as [e|] eqn:E; cbn [option_map].
  - pose proof (find_some _ _ E) as [HeL Hef].
    apply HL in HeL. destruct HeL as [Hin Hm]. apply Hon in Hef.
    apply recent_match_spec in Hm. destruct Hm as [[k [Hk Hkin]] Hact].
    rewrite Hef in Hk. inversion Hk; subst k.
    cbn [filesData.ra_action filesData.ra_timestamp].
    split; [exact Hkin|]. split; [exact Hact|]. split.
    + exists e. auto.
    + intros e' Hin' Hf' Hact'.
      assert (He'L : In e' L).
      { apply HL. split; [exact Hin'|]. apply recent_match_spec.
        split; [exists f; auto|exact Hact']. }
      destruct (@find_newest _ AuditLog.timestamp _ L e (sortDesc_sorted _ _) E e' He'L)
        as [H|H]; [exact H|].
      apply Hon in Hf'. congruence.
  - destruct (in_dec Nat.eq_dec f ids) as [Hf|Hf]; [right|left; exact Hf].
    intros e' Hin' Hf' Hact'.
    assert (He'L : In e' L).
    { apply HL. split; [exact Hin'|]. apply recent_match_spec.
      split; [exists f; auto|exact Hact']. }
    pose proof (find_none _ _ E e' He'L) as Hno. apply Hon in Hf'. congruence.
Qed.

Lemma getRecentActivityForFiles_latest_witness :
  exists m,
    run (filesData.getRecentActivityForFiles [5]) activity_world
    = (Ok m, bump activity_world)
    /\ filesData.Map_get 5 m = Some (filesData.mkRecentActivity DOWNLOAD 10%Z).
Proof.
  destruct (proj2 (getRecentActivityForFiles_latest activity_world [5])
                  eq_refl) as [m [H _]]; [discriminate|].
  exists m. split; [exact H|]. vm_compute in H. inversion H. reflexivity.
Defined.

(** ** Writing and reading the audit trail *)

Lemma audit_on_file_spec (f : ObjectId) (e : AuditLog.t) :
  filesData.audit_on_file f e = true <-> AuditLog.fileId e = Some f.
Proof.
  unfold filesData.audit_on_file. destruct (AuditLog.fileId e) as [k|].
  - rewrite Nat.eqb_eq. split; congruence.
  - split; discriminate.
Qed.

Lemma run_getAuditLogsByFile (fileId : ObjectId) (w : World) :
  fails w = false ->
  run (auditLogsData.getAuditLogsByFile (WellFormed fileId)) w
  = (Ok (Collection.sortDesc AuditLog.timestamp (trail_of (db w) fileId)),
     bump w).
Proof.
  intros Hf. unfold auditLogsData.getAuditLogsByFile.
  cbn [objectIdSchema_parse bind ret]. apply run_query, Hf.
Qed.

(** X15. An audit entry written by createAuditLog for a file goes to the end
    of the log, which is otherwise as it was, and the two listings then
    return it: getAuditLogsByFile gives exactly the entries of that file and
    getAuditLogsByAction exactly the entries with that action, both newest
    first, and the listing of any other file is what it was before the
    write. *)
Theorem audit_entry_round_trip
    (w : World) (a : auditLogsData.AuditData) (fileId : ObjectId) :
  faults w = [] ->
  auditLogsData.a_fileId a = Some (WellFormed fileId) ->
  auditLogsData.a_userId a <> Some Malformed ->
  exists entry w',
    run (auditLogsData.createAuditLog a) w = (Ok entry, w')
    /\ auditLogs (db w') = auditLogs (db w) ++ [entry]
    /\ AuditLog.fileId entry = Some fileId
    /\ AuditLog.action entry = auditLogsData.a_action a
    /\ AuditLog.timestamp entry = now w
    /\ (exists logs,
          run (auditLogsData.getAuditLogsByFile (WellFormed fileId)) w'
          = (Ok logs, bump w')
          /\ In entry logs
          /\ (forall l, In l logs <->
                In l (auditLogs (db w')) /\ AuditLog.fileId l = Some fileId)
          /\ newest_first AuditLog.timestamp logs)
    /\ (exists logs,
          run (auditLogsData.getAuditLogsByAction (auditLogsData.a_action a)) w'
          = (Ok logs, bump w')
          /\ In entry logs
          /\ (forall l, In l logs <->
                In l (auditLogs (db w'))
                /\ AuditLog.action l = auditLogsData.a_action a)
          /\ newest_first AuditLog.timestamp logs)
    /\ (forall other, other <> fileId ->
          fst (run (auditLogsData.getAuditLogsByFile (WellFormed other)) w')
          = fst (run (auditLogsData.getAuditLogsByFile (WellFormed other)) w)).
Proof.
  intros Hw Hf Hu.
  assert (Hv : exists v, auditLogsData.createAuditLogSchema_parse a = ret v
                         /\ auditLogsData.va_fileId v = Some fileId).
  { unfold auditLogsData.createAuditLogSchema_parse. rewrite Hf.
    destruct (auditLogsData.a_userId a) as [[x| |x i]|];
      [| contradiction Hu; reflexivity | |]; eexists; split; reflexivity. }
  destruct Hv as [v [Hv Hvf]].
  unfold auditLogsData.createAuditLog. rewrite Hv. cbn [bind ret].
  rewrite run_bind, run_newDate, run_bind, run_newObjectId, run_bind.
  rewrite run_statement by (apply fails_no_faults; wsimpl; exact Hw).
  cbn [fst snd run ret]. rewrite Hvf.
  set (entry := AuditLog.mk _ _ _ _ _ _ _ _ _).
  exists entry. eexists. split; [reflexivity|]. wsimpl.
  split; [reflexivity|]. do 3 (split; [reflexivity|]).
  split.
  - eexists. split.
    { apply run_getAuditLogsByFile, fails_no_faults. wsimpl. exact Hw. }
    unfold trail_of. wsimpl. unfold Collection.insertOne.
    split; [|split].
    + apply sortDesc_In, filter_In. split; [apply in_or_app; right; left; reflexivity|].
      apply audit_on_file_spec. reflexivity.
    + intros l. rewrite sortDesc_In, filter_In, audit_on_file_spec. tauto.
    + apply sortDesc_sorted.
  - split.
    { eexists. split.
      { unfold auditLogsData.getAuditLogsByAction.
        apply run_query, fails_no_faults. wsimpl. exact Hw. }
      wsimpl. unfold Collection.insertOne, Collection.findMany.
      split; [|split].
      + apply sortDesc_In, filter_In.
        split; [apply in_or_app; right; left; reflexivity|].
        apply Action_eqb_eq. reflexivity.
      + intros l. rewrite sortDesc_In, filter_In, Action_eqb_eq. tauto.
      + apply sortDesc_sorted. }
    intros other Hne.
    rewrite !run_getAuditLogsByFile by (apply fails_no_faults; wsimpl; exact Hw).
    cbn [fst]. unfold trail_of. wsimpl. unfold Collection.insertOne.
    rewrite filter_app. cbn [filter].
    replace (filesData.audit_on_file other entry) with false.
    + rewrite app_nil_r. reflexivity.
    + symmetry. unfold filesData.audit_on_file, entry. cbn.
      apply Nat.eqb_neq. congruence.
Qed.

Lemma audit_entry_round_trip_witness :
  exists entry w' logs,
    run (auditLogsData.createAuditLog download_audit) alice_world = (Ok entry, w')
    /\ run (auditLogsData.getAuditLogsByFile (WellFormed 5)) w'
       = (Ok logs, bump w')
    /\ logs = [entry; upload_entry].
Proof.
  destruct (@audit_entry_round_trip alice_world download_audit 5
              eq_refl eq_refl)
    as [entry [w' [H1 [_ [_ [_ [_ [[logs [H2 _]] _]]]]]]]]; [discriminate|].
  exists entry, w', logs. split; [exact H1|]. split; [exact H2|].
  vm_compute in H1. inversion H1; subst. vm_compute in H2. inversion H2.
  reflexivity.
Defined.

(** ** Who may read the audit trail of a file *)

(** X17. The audit route hands the trail of a file to its owner and to nobody
    else: the owner gets exactly the entries of the file, newest first;
    anybody else gets the same 404 as for a file that does not exist, and a
    parameter that is no ObjectId gets a 400 before the database is called.
    The route writes nothing. An id is taken in either spelling. *)
Theorem audit_route_owner_only (w : World) (u : AuthUser) (req : Request) :
  faults w = [] ->
  let r := run (auditRoutes.file_logs u req) w in
  db (snd r) = db w
  /\ match params_fileId req with
     | Some (WellFormed fileId | Respelled fileId _) =>
         match find (filesData.has_id fileId) (files (db w)) with
         | Some f =>
             if File.ownerId f =? userId u then
               exists logs,
                 fst r = Ok (auditRoutes.Logs logs)
                 /\ (forall l, In l logs <->
                       In l (auditLogs (db w))
                       /\ AuditLog.fileId l = Some fileId)
                 /\ newest_first AuditLog.timestamp logs
             else fst r = Ok (auditRoutes.NoLogs file_not_found)
         | None => fst r = Ok (auditRoutes.NoLogs file_not_found)
         end
     | _ => r = (Ok (auditRoutes.NoLogs (json 400 ValidationFailed)), w)
     end.
Proof.
  intros Hw r. subst r. unfold auditRoutes.file_logs.
  rewrite run_try_catch.
  destruct (params_fileId req) as [[fileId| |fileId n]|]; cbn [fileIdSchema_parse];
    [|split; reflexivity| |split; reflexivity].
  all: cbn [bind ret]; rewrite run_bind.
  all: rewrite run_getFileById by (apply fails_no_faults, Hw).
  all: destruct (find (filesData.has_id fileId) (files (db w))) as [f|];
    [|split; reflexivity].
  all: destruct (File.ownerId f =? userId u); cbn [negb];
    [|split; reflexivity].
  all: rewrite run_bind.
  all: rewrite run_getAuditLogsByFile
    by (apply fails_no_faults; wsimpl; exact Hw).
  all: cbn [run ret fst snd]; split; [reflexivity|].
  all: eexists; split; [reflexivity|]; wsimpl; unfold trail_of; split.
  all: try apply sortDesc_sorted.
  all: intros l; rewrite sortDesc_In, filter_In, audit_on_file_spec; tauto.
Qed.

Lemma audit_route_owner_only_witness :
  fst (run (auditRoutes.file_logs alice owner_download_request) alice_world)
  = Ok (auditRoutes.Logs [upload_entry])
  /\ fst (run (auditRoutes.file_logs bob bob_request) alice_world)
     = Ok (auditRoutes.NoLogs file_not_found).
Proof.
  pose proof (@audit_route_owner_only alice_world alice owner_download_request
                eq_refl) as [_ Ha].
  pose proof (@audit_route_owner_only alice_world bob bob_request eq_refl)
    as [_ Hb].
  split; [|exact Hb].
  cbn in Ha. destruct Ha as [logs [Ha _]]. rewrite Ha.
  vm_compute in Ha. inversion Ha. reflexivity.
Defined.

(** ** What auditLogger records *)

Lemma createAuditLogSchema_cases (a : auditLogsData.AuditData) :
  (exists v, auditLogsData.createAuditLogSchema_parse a = ret v)
  \/ auditLogsData.createAuditLogSchema_parse a = throw ZodError.
Proof.
  unfold auditLogsData.createAuditLogSchema_parse.
  destruct (auditLogsData.a_fileId a) as [[f| |f i]|],
           (auditLogsData.a_userId a) as [[u| |u j]|];
    (left; eexists; reflexivity) || (right; reflexivity).
Qed.

Lemma run_auditLogger_2xx (action : Action)
      (detailsExtractor : option (Request -> Locals -> Details))
      (next : Request -> Async (Response * Locals)) (req : Request)
      (w w1 : World) (res : Response) (locals : Locals)
      (p : IdParam) (f : ObjectId) :
  run (next req) w = (Ok (res, locals), w1) ->
  (200 <=? status res) && (status res <? 300) = true ->
  fails w1 = false ->
  audited_file req locals = Some p -> id_of p = Some f ->
  run (auditLogger action detailsExtractor next req) w
  = (Ok res,
     bump (set_db (on_auditLogs
                     (Collection.insertOne
                        (logged_entry action detailsExtractor req locals f w1))
                     (db w1)) (bump_id w1))).
Proof.
  intros Hnext Hs Hf Hfile Hid. unfold auditLogger. rewrite run_bind, Hnext.
  cbn [fst snd]. rewrite Hs. fold (audited_file req locals). rewrite Hfile.
  cbn [is_some orb]. rewrite run_bind, run_try_catch, run_bind.
  unfold auditLogsData.createAuditLog.
  assert (Hv : auditLogsData.createAuditLogSchema_parse
                 (auditLogsData.mkAuditData (Some p) action
                    match user req with
                    | Some u => Some (WellFormed (userId u))
                    | None => None
                    end
                    match user req with
                    | Some u => Some (au_username u)
                    | None => None
                    end
                    (getClientIp req) (getLocation req)
                    match detailsExtractor with
                    | Some g => Some (g req locals)
                    | None => None
                    end)
               = ret (auditLogsData.mkValidatedAudit (Some f)
                        match user req with
                        | Some u => Some (userId u)
                        | None => None
                        end))
    by (destruct p; try discriminate; inversion Hid; subst;
        destruct (user req); reflexivity).
  rewrite Hv. cbn [bind ret].
  rewrite run_bind, run_newDate, run_bind, run_newObjectId, run_bind.
  rewrite run_statement by (wsimpl; unfold fails in *; destruct w1; exact Hf).
  cbn [fst snd run ret auditLogsData.va_fileId auditLogsData.va_userId
       auditLogsData.a_action auditLogsData.a_username
       auditLogsData.a_ipAddress auditLogsData.a_location
       auditLogsData.a_details].
  unfold logged_entry. destruct (user req); reflexivity.
Qed.

Lemma getClientIp_first_nonempty (req : Request) :
  exists a,
    getClientIp req = Some a /\ a <> EmptyString
    /\ (In (Some a) [forwardedFor req; realIp req; remoteAddress req]
        \/ (a = "Unknown"%string
            /\ Forall (fun h => h = None \/ h = Some EmptyString)
                      [forwardedFor req; realIp req; remoteAddress req])).
Proof.
  unfold getClientIp, js_or.
  destruct (forwardedFor req) as [[|c1 s1]|].
  2:{ eexists. split; [reflexivity|]. split; [discriminate|].
      left. left. reflexivity. }
  all: destruct (realIp req) as [[|c2 s2]|].
  all: try (exists (String c2 s2); split; [reflexivity|];
            split; [discriminate|]; left; right; left; reflexivity).
  all: destruct (remoteAddress req) as [[|c3 s3]|].
  all: try (exists (String c3 s3); split; [reflexivity|];
            split; [discriminate|]; left; right; right; left; reflexivity).
  all: exists "Unknown"%string; split; [reflexivity|];
    split; [discriminate|]; right; split; [reflexivity|].
  all: repeat (apply Forall_cons || apply Forall_nil); auto.
Qed.

Lemma getClientIp_order (req : Request) :
  let nonempty (h : option string) :=
    match h with Some (String _ _) => true | _ => false end in
  (nonempty (forwardedFor req) = true -> getClientIp req = forwardedFor req)
  /\ (nonempty (forwardedFor req) = false -> nonempty (realIp req) = true ->
      getClientIp req = realIp req)
  /\ (nonempty (forwardedFor req) = false -> nonempty (realIp req) = false ->
      nonempty (remoteAddress req) = true ->
      getClientIp req = remoteAddress req).
Proof.
  unfold getClientIp, js_or.
  destruct (forwardedFor req) as [[|c1 s1]|];
    destruct (realIp req) as [[|c2 s2]|];
    destruct (remoteAddress req) as [[|c3 s3]|];
    cbv zeta; repeat split; intros; try reflexivity; discriminate.
Qed.

(** X16. Behind auditLogger the handler's response goes out as it is, and the
    audit log gets at most one new entry at its end, whatever fails. A
    response that is not a 2xx is never recorded, and neither is a 2xx
    without a file id unless the action is EXPIRED_LINK_ATTEMPT. A 2xx about
    a file, its id given in either spelling, is recorded, when the insert
    goes through, as one entry with the action, the file, the user of the
    request (none for an anonymous one), the client address, the details of
    the extractor and the time of the response. The client address is the
    first that is not empty of the first x-forwarded-for entry, x-real-ip
    and the socket's address, in that order, and Unknown when all three are
    empty or missing: it is never empty. No other collection is touched. *)
Theorem auditLogger_records_successes_only (action : Action)
    (detailsExtractor : option (Request -> Locals -> Details))
    (next : Request -> Async (Response * Locals)) (req : Request)
    (w w1 : World) (res : Response) (locals : Locals) :
  run (next req) w = (Ok (res, locals), w1) ->
  let r := run (auditLogger action detailsExtractor next req) w in
  fst r = Ok res
  /\ only_audit_grows w1 (snd r)
  /\ (auditLogs (db (snd r)) = auditLogs (db w1)
      \/ exists entry, auditLogs (db (snd r)) = auditLogs (db w1) ++ [entry]
                       /\ AuditLog.action entry = action)
  /\ (status res < 200 \/ 300 <= status res -> snd r = w1)
  /\ (audited_file req locals = None -> action <> EXPIRED_LINK_ATTEMPT ->
      snd r = w1)
  /\ (forall p f, 200 <= status res < 300 -> fails w1 = false ->
        audited_file req locals = Some p -> id_of p = Some f ->
        auditLogs (db (snd r))
        = auditLogs (db w1)
          ++ [logged_entry action detailsExtractor req locals f w1])
  /\ (forall entry,
        auditLogs (db (snd r)) = auditLogs (db w1) ++ [entry] ->
        AuditLog.ipAddress entry = getClientIp req)
  /\ (exists a,
        getClientIp req = Some a /\ a <> EmptyString
        /\ (In (Some a) [forwardedFor req; realIp req; remoteAddress req]
            \/ (a = "Unknown"%string
                /\ Forall (fun h => h = None \/ h = Some EmptyString)
                          [forwardedFor req; realIp req; remoteAddress req])))
  /\ (let nonempty (h : option string) :=
        match h with Some (String _ _) => true | _ => false end in
      (nonempty (forwardedFor req) = true ->
       getClientIp req = forwardedFor req)
      /\ (nonempty (forwardedFor req) = false ->
          nonempty (realIp req) = true -> getClientIp req = realIp req)
      /\ (nonempty (forwardedFor req) = false ->
          nonempty (realIp req) = false ->
          nonempty (remoteAddress req) = true ->
          getClientIp req = remoteAddress req)).
Proof.
  intros Hnext r.
  assert (Hres : fst r = Ok res)
    by (apply (@auditLogger_sends_response action detailsExtractor next req
                  w w1 res locals Hnext)).
  split; [exact Hres|]. subst r. clear Hres.
  assert (Hlate : forall p f,
            (200 <=? status res) && (status res <? 300) = true ->
            fails w1 = false ->
            audited_file req locals = Some p -> id_of p = Some f ->
            snd (run (auditLogger action detailsExtractor next req) w)
            = bump (set_db (on_auditLogs
                     (Collection.insertOne
                        (logged_entry action detailsExtractor req locals f w1))
                     (db w1)) (bump_id w1))).
  { intros p f Hs Hf Hfile Hid.
    rewrite (@run_auditLogger_2xx action detailsExtractor next req w w1 res
               locals p f Hnext Hs Hf Hfile Hid).
    reflexivity. }
  assert (Hearly : (200 <=? status res) && (status res <? 300) = false
                   \/ (audited_file req locals = None
                       /\ Action_eqb action EXPIRED_LINK_ATTEMPT = false) ->
                   snd (run (auditLogger action detailsExtractor next req) w) = w1).
  { intros H. unfold auditLogger. rewrite run_bind, Hnext. cbn [fst snd].
    fold (audited_file req locals).
    destruct ((200 <=? status res) && (status res <? 300)).
    - destruct H as [H|[H1 H2]]; [discriminate|]. rewrite H1, H2. reflexivity.
    - reflexivity. }
  split; [|split; [|split; [|split; [|split; [|split; [|split]]]]]].
  - unfold auditLogger. rewrite run_bind, Hnext. cbn [fst snd].
    destruct ((200 <=? status res) && (status res <? 300));
      [|apply only_audit_grows_refl].
    match goal with
    | |- context [if ?b then _ else _] => destruct b; [|apply only_audit_grows_refl]
    end.
    rewrite run_bind, run_try_catch, run_bind.
    unfold auditLogsData.createAuditLog.
    match goal with
    | |- context [auditLogsData.createAuditLogSchema_parse ?a] =>
        destruct (createAuditLogSchema_cases a) as [[v ->]| ->]
    end; cbn; [|unfold only_audit_grows; cbn; tauto].
    unfold fails; fault_case; unfold only_audit_grows; cbn; tauto.
  - unfold auditLogger. rewrite run_bind, Hnext. cbn [fst snd].
    destruct ((200 <=? status res) && (status res <? 300)); [|left; reflexivity].
    match goal with
    | |- context [if ?b then _ else _] => destruct b; [|left; reflexivity]
    end.
    rewrite run_bind, run_try_catch, run_bind.
    unfold auditLogsData.createAuditLog.
    match goal with
    | |- context [auditLogsData.createAuditLogSchema_parse ?a] =>
        destruct (createAuditLogSchema_cases a) as [[v ->]| ->]
    end; cbn; [|left; reflexivity].
    unfold fails; fault_case; [left; reflexivity|].
    right. eexists. split; reflexivity.
  - intros Hs. apply Hearly. left. apply andb_false_iff.
    destruct Hs as [Hs|Hs]; [left; apply Nat.leb_gt|right; apply Nat.ltb_ge];
      exact Hs.
  - intros Hnone Hact. apply Hearly. right. split; [exact Hnone|].
    destruct (Action_eqb action EXPIRED_LINK_ATTEMPT) eqn:E; [|reflexivity].
    apply Action_eqb_eq in E. contradiction.
  - intros p f [Hlo Hhi] Hf Hfile Hid.
    rewrite (Hlate p f); [reflexivity| |exact Hf|exact Hfile|exact Hid].
    apply andb_true_iff. split; [apply Nat.leb_le|apply Nat.ltb_lt]; assumption.
  - intros entry. unfold auditLogger. rewrite run_bind, Hnext. cbn [fst snd].
    assert (Hsame : auditLogs (db w1) = auditLogs (db w1) ++ [entry] -> False).
    { intros H. apply (f_equal (@List.length _)) in H.
      rewrite length_app in H. cbn in H. lia. }
    destruct ((200 <=? status res) && (status res <? 300));
      [|intros H; exfalso; apply Hsame, H].
    match goal with
    | |- context [if ?b then _ else _] =>
        destruct b; [|intros H; exfalso; apply Hsame, H]
    end.
    rewrite run_bind, run_try_catch, run_bind.
    unfold auditLogsData.createAuditLog.
    match goal with
    | |- context [auditLogsData.createAuditLogSchema_parse ?a] =>
        destruct (createAuditLogSchema_cases a) as [[v ->]| ->]
    end; cbn; [|intros H; exfalso; apply Hsame, H].
    unfold fails; fault_case; [intros H; exfalso; apply Hsame, H|].
    intros H. unfold Collection.insertOne in H. apply app_inv_head in H.
    inversion H. reflexivity.
  - apply getClientIp_first_nonempty.
  - apply getClientIp_order.
Qed.

Lemma auditLogger_records_successes_only_witness :
  auditLogs (db (snd (run (auditLogger DOWNLOAD None
                             (answering (json 200 (Message "ok")) noLocals)
                             owner_download_request) alice_world)))
  = [upload_entry;
     AuditLog.mk 50 (Some 5) DOWNLOAD (Value 1) (Some "alice"%string)
                 (Some "Unknown"%string) None None 1000%Z]
  /\ auditLogs (db (snd (run (auditLogger DOWNLOAD None
                                (answering (json 200 (Message "ok")) noLocals)
                                proxied_request) alice_world)))
     = [upload_entry;
        AuditLog.mk 50 (Some 5) DOWNLOAD (Value 1) (Some "alice"%string)
                    (Some "10.0.0.7"%string) None None 1000%Z]
  /\ snd (run (auditLogger DOWNLOAD None
                 (answering (json 404 (ErrorBody "File not found")) noLocals)
                 owner_download_request) alice_world) = alice_world.
Proof.
  split; [|split].
  - apply (proj1 (proj2 (proj2 (proj2 (proj2 (proj2
      (@auditLogger_records_successes_only DOWNLOAD None
         (answering (json 200 (Message "ok")) noLocals)
         owner_download_request alice_world alice_world
         (json 200 (Message "ok")) noLocals eq_refl))))))
             (WellFormed 5) 5).
    + cbn. lia.
    + reflexivity.
    + reflexivity.
    + reflexivity.
  - apply (proj1 (proj2 (proj2 (proj2 (proj2 (proj2
      (@auditLogger_records_successes_only DOWNLOAD None
         (answering (json 200 (Message "ok")) noLocals)
         proxied_request alice_world alice_world
         (json 200 (Message "ok")) noLocals eq_refl))))))
             (Respelled 5 0) 5).
    + cbn. lia.
    + reflexivity.
    + reflexivity.
    + reflexivity.
  - apply (proj1 (proj2 (proj2 (proj2
      (@auditLogger_records_successes_only DOWNLOAD None
         (answering (json 404 (ErrorBody "File not found")) noLocals)
         owner_download_request alice_world alice_world
         (json 404 (ErrorBody "File not found")) noLocals eq_refl))))).
    right. cbn. lia.
Defined.

(** ** Downloads by the owner, and by those without a share *)

Lemma run_download_handler_owner (w : World) (req : Request) (u : AuthUser)
      (fileId : ObjectId) (f : File.t) :
  faults w = [] ->
  params_fileId req = Some (WellFormed fileId) ->
  find (filesData.has_id fileId) (files (db w)) = Some f ->
  File.ownerId f = userId u ->
  run (fileRoutes.download_handler u req) w
  = (Ok (json 200 (FileDownload ("https://s3/" ++ File.s3Key f)%string
                                (File.filename f) 3600 None),
         mkLocals (Some (WellFormed fileId)) false),
     bump (set_db (on_files
                     (Collection.updateOne (filesData.has_id fileId)
                                           (filesData.touch (now w))) (db w))
                  (bump (bump w)))).
Proof.
  intros Hw Hp Hfile Hown. unfold fileRoutes.download_handler.
  rewrite run_try_catch, run_bind, Hp. cbn [fileIdSchema_parse].
  rewrite run_ret, run_bind, run_getFileById by answers Hw.
  rewrite Hfile. rewrite run_bind. unfold fileRoutes.download_access.
  rewrite Hown, Nat.eqb_refl. rewrite run_ret.
  unfold s3.getDownloadUrl.
  rewrite run_bind, run_s3_call by answers Hw.
  rewrite run_bind.
  edestruct run_updateAccessStats as [n2 ->]; [answers Hw|].
  rewrite run_ret. reflexivity.
Qed.

(** X18. When the owner downloads their own file, no share is consulted or
    consumed: the response is a 200 without share information, the user
    shares and share links are as they were, the file's access count goes
    up by one and its last access is now, and the audit log gets one
    DOWNLOAD entry by the owner marked with via owner. *)
Theorem owner_download_consumes_no_share (w : World) (req : Request)
    (u : AuthUser) (fileId : ObjectId) (f : File.t) :
  faults w = [] -> user req = Some u ->
  params_fileId req = Some (WellFormed fileId) ->
  find (filesData.has_id fileId) (files (db w)) = Some f ->
  File.ownerId f = userId u ->
  let r := run (fileRoutes.download req) w in
  (exists url, fst r = Ok (json 200 (FileDownload url (File.filename f) 3600 None)))
  /\ userShares (db (snd r)) = userShares (db w)
  /\ shareLinks (db (snd r)) = shareLinks (db w)
  /\ users (db (snd r)) = users (db w)
  /\ find (filesData.has_id fileId) (files (db (snd r)))
     = Some (filesData.touch (now w) f)
  /\ exists entry,
       auditLogs (db (snd r)) = auditLogs (db w) ++ [entry]
       /\ AuditLog.action entry = DOWNLOAD
       /\ AuditLog.fileId entry = Some fileId
       /\ AuditLog.userId entry = Value (userId u)
       /\ AuditLog.details entry = Some [("via", JString "owner")]%string
       /\ AuditLog.timestamp entry = now w.
Proof.
  intros Hw Hu Hp Hfile Hown r. subst r.
  unfold fileRoutes.download, auth. rewrite Hu.
  rewrite (@run_auditLogger_2xx DOWNLOAD (Some fileRoutes.download_details)
             (fileRoutes.download_handler u) req w _ _ _ (WellFormed fileId)
             fileId
             (@run_download_handler_owner w req u fileId f Hw Hp Hfile Hown));
    [|reflexivity|answers Hw|unfold audited_file; rewrite Hp; reflexivity
     |reflexivity].
  cbn [fst snd]. wsimpl.
  split; [eexists; reflexivity|]. do 3 (split; [reflexivity|]).
  split; [apply find_touched, Hfile|].
  eexists. split; [reflexivity|]. unfold logged_entry. cbn. rewrite Hu.
  repeat split; reflexivity.
Qed.

Lemma owner_download_consumes_no_share_witness :
  userShares (db (snd (run (fileRoutes.download owner_download_request)
                           alice_world))) = [alice_share]
  /\ find (filesData.has_id 5)
          (files (db (snd (run (fileRoutes.download owner_download_request)
                               alice_world))))
     = Some (filesData.touch 1000%Z alice_file).
Proof.
  destruct (@owner_download_consumes_no_share alice_world owner_download_request
              alice 5 alice_file eq_refl eq_refl eq_refl eq_refl eq_refl)
    as [_ [H1 [_ [_ [H2 _]]]]].
  split; [exact H1|exact H2].
Defined.

(** X19. A user who does not own the file and has no active share of it gets
    from the download route the very 404 a missing file gets, and nothing is
    written: no counter moves and no audit entry is made. A recipient whose
    only active share of the file has been deactivated is such a user: after
    deactivateUserShare the download is a 404 too. *)
Theorem download_without_share_not_found (w : World) (req : Request)
    (u : AuthUser) (fileId : ObjectId) :
  faults w = [] -> user req = Some u ->
  params_fileId req = Some (WellFormed fileId) ->
  not_requesters_file (db w) fileId u ->
  ((forall s, In s (userShares (db w)) ->
              userSharesData.active_for fileId (userId u) s = false) ->
   fst (run (fileRoutes.download req) w) = Ok file_not_found
   /\ db (snd (run (fileRoutes.download req) w)) = db w)
  /\ (forall shareId,
        NoDup (map UserShare._id (userShares (db w))) ->
        (forall s, In s (userShares (db w)) ->
                   userSharesData.active_for fileId (userId u) s = true ->
                   UserShare._id s = shareId) ->
        let revoked :=
          snd (run (userSharesData.deactivateUserShare (WellFormed shareId)) w) in
        fst (run (fileRoutes.download req) revoked) = Ok file_not_found).
Proof.
  intros Hw Hu Hp Hnot.
  assert (Hgen : forall w0, faults w0 = [] ->
            files (db w0) = files (db w) ->
            (forall s, In s (userShares (db w0)) ->
                       userSharesData.active_for fileId (userId u) s = false) ->
            fst (run (fileRoutes.download req) w0) = Ok file_not_found
            /\ db (snd (run (fileRoutes.download req) w0)) = db w0).
  { clear Hw. intros w0 Hw Hfiles Hnone.
    unfold fileRoutes.download, auth, auditLogger. rewrite !Hu.
    rewrite run_bind. unfold fileRoutes.download_handler.
    rewrite run_try_catch, run_bind, Hp. cbn [fileIdSchema_parse].
    rewrite run_ret, run_bind, run_getFileById by answers Hw.
    rewrite Hfiles.
    destruct (find (filesData.has_id fileId) (files (db w))) as [f|] eqn:Ef.
    - specialize (Hnot f Ef). apply Nat.eqb_neq in Hnot.
      rewrite run_bind. unfold fileRoutes.download_access. rewrite Hnot.
      rewrite run_bind, run_getShareByFileAndRecipient by answers Hw.
      wsimpl. rewrite (filter_nil_all _ _ Hnone). cbn [userSharesData.latest].
      rewrite !run_ret. cbn [fst snd status json].
      change ((200 <=? 404) && (404 <? 300)) with false. cbv iota.
      rewrite run_bind, !run_ret. split; [reflexivity|].
      cbn [snd]. destruct w0; reflexivity.
    - rewrite !run_ret. cbn [fst snd status json].
      change ((200 <=? 404) && (404 <? 300)) with false. cbv iota.
      rewrite run_bind, !run_ret. split; [reflexivity|].
      cbn [snd]. destruct w0; reflexivity. }
  split; [intros Hnone; apply (Hgen w Hw eq_refl Hnone)|].
  intros shareId Hnd Honly revoked. subst revoked.
  rewrite run_deactivateUserShare by (apply fails_no_faults, Hw).
  cbn [snd]. apply Hgen; wsimpl; [exact Hw|reflexivity|].
  intros s Hs.
  rewrite (@updateOne_unique shareId (UserShare.set_isActive false (now w))
             _ Hnd) in Hs.
  apply in_map_iff in Hs. destruct Hs as [x [Hx Hin]].
  destruct (userSharesData.has_id shareId x) eqn:E; subst s.
  - unfold userSharesData.active_for. cbn. apply andb_false_r.
  - destruct (userSharesData.active_for fileId (userId u) x) eqn:Ea; [|reflexivity].
    specialize (Honly x Hin Ea). unfold userSharesData.has_id in E.
    apply Nat.eqb_neq in E. contradiction.
Qed.

Lemma download_without_share_not_found_witness :
  fst (run (fileRoutes.download carol_request) alice_world) = Ok file_not_found
  /\ fst (run (fileRoutes.download bob_request)
              (snd (run (userSharesData.deactivateUserShare (WellFormed 8))
                        alice_world))) = Ok file_not_found.
Proof.
  split.
  - apply (@download_without_share_not_found alice_world carol_request carol 5
             eq_refl eq_refl eq_refl).
    + intros f Hf. vm_compute in Hf. inversion Hf. cbn. discriminate.
    + intros s [<-|[]]. reflexivity.
  - apply (@download_without_share_not_found alice_world bob_request bob 5
             eq_refl eq_refl eq_refl).
    + intros f Hf. vm_compute in Hf. inversion Hf. cbn. discriminate.
    + repeat constructor. intros [].
    + intros s [<-|[]] _. reflexivity.
Defined.

(** ** Who may revoke a user share *)

(** X22. The revocation route acts for the owner of the file only. For a
    share id that names no share it answers 404, for a share whose file is
    gone 404, for a requester who does not own the file 403, and in these
    cases the database is as it was. For the owner it answers 200: the share
    is switched off and validateUserShare rejects it from then on, every
    other share is as it was, and the audit log gets one SHARE_REVOKED entry
    about the file by the owner. *)
Theorem revoke_user_share_owner_only (w : World) (req : Request) (u : AuthUser)
    (shareId : ObjectId) :
  faults w = [] -> user req = Some u ->
  params_shareId req = Some (WellFormed shareId) ->
  let r := run (shareRoutes.revoke_user_share req) w in
  match stored_share (db w) shareId with
  | None =>
      fst r = Ok (json 404 (ErrorBody "User share not found"))
      /\ db (snd r) = db w
  | Some s =>
      match find (filesData.has_id (UserShare.fileId s)) (files (db w)) with
      | None => fst r = Ok file_not_found /\ db (snd r) = db w
      | Some f =>
          if File.ownerId f =? userId u then
            fst r = Ok (json 200 (Message "User share revoked successfully"))
            /\ stored_share (db (snd r)) shareId
               = Some (UserShare.set_isActive false (now w) s)
            /\ (forall id', id' <> shareId ->
                  stored_share (db (snd r)) id' = stored_share (db w) id')
            /\ fst (run (userSharesData.validateUserShare (WellFormed shareId))
                        (snd r)) = Ok false
            /\ users (db (snd r)) = users (db w)
            /\ files (db (snd r)) = files (db w)
            /\ shareLinks (db (snd r)) = shareLinks (db w)
            /\ exists entry,
                 auditLogs (db (snd r)) = auditLogs (db w) ++ [entry]
                 /\ AuditLog.action entry = SHARE_REVOKED
                 /\ AuditLog.fileId entry = Some (File._id f)
                 /\ AuditLog.userId entry = Value (userId u)
          else
            fst r = Ok (json 403
                          (ErrorBody "Unauthorized: You do not own this file"))
            /\ db (snd r) = db w
      end
  end.
Proof.
  intros Hw Hu Hp r. subst r.
  unfold shareRoutes.revoke_user_share, auth. rewrite Hu.
  rewrite run_try_catch, Hp.
  rewrite run_bind, run_query by answers Hw.
  unfold stored_share, Collection.findOne.
  change (fun s => UserShare._id s =? shareId)
    with (userSharesData.has_id shareId).
  destruct (find (userSharesData.has_id shareId) (userShares (db w)))
    as [s|] eqn:Es.
  2:{ rewrite run_ret. split; [reflexivity|]. destruct w; reflexivity. }
  rewrite run_bind, run_getFileById by answers Hw. wsimpl.
  destruct (find (filesData.has_id (UserShare.fileId s)) (files (db w)))
    as [f|] eqn:Ef.
  2:{ rewrite run_ret. split; [reflexivity|]. destruct w; reflexivity. }
  destruct (File.ownerId f =? userId u); cbn [negb].
  2:{ rewrite run_ret. split; [reflexivity|]. destruct w; reflexivity. }
  rewrite run_bind, run_query by answers Hw.
  rewrite run_bind, run_deactivateUserShare by answers Hw.
  rewrite run_bind.
  edestruct run_createAuditLog as [entry Hentry];
    [| |rewrite Hentry]; [answers Hw|reflexivity|].
  rewrite run_ret. cbn [fst snd]. wsimpl.
  unfold userSharesData.has_id in *.
  split; [reflexivity|].
  rewrite (@find_updated _ UserShare._id shareId
             (UserShare.set_isActive false (now w)) (fun x => eq_refl)).
  rewrite Es. split; [reflexivity|]. split.
  { intros id' Hne.
    apply (@find_not_updated _ UserShare._id shareId
             (UserShare.set_isActive false (now w)) (fun x => eq_refl) id' _ Hne). }
  split.
  { rewrite validateUserShare_run by answers Hw. cbn [fst]. f_equal.
    unfold verdict_of, stored_share. wsimpl.
    rewrite (@find_updated _ UserShare._id shareId
               (UserShare.set_isActive false (now w)) (fun x => eq_refl)).
    rewrite Es. reflexivity. }
  do 3 (split; [reflexivity|]).
  unfold auditLogsData.createAuditLog in Hentry. cbn [bind ret] in Hentry.
  cbn in Hentry. unfold fails in Hentry. cbn in Hentry. rewrite Hw in Hentry.
  cbn in Hentry. inversion Hentry; subst entry.
  eexists. split; [reflexivity|]. repeat split; reflexivity.
Qed.

Lemma revoke_user_share_owner_only_witness :
  fst (run (shareRoutes.revoke_user_share bob_revoke_request) alice_world)
  = Ok (json 403 (ErrorBody "Unauthorized: You do not own this file"))
  /\ fst (run (shareRoutes.revoke_user_share revoke_request) alice_world)
     = Ok (json 200 (Message "User share revoked successfully")).
Proof.
  split.
  - exact (proj1 (@revoke_user_share_owner_only alice_world bob_revoke_request
                    bob 8 eq_refl eq_refl eq_refl)).
  - exact (proj1 (@revoke_user_share_owner_only alice_world revoke_request
                    alice 8 eq_refl eq_refl eq_refl)).
Defined.

(** ** Deleting a file through the route *)

Lemma run_deleteFile_at (fileId : ObjectId) (w : World) :
  (forall k, k < 4 -> existsb (Nat.eqb (k + tick w)) (faults w) = false) ->
  exists counts,
    run (filesData.deleteFile (WellFormed fileId)) w
    = (Ok counts,
       bump (bump (bump (bump (set_db (without_file fileId (db w)) w))))).
Proof.
  intros Hw. unfold filesData.deleteFile.
  cbn [objectIdSchema_parse bind ret].
  assert (H0 := Hw 0). assert (H1 := Hw 1). assert (H2 := Hw 2).
  assert (H3 := Hw 3). cbn in H0, H1, H2, H3.
  rewrite run_bind, run_statement by (unfold fails; wsimpl; apply H0; lia).
  cbn [fst snd].
  rewrite run_bind, run_statement by (unfold fails; wsimpl; apply H1; lia).
  cbn [fst snd].
  rewrite run_bind, run_statement by (unfold fails; wsimpl; apply H2; lia).
  cbn [fst snd].
  rewrite run_bind, run_statement by (unfold fails; wsimpl; apply H3; lia).
  cbn [fst snd run ret]. wsimpl. eexists. unfold without_file.
  destruct w; reflexivity.
Qed.

(** X20. The owner's DELETE of a file, when everything goes through: the
    response is a 200 with the counts, the cascade has run, and the audit
    entry of the deletion, written after it, is the only entry left that
    refers to the file. When the object store rejects the deletion of the
    content, the response is a 500, yet the database records are gone all
    the same (the cascade is not undone) and no audit entry of the deletion
    is written. *)
Theorem delete_route_outcomes (w : World) (req : Request) (u : AuthUser)
    (fileId : ObjectId) (f : File.t) :
  user req = Some u ->
  params_fileId req = Some (WellFormed fileId) ->
  find (filesData.has_id fileId) (files (db w)) = Some f ->
  File.ownerId f = userId u ->
  let r := run (fileRoutes.delete req) w in
  (faults w = [] ->
     (exists counts, fst r = Ok (json 200 (FileDeleted fileId counts)))
     /\ exists entry,
          db (snd r)
          = on_auditLogs (Collection.insertOne entry) (without_file fileId (db w))
          /\ AuditLog.action entry = DELETE
          /\ AuditLog.fileId entry = Some fileId
          /\ AuditLog.userId entry = Value (userId u)
          /\ trail_of (db (snd r)) fileId = [entry])
  /\ (faults w = [5 + tick w] ->
      fst r = Ok (json 500 (ErrorBody "Failed to delete file"))
      /\ db (snd r) = without_file fileId (db w)
      /\ trail_of (db (snd r)) fileId = []
      /\ console (snd r) = console w ++ ["Delete error:"%string]).
Proof.
  intros Hu Hp Hfile Hown r. subst r.
  assert (Htrail : trail_of (without_file fileId (db w)) fileId = []).
  { unfold trail_of, without_file. cbn [auditLogs].
    apply filter_nil_all. intros x Hx. apply deleteMany_In in Hx. tauto. }
  split.
  - intros Hw.
    assert (Hh : exists counts,
              run (fileRoutes.delete_handler u req) w
              = (Ok (json 200 (FileDeleted fileId counts), noLocals),
                 bump (bump (bump (bump (bump (bump
                   (set_db (without_file fileId (db w)) w)))))))).
    { unfold fileRoutes.delete_handler.
      rewrite run_try_catch, run_bind, Hp. cbn [fileIdSchema_parse].
      rewrite run_ret, run_bind, run_getFileById by answers Hw.
      rewrite Hfile, Hown, Nat.eqb_refl. cbn [negb].
      destruct (@run_deleteFile_at fileId (bump w)) as [counts Hc].
      { intros k _. wsimpl. rewrite Hw. reflexivity. }
      rewrite run_bind, Hc. unfold s3.deleteFromS3.
      rewrite run_bind, run_s3_call by answers Hw.
      rewrite run_ret. exists counts. reflexivity. }
    destruct Hh as [counts Hh].
    unfold fileRoutes.delete, auth. rewrite Hu.
    rewrite (@run_auditLogger_2xx DELETE None (fileRoutes.delete_handler u) req
               w _ _ _ (WellFormed fileId) fileId Hh);
      [|reflexivity|answers Hw|unfold audited_file; rewrite Hp; reflexivity
       |reflexivity].
    cbn [fst snd]. split; [exists counts; reflexivity|].
    eexists. wsimpl. split; [reflexivity|].
    unfold logged_entry. cbn [AuditLog.action AuditLog.fileId AuditLog.userId].
    rewrite Hu. do 3 (split; [reflexivity|]).
    unfold trail_of in *. cbn [auditLogs on_auditLogs without_file] in *.
    unfold Collection.insertOne. rewrite filter_app, Htrail.
    cbn. rewrite Nat.eqb_refl. reflexivity.
  - intros Hw.
    assert (Hh : run (fileRoutes.delete_handler u req) w
              = (Ok (json 500 (ErrorBody "Failed to delete file"), noLocals),
                 print "Delete error:"
                   (bump (bump (bump (bump (bump (bump
                      (set_db (without_file fileId (db w)) w))))))))).
    { unfold fileRoutes.delete_handler.
      rewrite run_try_catch, run_bind, Hp. cbn [fileIdSchema_parse].
      rewrite run_ret, run_bind, run_getFileById
        by (unfold fails; rewrite Hw; cbn;
            replace (tick w =? S (S (S (S (S (tick w))))))
              with false by (symmetry; apply Nat.eqb_neq; lia);
            reflexivity).
      rewrite Hfile, Hown, Nat.eqb_refl. cbn [negb].
      destruct (@run_deleteFile_at fileId (bump w)) as [counts Hc].
      { intros k Hk. wsimpl. rewrite Hw. cbn.
        rewrite orb_false_r. apply Nat.eqb_neq. lia. }
      rewrite run_bind, Hc. unfold s3.deleteFromS3, s3.call, await.
      cbn [bind run]. unfold fails. wsimpl. rewrite Hw. cbn [existsb].
      replace (S (S (S (S (S (tick w))))) =? 5 + tick w) with true
        by (symmetry; apply Nat.eqb_eq; reflexivity).
      cbn [orb run catch_route bind console_error sync ret].
      reflexivity. }
    unfold fileRoutes.delete, auth. rewrite Hu.
    unfold auditLogger. rewrite run_bind, Hh. cbn [fst snd status json].
    change ((200 <=? 500) && (500 <? 300)) with false. cbv iota.
    rewrite run_bind, !run_ret. cbn [fst snd]. wsimpl.
    split; [reflexivity|]. split; [reflexivity|]. split; [exact Htrail|].
    reflexivity.
Qed.

Lemma delete_route_outcomes_witness :
  (exists counts,
     fst (run (fileRoutes.delete delete_request) alice_world)
     = Ok (json 200 (FileDeleted 5 counts)))
  /\ fst (run (fileRoutes.delete delete_request) store_delete_fails)
     = Ok (json 500 (ErrorBody "Failed to delete file"))
  /\ files (db (snd (run (fileRoutes.delete delete_request) store_delete_fails)))
     = [].
Proof.
  split.
  - exact (proj1 (proj1 (@delete_route_outcomes alice_world delete_request alice
                           5 alice_file eq_refl eq_refl eq_refl eq_refl)
                        eq_refl)).
  - destruct (proj2 (@delete_route_outcomes store_delete_fails delete_request
                       alice 5 alice_file eq_refl eq_refl eq_refl eq_refl)
                    eq_refl) as [H1 [H2 _]].
    split; [exact H1|]. rewrite H2. reflexivity.
Defined.

(** ** Probing the token routes *)

(** X23. A token that is not 64 lower-case hexadecimal characters gets a 400
    from both token routes before anything is called. A well-formed token
    that names no share link gets the same 403 and message as an expired
    link, and the attempt is recorded: the audit log gets one
    EXPIRED_LINK_ATTEMPT entry without file and without user, holding the
    token and the reason; nothing else changes. (The two lookups by token
    that the routes call are those of data/shareLinks.js, whose source is
    missing; they are modelled from the spec.) *)
Theorem unknown_token_probe_is_logged (w : World) (req : Request) :
  (shareTokenSchema_ok (params_token req) = false ->
   run (shareRoutes.view req) w = (Ok (json 400 ValidationFailed), w)
   /\ run (shareRoutes.download req) w = (Ok (json 400 ValidationFailed), w))
  /\ (faults w = [] ->
      shareTokenSchema_ok (params_token req) = true ->
      stored_link (db w) (params_token req) = None ->
      forall route reason,
        (route = shareRoutes.view /\ reason = "expired_or_max_access_reached"%string)
        \/ (route = shareRoutes.download
            /\ reason = "download_attempt_after_expiry"%string) ->
        let r := run (route req) w in
        fst r = Ok (json 403 (ErrorBody shareRoutes.expired_message))
        /\ only_audit_grows w (snd r)
        /\ exists entry,
             auditLogs (db (snd r)) = auditLogs (db w) ++ [entry]
             /\ AuditLog.action entry = EXPIRED_LINK_ATTEMPT
             /\ AuditLog.fileId entry = None
             /\ AuditLog.userId entry = Missing
             /\ AuditLog.details entry
                = Some [("token", JString (params_token req));
                        ("reason", JString reason)]%string).
Proof.
  split.
  - intros Hbad. unfold shareRoutes.view, shareRoutes.download,
      shareTokenSchema_parse. rewrite Hbad. split; reflexivity.
  - intros Hw Hok Hnone route reason Hroute r. subst r.
    assert (Hrej : forall reason0,
              run (shareRoutes.reject_expired req (params_token req) reason0)
                  (bump w)
              = (Ok (json 403 (ErrorBody shareRoutes.expired_message)),
                 bump (set_db
                   (on_auditLogs
                      (Collection.insertOne
                         (AuditLog.mk (nextId w) None EXPIRED_LINK_ATTEMPT Missing
                            None (shareRoutes.routeIp req) (cfIpCountry req)
                            (Some [("token", JString (params_token req));
                                   ("reason", JString reason0)]%string)
                            (now w)))
                      (db w)) (bump_id (bump (bump w)))))).
    { intros reason0. unfold shareRoutes.reject_expired.
      rewrite run_bind, run_getShareLinkByToken by answers Hw.
      wsimpl. rewrite Hnone. rewrite run_bind.
      unfold auditLogsData.createAuditLog. cbn [bind ret
        auditLogsData.createAuditLogSchema_parse auditLogsData.a_fileId
        auditLogsData.a_userId].
      rewrite run_bind, run_newDate, run_bind, run_newObjectId, run_bind.
      rewrite run_statement by answers Hw.
      cbn [fst snd run ret]. reflexivity. }
    assert (Hrun : run (route req) w
                   = run (shareRoutes.reject_expired req (params_token req) reason)
                         (bump w)).
    { destruct Hroute as [[-> ->]|[-> ->]].
      - unfold shareRoutes.view. rewrite run_try_catch, run_bind.
        unfold shareTokenSchema_parse. rewrite Hok, run_ret.
        rewrite run_bind, run_validateShareLink by answers Hw.
        rewrite Hnone. cbn [negb]. rewrite Hrej. reflexivity.
      - unfold shareRoutes.download. rewrite run_try_catch, run_bind.
        unfold shareTokenSchema_parse. rewrite Hok, run_ret.
        rewrite run_bind, run_validateShareLink by answers Hw.
        rewrite Hnone. cbn [negb]. rewrite Hrej. reflexivity. }
    rewrite Hrun, Hrej. cbn [fst snd]. wsimpl.
    split; [reflexivity|]. split; [unfold only_audit_grows; wsimpl; tauto|].
    eexists. split; [reflexivity|]. repeat split; reflexivity.
Qed.

Lemma unknown_token_probe_is_logged_witness :
  fst (run (shareRoutes.view unknown_token_request) alice_world)
  = Ok (json 403 (ErrorBody shareRoutes.expired_message))
  /\ List.length
       (auditLogs (db (snd (run (shareRoutes.view unknown_token_request)
                                alice_world)))) = 2.
Proof.
  destruct (proj2 (unknown_token_probe_is_logged alice_world unknown_token_request)
              eq_refl eq_refl eq_refl shareRoutes.view
              "expired_or_max_access_reached"%string (or_introl (conj eq_refl eq_refl)))
    as [H1 [_ [entry [H2 _]]]].
  split; [exact H1|]. rewrite H2. reflexivity.
Defined.

(** ** The audit log only grows *)

Lemma audit_appended_refl (w : World) : audit_appended w w.
Proof. exists []. symmetry. apply app_nil_r. Qed.

Lemma audit_appended_trans (a b c : World) :
  audit_appended a b -> audit_appended b c -> audit_appended a c.
Proof.
  intros [s1 H1] [s2 H2]. exists (s1 ++ s2). rewrite H2, H1.
  symmetry. apply app_assoc.
Qed.

Ltac appended_brute :=
  repeat (cbn;
    match goal with
    | |- True => exact I
    | |- _ /\ _ => split
    | |- forall _, _ => intro
    | |- audit_appended _ _ => unfold audit_appended, fails, Collection.insertOne
    | |- exists suffix, ?l = ?l ++ suffix => exists []; symmetry; apply app_nil_r
    | |- exists suffix, ?l ++ [?e] = ?l ++ suffix => exists [e]; reflexivity
    | |- context [match ?x with _ => _ end] => destruct x
    end).

Lemma view_appends (req : Request) :
  keeps audit_appended (shareRoutes.view req).
Proof.
  unfold shareRoutes.view, shareTokenSchema_parse, catch_route.
  appended_brute.
Qed.

Lemma link_download_appends (req : Request) :
  keeps audit_appended (shareRoutes.download req).
Proof.
  unfold shareRoutes.download, shareTokenSchema_parse, catch_route.
  appended_brute.
Qed.

Lemma file_download_appends (req : Request) :
  keeps audit_appended (fileRoutes.download req).
Proof.
  unfold fileRoutes.download, auth, auditLogger, fileRoutes.download_handler,
    fileRoutes.download_access,
    fileIdSchema_parse, catch_route.
  appended_brute.
Qed.

Lemma revoke_appends (req : Request) :
  keeps audit_appended (shareRoutes.revoke_user_share req).
Proof.
  unfold shareRoutes.revoke_user_share, auth.
  appended_brute.
Qed.

(** X24. Downloads of a file and revocations of a user share only ever add to
    the audit log: however the awaits of any number of such requests are
    interleaved, and whichever calls to the database or the object store
    are rejected, the audit log afterwards is the audit log before with
    entries added at its end. No entry that was there is changed, removed
    or moved. *)
Theorem audit_log_only_grows
    (sched : list nat) (ts : list (Async Response)) (w : World) :
  Forall appending_request ts ->
  audit_appended w (snd (interleave sched ts w)).
Proof.
  intros Hts.
  apply (@keeps_interleave audit_appended audit_appended_refl
           audit_appended_trans Response sched ts w).
  induction Hts as [|t r [req [->| ->]] Hr IH]; constructor; try exact IH.
  - apply file_download_appends.
  - apply revoke_appends.
Qed.

Lemma audit_log_only_grows_witness :
  exists suffix,
    auditLogs (db (snd (interleave taking_turns download_and_revoke alice_world)))
    = upload_entry :: suffix.
Proof.
  apply (@audit_log_only_grows taking_turns download_and_revoke alice_world).
  repeat constructor; eexists; [left|right]; reflexivity.
Defined.

(** X25. Views and downloads through a share link only ever add to the audit
    log: however the awaits of any number of such requests are interleaved,
    and whichever calls are rejected, the audit log afterwards is the audit
    log before with entries added at its end; views alone change no other
    collection either. (The functions of data/shareLinks.js that these
    routes call are modelled from the spec, their source being missing.) *)
Theorem link_routes_only_append
    (sched : list nat) (ts : list (Async Response)) (w : World) :
  Forall link_route_request ts ->
  audit_appended w (snd (interleave sched ts w))
  /\ ((forall t, In t ts -> exists req, t = shareRoutes.view req) ->
      only_audit_grows w (snd (interleave sched ts w))).
Proof.
  intros Hts. split.
  - apply (@keeps_interleave audit_appended audit_appended_refl
             audit_appended_trans Response sched ts w).
    induction Hts as [|t r [req [->| ->]] Hr IH]; constructor; try exact IH.
    + apply view_appends.
    + apply link_download_appends.
  - intros Hviews.
    apply (@keeps_interleave only_audit_grows only_audit_grows_refl
             only_audit_grows_trans Response sched ts w).
    clear Hts. induction ts as [|t r IH]; constructor.
    + destruct (Hviews t (or_introl eq_refl)) as [req ->]. apply view_keeps.
    + apply IH. intros t' Ht'. apply Hviews. right. exact Ht'.
Qed.

Lemma link_routes_only_append_witness :
  exists suffix,
    auditLogs (db (snd (interleave taking_turns view_and_download alice_world)))
    = upload_entry :: suffix.
Proof.
  apply (@link_routes_only_append taking_turns view_and_download alice_world).
  repeat constructor; eexists; [left|right]; reflexivity.
Defined.

(** ** Changing a username *)

Section UpdateOneUnique.
Variable A : Type.
Variable key : A -> ObjectId.
Variable id : ObjectId.
Variable g : A -> A.

Lemma updateOne_by_key (l : list A) :
  NoDup (map key l) ->
  Collection.updateOne (fun x => key x =? id) g l
  = map (fun x => if key x =? id then g x else x) l.
Proof.
  induction l as [|x r IH]; intros Hnd; [reflexivity|].
  inversion Hnd as [|? ? Hnotin Hr]; subst. cbn.
  destruct (key x =? id) eqn:E.
  - f_equal. apply Nat.eqb_eq in E.
    rewrite <- (map_id r) at 1. apply map_ext_in. intros y Hy.
    destruct (key y =? id) eqn:Ey; [|reflexivity].
    apply Nat.eqb_eq in Ey. exfalso. apply Hnotin.
    apply in_map_iff. exists y. split; [congruence|exact Hy].
  - f_equal. apply IH, Hr.
Qed.
End UpdateOneUnique.

Lemma renamed_usernames_unique (u : ObjectId) (name : string) (g : User.t -> User.t)
      (l : list User.t) :
  (forall x, User.username (g x) = name) ->
  NoDup (map User._id l) -> NoDup (map User.username l) ->
  (forall x, In x l -> User.username x = name -> User._id x = u) ->
  NoDup (map User.username (map (fun x => if User._id x =? u then g x else x) l)).
Proof.
  intros Hg. induction l as [|x r IH]; intros Hid Hname Hfree; [constructor|].
  inversion Hid as [|? ? Hxid Hrid]; subst.
  inversion Hname as [|? ? Hxname Hrname]; subst.
  cbn [map]. constructor.
  - intros Hin. apply in_map_iff in Hin. destruct Hin as [y' [Hy' Hin]].
    apply in_map_iff in Hin. destruct Hin as [y [Hy Hyr]]. subst y'.
    destruct (User._id x =? u) eqn:Ex, (User._id y =? u) eqn:Ey.
    + apply Nat.eqb_eq in Ex, Ey. apply Hxid. apply in_map_iff.
      exists y. split; [congruence|exact Hyr].
    + rewrite Hg in Hy'. apply Nat.eqb_neq in Ey. apply Ey.
      apply Hfree; [right; exact Hyr|exact Hy'].
    + rewrite Hg in Hy'. apply Nat.eqb_neq in Ex. apply Ex.
      apply Hfree; [left; reflexivity|congruence].
    + apply Hxname. apply in_map_iff. exists y. split; [exact Hy'|exact Hyr].
  - apply IH; [exact Hrid|exact Hrname|].
    intros y Hy. apply Hfree. right. exact Hy.
Qed.

Lemma find_taken (d : Db) (u : ObjectId) (name : string) :
  match find (fun x => String.eqb (User.username x) name
                       && negb (User._id x =? u)) (users d) with
  | Some _ => username_taken d u name
  | None => forall x, In x (users d) -> User.username x = name -> User._id x = u
  end.
Proof.
  destruct (find _ (users d)) as [x|] eqn:E.
  - apply find_some in E. destruct E as [Hin E].
    apply andb_true_iff in E. destruct E as [E1 E2].
    apply String.eqb_eq in E1. apply negb_true_iff, Nat.eqb_neq in E2.
    exists x. auto.
  - intros x Hx Hn. pose proof (find_none _ _ E x Hx) as H. cbn in H.
    apply andb_false_iff in H. destruct H as [H|H].
    + apply String.eqb_neq in H. contradiction.
    + apply negb_false_iff, Nat.eqb_eq in H. exact H.
Qed.

(** X13. updateUserProfile with a new username that passes the username
    schema, for a user that exists, the _id values of the users being
    unique. If another user has the name, it throws Username already exists
    and changes nothing. Otherwise the user's document gets the name and
    keeps its email, no other user changes, usernames that were unique stay
    unique, and every audit entry whose actor is the user now carries the
    new name, while the entries of other actors, and the entries made
    anonymous, are as they were. The two updates are two statements: when
    the second one, on the audit log, is rejected, the user has the new name
    and the audit log still has the old one. *)
Theorem updateUserProfile_renames_everywhere
    (emailSchema_parse : string -> option string)
    (w : World) (u : ObjectId) (name : string) (old : User.t) :
  usernameSchema_ok name = true ->
  NoDup (map User._id (users (db w))) ->
  find (fun x => User._id x =? u) (users (db w)) = Some old ->
  let r := run (usersData.updateUserProfile emailSchema_parse (WellFormed u)
                  (usersData.mkProfileUpdates (Some name) None)) w in
  let renamed := User.mk u name (User.email old) in
  (faults w = [] -> username_taken (db w) u name ->
     fst r = Err (JsError "Username already exists") /\ db (snd r) = db w)
  /\ (faults w = [] -> ~ username_taken (db w) u name ->
      fst r = Ok renamed
      /\ find (fun x => User._id x =? u) (users (db (snd r))) = Some renamed
      /\ (forall id', id' <> u ->
            find (fun x => User._id x =? id') (users (db (snd r)))
            = find (fun x => User._id x =? id') (users (db w)))
      /\ (NoDup (map User.username (users (db w))) ->
          NoDup (map User.username (users (db (snd r)))))
      /\ auditLogs (db (snd r))
         = map (fun a => if usersData.acted_by u a
                         then usersData.rename_actor name a else a)
               (auditLogs (db w))
      /\ (forall a, In a (auditLogs (db (snd r))) ->
            AuditLog.userId a = Value u -> AuditLog.username a = Some name)
      /\ files (db (snd r)) = files (db w)
      /\ shareLinks (db (snd r)) = shareLinks (db w)
      /\ userShares (db (snd r)) = userShares (db w))
  /\ (faults w = [2 + tick w] -> ~ username_taken (db w) u name ->
      fst r = Err MongoError
      /\ find (fun x => User._id x =? u) (users (db (snd r))) = Some renamed
      /\ auditLogs (db (snd r)) = auditLogs (db w)).
Proof.
  intros Hname Hnd Hold r renamed. subst r.
  assert (Hid : User._id old = u)
    by (apply find_some in Hold; destruct Hold as [_ H]; apply Nat.eqb_eq, H).
  destruct name as [|c rest]; [discriminate|].
  set (name := String c rest) in *.
  assert (Hshape :
    forall w0 : World,
      fails w0 = false -> users (db w0) = users (db w) ->
      run (usersData.updateUserProfile emailSchema_parse (WellFormed u)
             (usersData.mkProfileUpdates (Some name) None)) w0
      = match find (fun x => String.eqb (User.username x) name
                             && negb (User._id x =? u)) (users (db w)) with
        | Some _ => (Err (JsError "Username already exists"), bump w0)
        | None =>
            run (result <- statement false (fun d =>
                   (option_map (usersData.apply_updates
                                  (usersData.mkProfileUpdates (Some name) None))
                      (Collection.findOne (fun x => User._id x =? u) (users d)),
                    on_users (Collection.updateOne (fun x => User._id x =? u)
                                (usersData.apply_updates
                                   (usersData.mkProfileUpdates (Some name) None)))
                             d)) ;;
                 match result with
                 | None => throw (JsError "User not found")
                 | Some result =>
                     statement false (fun d =>
                       (tt, on_auditLogs
                              (Collection.updateMany (usersData.acted_by u)
                                 (usersData.rename_actor name)) d)) ;;;
                     ret result
                 end) (bump w0)
        end).
  { intros w0 Hf Hus. unfold usersData.updateUserProfile.
    cbn [objectIdSchema_parse bind ret usersData.up_username
         usersData.up_email]. unfold name at 1 2.
    cbn [usersData.truthy negb andb]. fold name.
    unfold usernameSchema_parse. rewrite Hname. cbn [bind ret].
    rewrite !run_bind. rewrite run_query by exact Hf.
    unfold Collection.findOne at 1. rewrite Hus.
    destruct (find (fun x => String.eqb (User.username x) name
                             && negb (User._id x =? u)) (users (db w)));
      [reflexivity|].
    cbn [run ret bind]. rewrite run_bind, run_newDate.
    symmetry. rewrite run_bind. reflexivity. }
  pose proof (find_taken (db w) u name) as Htaken.
  set (taken := find (fun x => String.eqb (User.username x) name
                               && negb (User._id x =? u)) (users (db w))) in *.
  split; [|split].
  - intros Hw Ht. rewrite Hshape by (try apply fails_no_faults; auto).
    destruct taken as [x|].
    + split; reflexivity.
    + exfalso. destruct Ht as [x [Hx [Hn Hi]]]. apply Hi. apply Htaken; assumption.
  - intros Hw Hfree. rewrite Hshape by (try apply fails_no_faults; auto).
    destruct taken as [x|]; [contradiction|].
    rewrite run_bind, run_statement by answers Hw.
    cbn [fst snd]. unfold Collection.findOne. wsimpl. rewrite Hold.
    cbn [option_map].
    rewrite run_bind, run_statement by answers Hw.
    cbn [fst snd run ret]. wsimpl.
    assert (Hren : usersData.apply_updates
                     (usersData.mkProfileUpdates (Some name) None) old = renamed)
      by (unfold usersData.apply_updates, renamed; cbn; rewrite Hid; reflexivity).
    rewrite Hren. split; [reflexivity|].
    split.
    { rewrite (@find_updated _ User._id u
               (usersData.apply_updates
                  (usersData.mkProfileUpdates (Some name) None))
               (fun x => eq_refl)).
      rewrite Hold. cbn [option_map]. rewrite Hren. reflexivity. }
    split.
    { intros id' Hne'.
      apply (@find_not_updated _ User._id u
               (usersData.apply_updates
                  (usersData.mkProfileUpdates (Some name) None))
               (fun x => eq_refl) id' _ Hne'). }
    split.
    { intros Hun. rewrite (@updateOne_by_key _ User._id u
                 (usersData.apply_updates
                    (usersData.mkProfileUpdates (Some name) None)) _ Hnd).
      apply (@renamed_usernames_unique u name);
        [reflexivity|exact Hnd|exact Hun|exact Htaken]. }
    split; [reflexivity|]. split; [|repeat split; reflexivity].
    intros a Ha Hby. unfold Collection.updateMany in Ha.
    apply in_map_iff in Ha. destruct Ha as [x [Hx _]].
    destruct (usersData.acted_by u x) eqn:E; subst a; [reflexivity|].
    unfold usersData.acted_by in E. rewrite Hby, Nat.eqb_refl in E. discriminate.
  - intros Hw Hfree.
    rewrite Hshape; [| |reflexivity].
    2:{ unfold fails. rewrite Hw. cbn.
        rewrite orb_false_r. apply Nat.eqb_neq. lia. }
    destruct taken as [x|]; [contradiction|].
    rewrite run_bind, run_statement.
    2:{ unfold fails. wsimpl. rewrite Hw. cbn.
        rewrite orb_false_r. apply Nat.eqb_neq. lia. }
    cbn [fst snd]. unfold Collection.findOne. wsimpl. rewrite Hold.
    cbn [option_map].
    rewrite run_bind. unfold statement, await. cbn [run]. unfold fails. wsimpl.
    rewrite Hw. cbn [existsb]. rewrite Nat.eqb_refl. cbn [orb fst snd]. wsimpl.
    split; [reflexivity|]. split; [|reflexivity].
    rewrite (@find_updated _ User._id u
               (usersData.apply_updates
                  (usersData.mkProfileUpdates (Some name) None))
               (fun x => eq_refl)).
    rewrite Hold. cbn [option_map]. unfold usersData.apply_updates, renamed. cbn.
    rewrite Hid. reflexivity.
Qed.

Lemma updateUserProfile_renames_everywhere_witness :
  map AuditLog.username
      (auditLogs (db (snd (run (usersData.updateUserProfile no_email (WellFormed 1)
                                  (usersData.mkProfileUpdates (Some "alicia"%string)
                                                              None))
                               alice_world))))
  = [Some "alicia"%string]
  /\ map AuditLog.username
         (auditLogs (db (snd (run (usersData.updateUserProfile no_email
                                     (WellFormed 1)
                                     (usersData.mkProfileUpdates
                                        (Some "alicia"%string) None))
                                  rename_audit_fails))))
     = [Some "alice"%string].
Proof.
  pose proof (@updateUserProfile_renames_everywhere no_email alice_world 1
                "alicia" (User.mk 1 "alice" "alice@example.com") eq_refl) as H.
  pose proof (@updateUserProfile_renames_everywhere no_email rename_audit_fails 1
                "alicia" (User.mk 1 "alice" "alice@example.com") eq_refl) as H'.
  assert (Hnd : NoDup (map User._id (users alice_db)))
    by (repeat constructor; cbn; intuition discriminate).
  assert (Hfree : ~ username_taken alice_db 1 "alicia").
  { intros [x [[<-|[<-|[]]] [Hn _]]]; discriminate. }
  destruct (H Hnd eq_refl) as [_ [Hok _]].
  destruct (H' Hnd eq_refl) as [_ [_ Hfail]].
  destruct (Hok eq_refl Hfree) as [_ [_ [_ [_ [Ha _]]]]].
  destruct (Hfail eq_refl Hfree) as [_ [_ Hb]].
  split; [rewrite Ha|rewrite Hb]; reflexivity.
Defined.

(** ** The transaction of deleteUserAccount *)

(** X11. deleteUserAccount is all or nothing. It makes eight calls to the
    database, seven statements in the session and the commit: when none of
    them is rejected it commits the whole cascade; when any of them is
    rejected, the commit included, it throws the error and the database is
    exactly what it was before. Either way the session's transaction is
    closed. An id that is no ObjectId is a ZodError before any session is
    opened. *)
Theorem deleteUserAccount_all_or_nothing (w : World) (u : ObjectId) :
  let r := run (usersData.deleteUserAccount (WellFormed u)) w in
  txn (snd r) = None
  /\ (answers_next 8 w ->
      (exists counts, fst r = Ok counts) /\ db (snd r) = purged u (db w))
  /\ (~ answers_next 8 w -> fst r = Err MongoError /\ db (snd r) = db w)
  /\ run (usersData.deleteUserAccount Malformed) w = (Err ZodError, w).
Proof.
  intros r. subst r. split; [apply deleteUserAccount_outcome|].
  split; [|split; [|reflexivity]].
  - intros Hw.
    assert (H0 := Hw 0 ltac:(lia)). assert (H1 := Hw 1 ltac:(lia)).
    assert (H2 := Hw 2 ltac:(lia)). assert (H3 := Hw 3 ltac:(lia)).
    assert (H4 := Hw 4 ltac:(lia)). assert (H5 := Hw 5 ltac:(lia)).
    assert (H6 := Hw 6 ltac:(lia)). assert (H7 := Hw 7 ltac:(lia)).
    cbn in H0, H1, H2, H3, H4, H5, H6, H7.
    unfold usersData.deleteUserAccount, withTransaction, fails. cbn.
    unfold fails. cbn.
    rewrite H0. cbn. rewrite H1. cbn. rewrite H2. cbn. rewrite H3. cbn.
    rewrite H4. cbn. rewrite H5. cbn. rewrite H6. cbn. rewrite H7. cbn.
    split; [eexists; reflexivity|reflexivity].
  - intros Hw.
    unfold usersData.deleteUserAccount, withTransaction, fails. cbn.
    unfold fails. cbn.
    repeat (match goal with
            | |- context [if existsb ?p ?l then _ else _] =>
                destruct (existsb p l) eqn:?; cbn
            end; [split; reflexivity|]).
    exfalso. apply Hw. intros k Hk.
    do 8 (destruct k as [|k]; [cbn [Nat.add]; assumption|]). lia.
Qed.

Lemma deleteUserAccount_all_or_nothing_witness :
  fst (run (usersData.deleteUserAccount (WellFormed 1)) commit_fails)
  = Err MongoError
  /\ db (snd (run (usersData.deleteUserAccount (WellFormed 1)) commit_fails))
     = alice_db.
Proof.
  apply (proj1 (proj2 (proj2 (deleteUserAccount_all_or_nothing commit_fails 1)))).
  intros H. specialize (H 7 ltac:(lia)). discriminate H.
Defined.

(** ** Creating a user share through the route *)

Lemma deactivateExisting_frame (v : userSharesData.ValidatedUserShare) (w : World) :
  faults w = [] ->
  let w' := snd (run (userSharesData.deactivateExisting v) w) in
  users (db w') = users (db w) /\ files (db w') = files (db w)
  /\ shareLinks (db w') = shareLinks (db w)
  /\ auditLogs (db w') = auditLogs (db w).
Proof.
  intros Hw. unfold userSharesData.deactivateExisting. cbn.
  rewrite (fails_no_faults w Hw). cbn. unfold Collection.findOne.
  destruct (find _ (userShares (db w))) as [e|]; cbn.
  - unfold fails. cbn. rewrite Hw. cbn. repeat split; reflexivity.
  - repeat split; reflexivity.
Qed.

Lemma parsed_share_body (req : Request) (v : shareRoutes.ValidatedShare) :
  shareRoutes.createShareSchema_parse (body req) = ret v ->
  exists b,
    body req = Some b /\ id_of (b_fileId b) = Some (shareRoutes.vs_fileId v)
    /\ shareRoutes.vs_expirationMinutes v = b_expirationMinutes b
    /\ shareRoutes.vs_maxAccessCount v = b_maxAccessCount b
    /\ optional_ok expirationMinutes_ok (b_expirationMinutes b) = true
    /\ optional_ok positiveIntSchema_ok (b_maxAccessCount b) = true
    /\ is_some (b_expirationMinutes b) || is_some (b_maxAccessCount b) = true.
Proof.
  unfold shareRoutes.createShareSchema_parse.
  destruct (body req) as [b|]; [|discriminate].
  destruct (b_fileId b) as [f| |f n] eqn:Ef; [|discriminate|].
  all: destruct (b_shareType b); try discriminate;
    (match goal with
     | |- (if ?c then _ else _) = _ -> _ => destruct c eqn:E; [|discriminate]
     end;
     rewrite !andb_true_iff in E; destruct E as [[[E1 E2] E3] E4];
     intros H; inversion H; subst; cbn;
     exists b; rewrite ?Ef; repeat split; auto).
Qed.

(** X21. POST /api/share/create for a share with a user, by the owner of the
    file, once the recipient has been found (the route has no file id
    parameter; the file id is in the body). When the recipient is the owner
    themselves the data layer's schema turns the share down and the route
    answers 400: nothing is stored and nothing is recorded. Otherwise the
    route answers 201 with the stored share, which is of the file, from the
    owner to the recipient, and the audit log gets one SHARE_CREATED entry
    about the file by the owner, with the share type and the limits asked
    for as its details. *)
Theorem create_route_user_share
    (getUserByEmailOrUsername : string -> Async (option User.t))
    (createShareLink :
       ObjectId -> ObjectId -> option Z -> option Z -> Async ShareLink.t)
    (w w1 : World) (req : Request) (u : AuthUser)
    (v : shareRoutes.ValidatedShare) (f : File.t) (recipient : User.t) :
  faults w = [] -> user req = Some u ->
  shareRoutes.createShareSchema_parse (body req) = ret v ->
  shareRoutes.vs_shareType v = ShareUser ->
  params_fileId req = None ->
  find (filesData.has_id (shareRoutes.vs_fileId v)) (files (db w)) = Some f ->
  File.ownerId f = userId u ->
  run (getUserByEmailOrUsername
         match shareRoutes.vs_recipientIdentifier v with
         | Some r => r
         | None => EmptyString
         end) (bump w) = (Ok (Some recipient), w1) ->
  let r := run (shareRoutes.create getUserByEmailOrUsername createShareLink req) w in
  (User._id recipient = userId u -> r = (Ok (json 400 ValidationFailed), w1))
  /\ (User._id recipient <> userId u -> faults w1 = [] ->
      exists share entry,
        fst r = Ok (json 201 (UserShareCreated share recipient))
        /\ UserShare.fileId share = shareRoutes.vs_fileId v
        /\ UserShare.ownerId share = userId u
        /\ UserShare.recipientId share = User._id recipient
        /\ UserShare.isActive share = true
        /\ UserShare.accessCount share = 0%Z
        /\ (exists older, userShares (db (snd r)) = older ++ [share])
        /\ auditLogs (db (snd r)) = auditLogs (db w1) ++ [entry]
        /\ AuditLog.action entry = SHARE_CREATED
        /\ AuditLog.fileId entry = Some (shareRoutes.vs_fileId v)
        /\ AuditLog.userId entry = Value (userId u)
        /\ AuditLog.details entry
           = Some (shareRoutes.create_details req
                     (mkLocals (Some (WellFormed (shareRoutes.vs_fileId v)))
                               false))).
Proof.
  intros Hw Hu Hv Hty Hparam Hfile Hown Hrec r. subst r.
  destruct (parsed_share_body req Hv) as [b [Hb [Hbf [Hem [Hmx [Ho1 [Ho2 Ho3]]]]]]].
  unfold shareRoutes.create, auth. rewrite Hu.
  split.
  - intros Hself.
    assert (Hh : run (shareRoutes.create_handler getUserByEmailOrUsername
                        createShareLink u req) w
                 = (Ok (json 400 ValidationFailed, noLocals), w1)).
    { unfold shareRoutes.create_handler.
      rewrite run_try_catch, run_bind, Hv, run_ret.
      rewrite run_bind, run_getFileById by answers Hw.
      rewrite Hfile, Hown, Nat.eqb_refl. cbn [negb]. rewrite Hty.
      rewrite run_bind, Hrec. rewrite run_bind.
      unfold userSharesData.createUserShare.
      destruct (createUserShareSchema_verdict
                  (userSharesData.mkInput
                     (WellFormed (shareRoutes.vs_fileId v))
                     (WellFormed (userId u)) (WellFormed (User._id recipient))
                     (shareRoutes.vs_expirationMinutes v)
                     (shareRoutes.vs_maxAccessCount v)))
        as [[_ Hrej]|[Hacc _]].
      - rewrite Hrej. reflexivity.
      - exfalso. apply Hacc. unfold rejected_input. cbn.
        do 3 right. left. congruence. }
    unfold auditLogger. rewrite run_bind, Hh. cbn [fst snd status json].
    change ((200 <=? 400) && (400 <? 300)) with false. cbv iota.
    rewrite run_bind, !run_ret. reflexivity.
  - intros Hother Hw1.
    set (data := userSharesData.mkInput
                   (WellFormed (shareRoutes.vs_fileId v))
                   (WellFormed (userId u)) (WellFormed (User._id recipient))
                   (shareRoutes.vs_expirationMinutes v)
                   (shareRoutes.vs_maxAccessCount v)).
    set (vd := userSharesData.mkValidated (shareRoutes.vs_fileId v) (userId u)
                 (User._id recipient) (shareRoutes.vs_expirationMinutes v)
                 (shareRoutes.vs_maxAccessCount v)).
    assert (Hparse : userSharesData.createUserShareSchema_parse data = ret vd).
    { unfold userSharesData.createUserShareSchema_parse, data, vd. cbn.
      rewrite Hem, Hmx, Ho1, Ho2, Ho3. cbn.
      replace (userId u =? User._id recipient) with false; [reflexivity|].
      symmetry. apply Nat.eqb_neq. congruence. }
    destruct (@deactivateExisting_run vd w1 Hw1) as [w2 [H2 [Hw2 [Hn2 [Ht2 _]]]]].
    pose proof (@deactivateExisting_frame vd w1 Hw1) as Hframe.
    rewrite H2 in Hframe. cbn [snd] in Hframe.
    destruct Hframe as [_ [_ [_ Haudit]]].
    pose proof (@insertNew_share vd w2 Hw2) as H3. cbv zeta in H3.
    set (share := UserShare.mk (nextId w2) _ _ _ _ _ _ _ _ _) in H3.
    assert (Hh : run (shareRoutes.create_handler getUserByEmailOrUsername
                        createShareLink u req) w
                 = (Ok (json 201 (UserShareCreated share recipient),
                        mkLocals (Some (WellFormed (shareRoutes.vs_fileId v)))
                                 false),
                    bump (set_db (on_userShares (Collection.insertOne share)
                                                (db w2)) (bump_id w2)))).
    { unfold shareRoutes.create_handler.
      rewrite run_try_catch, run_bind, Hv, run_ret.
      rewrite run_bind, run_getFileById by answers Hw.
      rewrite Hfile, Hown, Nat.eqb_refl. cbn [negb]. rewrite Hty.
      rewrite run_bind, Hrec. rewrite run_bind.
      fold data. unfold userSharesData.createUserShare.
      rewrite Hparse. cbn [bind ret]. rewrite run_bind, H2, H3.
      rewrite run_ret. reflexivity. }
    rewrite (@run_auditLogger_2xx SHARE_CREATED (Some shareRoutes.create_details)
               (shareRoutes.create_handler getUserByEmailOrUsername
                  createShareLink u) req w _ _ _ (b_fileId b)
               (shareRoutes.vs_fileId v) Hh);
      [|reflexivity|answers Hw2| |exact Hbf].
    2:{ unfold audited_file. rewrite Hb, Hparam. reflexivity. }
    cbn [fst snd]. wsimpl.
    exists share. eexists. split; [reflexivity|].
    do 5 (split; [reflexivity|]).
    split; [eexists; reflexivity|].
    rewrite Haudit. split; [reflexivity|].
    unfold logged_entry. cbn. rewrite Hu. repeat split; reflexivity.
Qed.

Lemma create_route_user_share_witness :
  fst (run (shareRoutes.create (lookup_user 1) no_link share_request) alice_world)
  = Ok (json 400 ValidationFailed)
  /\ exists share,
       fst (run (shareRoutes.create (lookup_user 2) no_link share_request)
                alice_world)
       = Ok (json 201 (UserShareCreated share (User.mk 2 "bob" "bob@example.com")))
       /\ UserShare.recipientId share = 2.
Proof.
  pose (v := shareRoutes.mkValidatedShare 5 ShareUser (Some "someone"%string)
               None (Some 3%Z)).
  split.
  - pose proof (@create_route_user_share (lookup_user 1) no_link alice_world
                  (bump (bump alice_world)) share_request alice v alice_file
                  (User.mk 1 "alice" "alice@example.com")
                  eq_refl eq_refl eq_refl eq_refl eq_refl eq_refl eq_refl eq_refl)
      as [H _].
    rewrite (H eq_refl). reflexivity.
  - pose proof (@create_route_user_share (lookup_user 2) no_link alice_world
                  (bump (bump alice_world)) share_request alice v alice_file
                  (User.mk 2 "bob" "bob@example.com")
                  eq_refl eq_refl eq_refl eq_refl eq_refl eq_refl eq_refl eq_refl)
      as [_ H].
    destruct H as [share [entry [H1 [_ [_ [H2 _]]]]]];
      [cbn; discriminate|reflexivity|].
    exists share. split; [exact H1|exact H2].
Defined.

(** ** Looking a user up after a change of username *)

Lemma run_updateUserProfile_username
      (emailSchema_parse : string -> option string)
      (w : World) (u : ObjectId) (name : string) (old : User.t) :
  faults w = [] -> usernameSchema_ok name = true ->
  find (fun x => User._id x =? u) (users (db w)) = Some old ->
  ~ username_taken (db w) u name ->
  let g := usersData.apply_updates (usersData.mkProfileUpdates (Some name) None) in
  run (usersData.updateUserProfile emailSchema_parse (WellFormed u)
         (usersData.mkProfileUpdates (Some name) None)) w
  = (Ok (g old),
     bump (set_db
             (on_auditLogs
                (Collection.updateMany (usersData.acted_by u)
                                       (usersData.rename_actor name))
                (on_users (Collection.updateOne (fun x => User._id x =? u) g)
                          (db w)))
             (bump (bump w)))).
Proof.
  intros Hw Hname Hold Hfree g.
  destruct name as [|c rest]; [discriminate|].
  set (name := String c rest) in *.
  pose proof (find_taken (db w) u name) as Htaken.
  unfold usersData.updateUserProfile.
  cbn [objectIdSchema_parse bind ret usersData.up_username usersData.up_email].
  unfold name at 1 2. cbn [usersData.truthy negb andb]. fold name.
  unfold usernameSchema_parse. rewrite Hname. cbn [bind ret].
  rewrite !run_bind. rewrite run_query by answers Hw.
  unfold Collection.findOne at 1.
  destruct (find (fun x => String.eqb (User.username x) name
                           && negb (User._id x =? u)) (users (db w)));
    [contradiction|].
  cbn [run ret bind]. rewrite run_bind, run_newDate.
  rewrite run_bind, run_statement by answers Hw.
  cbn [fst snd]. unfold Collection.findOne. wsimpl. rewrite Hold.
  cbn [option_map]. subst g. subst name. cbv iota.
  rewrite run_bind, run_statement by answers Hw.
  cbn [fst snd run ret]. wsimpl. reflexivity.
Qed.

Lemma find_renamed (u : ObjectId) (name : string) (l : list User.t) (old : User.t) :
  find (fun x => User._id x =? u) l = Some old ->
  (forall x, In x l -> User.username x = name -> User._id x = u) ->
  find (fun x => String.eqb (User.username x) name)
       (map (fun x => if User._id x =? u
                      then User.mk (User._id x) name (User.email x) else x) l)
  = Some (User.mk (User._id old) name (User.email old)).
Proof.
  induction l as [|x r IH]; [discriminate|]. cbn. intros Hold Hfree.
  destruct (User._id x =? u) eqn:E.
  - inversion Hold; subst. cbn. rewrite String.eqb_refl. reflexivity.
  - replace (String.eqb (User.username x) name) with false.
    + apply IH; [exact Hold|]. intros y Hy. apply Hfree. right. exact Hy.
    + symmetry. apply String.eqb_neq. intros Hn.
      apply Nat.eqb_neq in E. apply E. apply Hfree; [left; reflexivity|exact Hn].
Qed.

Lemma find_old_name (u : ObjectId) (name : string) (l : list User.t) (old : User.t) :
  NoDup (map User.username l) ->
  In old l -> User._id old = u -> User.username old <> name ->
  find (fun x => String.eqb (User.username x) (User.username old))
       (map (fun x => if User._id x =? u
                      then User.mk (User._id x) name (User.email x) else x) l)
  = None.
Proof.
  intros Hnd Hin Hid Hne.
  destruct (find _ _) as [y|] eqn:E; [|reflexivity]. exfalso.
  apply find_some in E. destruct E as [Hy Hn]. apply String.eqb_eq in Hn.
  apply in_map_iff in Hy. destruct Hy as [x [Hx Hxl]].
  destruct (User._id x =? u) eqn:Ex; subst y.
  - cbn in Hn. congruence.
  - assert (x = old).
    { clear - Hnd Hin Hxl Hn. induction l as [|z r IH]; [destruct Hin|].
      inversion Hnd as [|? ? Hz Hr]; subst.
      destruct Hin as [->|Hin], Hxl as [->|Hxl]; auto.
      - exfalso. apply Hz. apply in_map_iff. exists x. auto.
      - exfalso. apply Hz. apply in_map_iff. exists old. auto. }
    subst x. apply Nat.eqb_neq in Ex. contradiction.
Qed.

(** X14. After updateUserProfile has given a user a new username, the lookups
    agree with it: getUserByUsername finds the user under the new name and,
    the usernames being unique, finds nobody under the old one, and
    getUserById answers with the renamed document. A name that does not
    pass the username schema (3 to 30 letters, digits, underscores and
    hyphens) is a ZodError, thrown before the database is called. *)
Theorem renamed_user_found_by_new_name
    (emailSchema_parse : string -> option string)
    (w : World) (u : ObjectId) (name : string) (old : User.t) :
  faults w = [] -> usernameSchema_ok name = true ->
  NoDup (map User._id (users (db w))) ->
  NoDup (map User.username (users (db w))) ->
  find (fun x => User._id x =? u) (users (db w)) = Some old ->
  ~ username_taken (db w) u name ->
  let w' := snd (run (usersData.updateUserProfile emailSchema_parse (WellFormed u)
                        (usersData.mkProfileUpdates (Some name) None)) w) in
  let renamed := User.mk u name (User.email old) in
  fst (run (usersData.getUserByUsername name) w') = Ok (Some renamed)
  /\ fst (run (usersData.getUserById (WellFormed u)) w') = Ok (Some renamed)
  /\ (User.username old <> name ->
      usernameSchema_ok (User.username old) = true ->
      fst (run (usersData.getUserByUsername (User.username old)) w') = Ok None)
  /\ (forall bad, usernameSchema_ok bad = false ->
        run (usersData.getUserByUsername bad) w' = (Err ZodError, w')).
Proof.
  intros Hw Hname Hnd Hun Hold Hfree w' renamed. subst w'.
  rewrite (@run_updateUserProfile_username emailSchema_parse w u name old
             Hw Hname Hold Hfree).
  cbn [snd].
  assert (Hid : User._id old = u)
    by (apply find_some in Hold; destruct Hold as [_ H]; apply Nat.eqb_eq, H).
  assert (Hin : In old (users (db w)))
    by (apply find_some in Hold; tauto).
  pose proof (find_taken (db w) u name) as Htaken.
  destruct (find (fun x => String.eqb (User.username x) name
                           && negb (User._id x =? u)) (users (db w)));
    [contradiction|].
  assert (Husers :
    Collection.updateOne (fun x => User._id x =? u)
      (usersData.apply_updates (usersData.mkProfileUpdates (Some name) None))
      (users (db w))
    = map (fun x => if User._id x =? u
                    then User.mk (User._id x) name (User.email x) else x)
          (users (db w))).
  { rewrite (@updateOne_by_key _ User._id u
               (usersData.apply_updates
                  (usersData.mkProfileUpdates (Some name) None)) _ Hnd).
    reflexivity. }
  split; [|split; [|split]].
  - unfold usersData.getUserByUsername, usernameSchema_parse. rewrite Hname.
    cbn [bind ret]. rewrite run_query by answers Hw.
    cbn [fst]. wsimpl. unfold Collection.findOne. rewrite Husers.
    rewrite (@find_renamed u name _ old Hold Htaken).
    subst renamed. do 2 f_equal. f_equal. exact Hid.
  - unfold usersData.getUserById. cbn [objectIdSchema_parse bind ret].
    rewrite run_query by answers Hw.
    cbn [fst]. wsimpl. unfold Collection.findOne.
    rewrite (@find_updated _ User._id u
               (usersData.apply_updates
                  (usersData.mkProfileUpdates (Some name) None))
               (fun x => eq_refl)).
    rewrite Hold. cbn [option_map]. unfold usersData.apply_updates.
    cbn. subst renamed. do 2 f_equal. f_equal. exact Hid.
  - intros Hne Hok.
    unfold usersData.getUserByUsername, usernameSchema_parse. rewrite Hok.
    cbn [bind ret]. rewrite run_query by answers Hw.
    cbn [fst]. wsimpl. unfold Collection.findOne. rewrite Husers.
    rewrite (@find_old_name u name _ old Hun Hin Hid Hne). reflexivity.
  - intros bad Hbad.
    unfold usersData.getUserByUsername, usernameSchema_parse. rewrite Hbad.
    reflexivity.
Qed.

Lemma renamed_user_found_by_new_name_witness :
  fst (run (usersData.getUserByUsername "alicia")
           (snd (run (usersData.updateUserProfile no_email (WellFormed 1)
                        (usersData.mkProfileUpdates (Some "alicia"%string) None))
                     alice_world)))
  = Ok (Some (User.mk 1 "alicia" "alice@example.com")).
Proof.
  apply (@renamed_user_found_by_new_name no_email alice_world 1 "alicia"
           (User.mk 1 "alice" "alice@example.com") eq_refl eq_refl).
  - repeat constructor; cbn; intuition discriminate.
  - repeat constructor; cbn; intuition discriminate.
  - reflexivity.
  - intros [x [[<-|[<-|[]]] [Hn _]]]; discriminate.
Defined.

(** * Creating a user share for a pair that has one *)


Lemma find_appended (A : Type) (p : A -> bool) (l : list A) (x : A) :
  find p (l ++ [x])
  = match find p l with
    | Some y => Some y
    | None => if p x then Some x else None
    end.
Proof.
  induction l as [|y r IH]; cbn; [reflexivity|].
  destruct (p y); [reflexivity|exact IH].
Qed.

Lemma count_after_deactivation (f r : ObjectId) (t : Date)
      (l : list UserShare.t) (e : UserShare.t) :
  find (userSharesData.has_id (UserShare._id e)) l = Some e ->
  count_active f r
    (Collection.updateOne (userSharesData.has_id (UserShare._id e))
                          (UserShare.set_isActive false t) l)
  = count_active f r l - (if userSharesData.active_for f r e then 1 else 0).
Proof.
  unfold count_active. induction l as [|x l IH]; cbn; [discriminate|].
  destruct (userSharesData.has_id (UserShare._id e) x) eqn:E.
  - intros H. inversion H; subst x. cbn.
    replace (userSharesData.active_for f r (UserShare.set_isActive false t e))
      with false
      by (unfold userSharesData.active_for; cbn; rewrite andb_false_r;
          reflexivity).
    destruct (userSharesData.active_for f r e); cbn; lia.
  - intros H. cbn. specialize (IH H).
    destruct (userSharesData.active_for f r x); cbn; [|exact IH].
    rewrite IH.
    destruct (userSharesData.active_for f r e) eqn:Ee; [|lia].
    assert (Hin : In e (filter (userSharesData.active_for f r) l)).
    { apply filter_In. split; [|exact Ee]. apply find_some in H. apply H. }
    destruct (filter (userSharesData.active_for f r) l); [destruct Hin|].
    cbn. lia.
Qed.

Lemma active_for_pair (f r : ObjectId) (s : UserShare.t) :
  userSharesData.active_for f r s = true
  <-> UserShare.fileId s = f /\ UserShare.recipientId s = r
      /\ UserShare.isActive s = true.
Proof.
  unfold userSharesData.active_for.
  rewrite !andb_true_iff, !Nat.eqb_eq. tauto.
Qed.

Lemma active_for_other_pair (f r f' r' : ObjectId) (s : UserShare.t) :
  userSharesData.active_for f r s = true -> f' <> f \/ r' <> r ->
  userSharesData.active_for f' r' s = false.
Proof.
  intros H Hne. apply active_for_pair in H. destruct H as [H1 [H2 _]].
  destruct (userSharesData.active_for f' r' s) eqn:E; [|reflexivity].
  apply active_for_pair in E. destruct E as [E1 [E2 _]].
  destruct Hne as [Hne|Hne]; congruence.
Qed.

(** What one call of createUserShare does, step by step. *)
Lemma createUserShare_steps (w : World)
      (data : userSharesData.CreateUserShareInput)
      (v : userSharesData.ValidatedUserShare) :
  faults w = [] ->
  userSharesData.createUserShareSchema_parse data = ret v ->
  let prior := find (userSharesData.active_for (userSharesData.v_fileId v)
                                               (userSharesData.v_recipientId v))
                    (userShares (db w)) in
  let deactivated :=
    match prior with
    | Some e => Collection.updateOne (userSharesData.has_id (UserShare._id e))
                  (UserShare.set_isActive false (now w)) (userShares (db w))
    | None => userShares (db w)
    end in
  let share := built_share v (nextId w) (now w) in
  exists w1 w2,
    run (userSharesData.deactivateExisting v) w = (Ok tt, w1)
    /\ run (userSharesData.insertNew v) w1 = (Ok share, w2)
    /\ run (userSharesData.createUserShare data) w = (Ok share, w2)
    /\ userShares (db w1) = deactivated
    /\ userShares (db w2) = deactivated ++ [share]
    /\ faults w2 = [] /\ nextId w2 = S (nextId w)
    /\ users (db w2) = users (db w) /\ files (db w2) = files (db w)
    /\ shareLinks (db w2) = shareLinks (db w)
    /\ auditLogs (db w2) = auditLogs (db w).
Proof.
  intros Hw Hv prior deactivated share.
  destruct (@deactivateExisting_run v w Hw) as [w1 [H1 [Hw1 [Hn1 [Ht1 Hus1]]]]].
  pose proof (@deactivateExisting_frame v w Hw) as Hframe.
  rewrite H1 in Hframe. cbn [snd] in Hframe.
  destruct Hframe as [Hu [Hf [Hl Ha]]].
  pose proof (@insertNew_share v w1 Hw1) as H2. cbv zeta in H2.
  rewrite Hn1, Ht1 in H2. fold (built_share v (nextId w) (now w)) in H2.
  fold share in H2.
  exists w1. eexists. split; [exact H1|]. split; [exact H2|].
  split.
  { unfold userSharesData.createUserShare. rewrite Hv. cbn [bind ret].
    rewrite run_bind, H1. exact H2. }
  wsimpl. unfold Collection.insertOne. rewrite Hus1.
  split; [reflexivity|]. split; [reflexivity|]. split; [exact Hw1|].
  split; [rewrite Hn1; reflexivity|].
  repeat split; assumption.
Qed.

Lemma ids_in_order_keys (next : ObjectId) (l l' : list UserShare.t) :
  map UserShare._id l' = map UserShare._id l ->
  ids_in_order next l -> ids_in_order next l'.
Proof.
  intros Hk [Hnd Hlt]. split; [rewrite Hk; exact Hnd|].
  apply (proj1 (Forall_map UserShare._id (fun i => i < next) l')).
  rewrite Hk.
  apply (proj2 (Forall_map UserShare._id (fun i => i < next) l)). exact Hlt.
Qed.

Section OneCreation.
Variable w : World.
Variable data : userSharesData.CreateUserShareInput.
Variable v : userSharesData.ValidatedUserShare.
Hypothesis Hw : faults w = [].
Hypothesis Hv : userSharesData.createUserShareSchema_parse data = ret v.
Hypothesis Hids : ids_in_order (nextId w) (userShares (db w)).

Let fileId := userSharesData.v_fileId v.
Let recipientId := userSharesData.v_recipientId v.
Let before := userShares (db w).
Let prior := find (userSharesData.active_for fileId recipientId) before.
Let halfway := run (userSharesData.deactivateExisting v) w.
Let final := run (userSharesData.createUserShare data) w.
Let share := built_share v (nextId w) (now w).
Let off := UserShare.set_isActive false (now w).

Lemma creation_in_two_steps :
  fst halfway = Ok tt
  /\ final = run (userSharesData.insertNew v) (snd halfway)
  /\ fst final = Ok share
  /\ userShares (db (snd halfway))
     = match prior with
       | Some e => Collection.updateOne
                     (userSharesData.has_id (UserShare._id e)) off before
       | None => before
       end
  /\ userShares (db (snd final)) = userShares (db (snd halfway)) ++ [share]
  /\ faults (snd final) = [] /\ nextId (snd final) = S (nextId w)
  /\ users (db (snd final)) = users (db w)
  /\ files (db (snd final)) = files (db w)
  /\ shareLinks (db (snd final)) = shareLinks (db w)
  /\ auditLogs (db (snd final)) = auditLogs (db w).
Proof.
  destruct (@createUserShare_steps w data v Hw Hv)
    as [w1 [w2 [H1 [H2 [H3 [H4 [H5 H6]]]]]]].
  subst halfway final. rewrite H1, H3. cbn [fst snd]. rewrite H2, H5, H4.
  repeat split; try reflexivity; apply H6.
Qed.

Lemma prior_is_stored (e : UserShare.t) :
  prior = Some e ->
  In e before /\ userSharesData.active_for fileId recipientId e = true
  /\ find (userSharesData.has_id (UserShare._id e)) before = Some e.
Proof.
  intros H. apply find_some in H. destruct H as [Hin Hact].
  split; [exact Hin|]. split; [exact Hact|].
  apply (@find_by_id before e (proj1 Hids) Hin).
Qed.

Lemma halfway_keys :
  map UserShare._id (userShares (db (snd halfway))) = map UserShare._id before.
Proof.
  destruct creation_in_two_steps as [_ [_ [_ [H _]]]]. rewrite H.
  destruct prior as [e|]; [|reflexivity].
  apply (@updateOne_keys _ UserShare._id off (fun x => eq_refl)).
Qed.

Lemma halfway_count (f r : ObjectId) :
  count_active f r (userShares (db (snd halfway)))
  = count_active f r before
    - (if (f =? fileId) && (r =? recipientId)
       then match prior with Some _ => 1 | None => 0 end
       else 0).
Proof.
  destruct creation_in_two_steps as [_ [_ [_ [H _]]]]. rewrite H.
  destruct prior as [e|] eqn:Hp.
  - destruct (prior_is_stored Hp) as [_ [Hact Hfind]]. unfold off.
    rewrite (@count_after_deactivation f r (now w) before e Hfind).
    destruct ((f =? fileId) && (r =? recipientId)) eqn:E.
    + apply andb_true_iff in E. destruct E as [E1 E2].
      apply Nat.eqb_eq in E1. apply Nat.eqb_eq in E2. subst f r.
      rewrite Hact. reflexivity.
    + rewrite (@active_for_other_pair fileId recipientId f r e Hact);
        [reflexivity|].
      apply andb_false_iff in E.
      destruct E as [E|E]; apply Nat.eqb_neq in E; auto.
  - destruct ((f =? fileId) && (r =? recipientId)); lia.
Qed.

Lemma prior_counted :
  match prior with
  | Some _ => 1 <= count_active fileId recipientId before
  | None => count_active fileId recipientId before = 0
  end.
Proof.
  unfold count_active. destruct prior as [e|] eqn:Hp.
  - destruct (prior_is_stored Hp) as [Hin [Hact _]].
    assert (H : In e (filter (userSharesData.active_for fileId recipientId)
                             before))
      by (apply filter_In; split; assumption).
    destruct (filter _ before); [destruct H|cbn; lia].
  - subst prior. rewrite (find_none_filter _ _ Hp). reflexivity.
Qed.

Lemma share_of_pair (f r : ObjectId) :
  userSharesData.active_for f r share
  = (f =? fileId) && (r =? recipientId).
Proof.
  unfold userSharesData.active_for, share, built_share. cbn.
  rewrite andb_true_r, (Nat.eqb_sym fileId), (Nat.eqb_sym recipientId).
  reflexivity.
Qed.

Lemma final_count (f r : ObjectId) :
  count_active f r (userShares (db (snd final)))
  = if (f =? fileId) && (r =? recipientId)
    then Nat.max 1 (count_active f r before)
    else count_active f r before.
Proof.
  destruct creation_in_two_steps as [_ [_ [_ [_ [H _]]]]]. rewrite H.
  rewrite count_active_new, share_of_pair, halfway_count.
  pose proof prior_counted as Hc.
  destruct ((f =? fileId) && (r =? recipientId)) eqn:E; [|lia].
  apply andb_true_iff in E. destruct E as [E1 E2].
  apply Nat.eqb_eq in E1. apply Nat.eqb_eq in E2. subst f r.
  destruct prior; lia.
Qed.

Lemma createUserShare_effect :
  (fst halfway = Ok tt
   /\ final = run (userSharesData.insertNew v) (snd halfway)
   /\ fst final = Ok share)
  /\ (map UserShare._id (userShares (db (snd halfway)))
      = map UserShare._id before
      /\ count_active fileId recipientId (userShares (db (snd halfway)))
         = count_active fileId recipientId before - 1
      /\ forall e, prior = Some e ->
           In e before
           /\ userSharesData.active_for fileId recipientId e = true
           /\ stored_share (db (snd halfway)) (UserShare._id e) = Some (off e)
           /\ stored_share (db (snd final)) (UserShare._id e) = Some (off e))
  /\ (userShares (db (snd final)) = userShares (db (snd halfway)) ++ [share]
      /\ stored_share (db (snd final)) (nextId w) = Some share)
  /\ ((forall id, id <> nextId w ->
         (forall e, prior = Some e -> id <> UserShare._id e) ->
         stored_share (db (snd final)) id = stored_share (db w) id)
      /\ users (db (snd final)) = users (db w)
      /\ files (db (snd final)) = files (db w)
      /\ shareLinks (db (snd final)) = shareLinks (db w)
      /\ auditLogs (db (snd final)) = auditLogs (db w))
  /\ (count_active fileId recipientId (userShares (db (snd final)))
      = Nat.max 1 (count_active fileId recipientId before)
      /\ forall f r, f <> fileId \/ r <> recipientId ->
           count_active f r (userShares (db (snd final)))
           = count_active f r before)
  /\ (at_most_one_active before ->
      count_active fileId recipientId (userShares (db (snd halfway))) = 0
      /\ filter (userSharesData.active_for fileId recipientId)
                (userShares (db (snd final))) = [share]
      /\ at_most_one_active (userShares (db (snd final))))
  /\ faults (snd final) = []
  /\ ids_in_order (nextId (snd final)) (userShares (db (snd final))).
Proof.
  destruct creation_in_two_steps
    as [H1 [H2 [H3 [Hhalf [Hfin [Hf [Hn [Hu [Hfi [Hl Ha]]]]]]]]]].
  assert (Hhalf_ids : ids_in_order (nextId w) (userShares (db (snd halfway))))
    by (apply (@ids_in_order_keys (nextId w) before _ halfway_keys Hids)).
  assert (Hprior : forall e, prior = Some e ->
            stored_share (db (snd halfway)) (UserShare._id e) = Some (off e)).
  { intros e He. destruct (prior_is_stored He) as [_ [_ Hfind]].
    unfold stored_share. rewrite Hhalf, He.
    unfold userSharesData.has_id in *.
    rewrite (@find_updated _ UserShare._id (UserShare._id e) off
               (fun x => eq_refl)).
    rewrite Hfind. reflexivity. }
  split; [repeat split; assumption|].
  split.
  { split; [apply halfway_keys|]. split.
    - rewrite halfway_count, !Nat.eqb_refl. cbn [andb].
      pose proof prior_counted as Hc. destruct prior; lia.
    - intros e He. destruct (prior_is_stored He) as [Hin [Hact _]].
      split; [exact Hin|]. split; [exact Hact|].
      split; [apply Hprior, He|].
      unfold stored_share. rewrite Hfin, find_appended.
      fold (stored_share (db (snd halfway)) (UserShare._id e)).
      rewrite (Hprior e He). reflexivity. }
  split.
  { split; [exact Hfin|]. unfold stored_share. rewrite Hfin.
    apply find_fresh; [apply Hhalf_ids|reflexivity]. }
  split.
  { split; [|repeat split; assumption].
    intros id Hnew Hold. unfold stored_share. rewrite Hfin, find_appended.
    assert (Hsame : find (fun s => UserShare._id s =? id)
                         (userShares (db (snd halfway)))
                    = find (fun s => UserShare._id s =? id) before).
    { rewrite Hhalf. destruct prior as [e|]; [|reflexivity].
      unfold userSharesData.has_id.
      apply (@find_not_updated _ UserShare._id (UserShare._id e) off
               (fun x => eq_refl) id before (Hold e eq_refl)). }
    rewrite Hsame. fold before.
    destruct (find (fun s => UserShare._id s =? id) before); [reflexivity|].
    unfold share, built_share. cbn.
    replace (nextId w =? id) with false; [reflexivity|].
    symmetry. apply Nat.eqb_neq. congruence. }
  split.
  { split.
    - rewrite final_count, !Nat.eqb_refl. reflexivity.
    - intros f r Hne. rewrite final_count.
      replace ((f =? fileId) && (r =? recipientId)) with false; [reflexivity|].
      symmetry. apply andb_false_iff.
      destruct Hne as [Hne|Hne]; [left|right]; apply Nat.eqb_neq; exact Hne. }
  split.
  { intros Hone.
    assert (Hzero : count_active fileId recipientId
                      (userShares (db (snd halfway))) = 0).
    { rewrite halfway_count, !Nat.eqb_refl. cbn [andb].
      pose proof prior_counted as Hc.
      pose proof (Hone fileId recipientId) as Hle. fold before in Hle.
      destruct prior; lia. }
    split; [exact Hzero|]. split.
    - rewrite Hfin, filter_app. unfold count_active in Hzero.
      apply length_zero_iff_nil in Hzero. rewrite Hzero. cbn [filter app].
      rewrite share_of_pair, !Nat.eqb_refl. reflexivity.
    - intros f r. rewrite final_count.
      pose proof (Hone f r) as Hle. fold before in Hle.
      destruct ((f =? fileId) && (r =? recipientId)); lia. }
  split; [exact Hf|].
  rewrite Hn, Hfin. apply ids_in_order_new; [exact Hhalf_ids|reflexivity].
Qed.
End OneCreation.

(** Creations one after the other. *)
Lemma creations_in_a_row (datas : list userSharesData.CreateUserShareInput) :
  forall w : World,
    faults w = [] -> ids_in_order (nextId w) (userShares (db w)) ->
    at_most_one_active (userShares (db w)) ->
    at_most_one_active
      (userShares (db (snd (run (mapM userSharesData.createUserShare datas)
                                w)))).
Proof.
  induction datas as [|data datas IH]; intros w Hw Hids Hone; [exact Hone|].
  cbn [mapM]. rewrite run_bind.
  destruct (createUserShareSchema_verdict data) as [[_ Hv]|[_ [v Hv]]].
  - unfold userSharesData.createUserShare at 1. rewrite Hv. cbn. exact Hone.
  - destruct (@createUserShare_effect w data v Hw Hv Hids)
      as [[_ [_ Hok]] [_ [_ [_ [_ [Hinv [Hf Hids']]]]]]].
    destruct (run (userSharesData.createUserShare data) w) as [res w2] eqn:Hrun.
    cbn [fst snd] in *. subst res.
    destruct (Hinv Hone) as [_ [_ Hone2]].
    rewrite run_bind.
    specialize (IH w2 Hf Hids' Hone2).
    destruct (run (mapM userSharesData.createUserShare datas) w2)
      as [[ys|e] w3]; exact IH.
Qed.

(** C4, as the code has it. One call of createUserShare, in a collection with
    unique _id values, is the deactivation followed by the insertion. The
    first active share of the pair, if there is one, is switched off before
    anything is inserted: halfway the collection holds the same records and
    the pair has one active share less. Then the new share is appended:
    active, unused, with a fresh _id. Every other share is as it was, and so
    are the other collections. Afterwards the pair has max(1, n) active
    shares where it had n before, and every other pair as many as before:
    where every pair had at most one active share, the new share is the only
    active one of its pair and every pair still has at most one. So
    creations that run one after the other, each finishing before the next
    starts, keep every pair at one active share at most. *)
Theorem createUserShare_one_active :
  (forall (w : World) (data : userSharesData.CreateUserShareInput)
          (v : userSharesData.ValidatedUserShare),
      faults w = [] ->
      userSharesData.createUserShareSchema_parse data = ret v ->
      ids_in_order (nextId w) (userShares (db w)) ->
      let fileId := userSharesData.v_fileId v in
      let recipientId := userSharesData.v_recipientId v in
      let before := userShares (db w) in
      let prior := find (userSharesData.active_for fileId recipientId) before in
      let halfway := run (userSharesData.deactivateExisting v) w in
      let final := run (userSharesData.createUserShare data) w in
      let share := built_share v (nextId w) (now w) in
      let off := UserShare.set_isActive false (now w) in
      (fst halfway = Ok tt
       /\ final = run (userSharesData.insertNew v) (snd halfway)
       /\ fst final = Ok share)
      /\ (map UserShare._id (userShares (db (snd halfway)))
          = map UserShare._id before
          /\ count_active fileId recipientId (userShares (db (snd halfway)))
             = count_active fileId recipientId before - 1
          /\ forall e, prior = Some e ->
               In e before
               /\ userSharesData.active_for fileId recipientId e = true
               /\ stored_share (db (snd halfway)) (UserShare._id e)
                  = Some (off e)
               /\ stored_share (db (snd final)) (UserShare._id e)
                  = Some (off e))
      /\ (userShares (db (snd final))
          = userShares (db (snd halfway)) ++ [share]
          /\ stored_share (db (snd final)) (nextId w) = Some share)
      /\ ((forall id, id <> nextId w ->
             (forall e, prior = Some e -> id <> UserShare._id e) ->
             stored_share (db (snd final)) id = stored_share (db w) id)
          /\ users (db (snd final)) = users (db w)
          /\ files (db (snd final)) = files (db w)
          /\ shareLinks (db (snd final)) = shareLinks (db w)
          /\ auditLogs (db (snd final)) = auditLogs (db w))
      /\ (count_active fileId recipientId (userShares (db (snd final)))
          = Nat.max 1 (count_active fileId recipientId before)
          /\ forall f r, f <> fileId \/ r <> recipientId ->
               count_active f r (userShares (db (snd final)))
               = count_active f r before)
      /\ (at_most_one_active before ->
          count_active fileId recipientId (userShares (db (snd halfway))) = 0
          /\ filter (userSharesData.active_for fileId recipientId)
                    (userShares (db (snd final))) = [share]
          /\ at_most_one_active (userShares (db (snd final))))
      /\ faults (snd final) = []
      /\ ids_in_order (nextId (snd final)) (userShares (db (snd final))))
  /\ (forall (w : World) (datas : list userSharesData.CreateUserShareInput),
        faults w = [] -> ids_in_order (nextId w) (userShares (db w)) ->
        at_most_one_active (userShares (db w)) ->
        at_most_one_active
          (userShares
             (db (snd (run (mapM userSharesData.createUserShare datas) w))))).
Proof.
  split.
  - intros w data v Hw Hv Hids.
    exact (@createUserShare_effect w data v Hw Hv Hids).
  - intros w datas Hw Hids Hone.
    exact (@creations_in_a_row datas w Hw Hids Hone).
Qed.

Lemma createUserShare_one_active_witness :
  let after :=
    db (snd (run (userSharesData.createUserShare sample_input) sample_world)) in
  count_active 1 20 (userShares after) = 1
  /\ stored_share after 7
     = Some (UserShare.set_isActive false 1000%Z sample_share)
  /\ stored_share after 50
     = Some (UserShare.mk 50 1 10 20 None (Some 5%Z) 0%Z true 1000%Z 1000%Z)
  /\ at_most_one_active
       (userShares
          (db (snd (run (mapM userSharesData.createUserShare
                              [sample_input; sample_input]) sample_world)))).
Proof.
  intros after. subst after.
  assert (H1 : at_most_one_active (userShares (db sample_world))).
  { intros f r. unfold count_active. cbn.
    destruct (userSharesData.active_for f r sample_share); cbn; lia. }
  assert (H2 : ids_in_order (nextId sample_world) (userShares (db sample_world))).
  { split; cbn.
    - constructor; [intros []|constructor].
    - constructor; [cbn; lia|constructor]. }
  destruct (proj1 createUserShare_one_active sample_world sample_input
              (userSharesData.mkValidated 1 10 20 None (Some 5%Z))
              eq_refl eq_refl H2)
    as [_ [[_ [_ Hprior]] [[_ Hnew] [_ [[Hcount _] _]]]]].
  destruct (Hprior sample_share eq_refl) as [_ [_ [_ Hoff]]].
  split; [exact Hcount|]. split; [exact Hoff|].
  split; [exact Hnew|].
  apply (proj2 createUserShare_one_active sample_world
           [sample_input; sample_input] eq_refl H2 H1).
Defined.

(** C4, counterexample. The pair (file 1, user 20) has one active share. Two
    creations for the pair are in flight and both look the active share up
    before either writes: both switch the same record off, both insert, and
    the pair ends with two active shares. No unique index and no transaction
    stands in the way. *)
Lemma two_creations_of_one_pair :
  let out := interleave both_look_first
               (repeat (userSharesData.createUserShare sample_input) 2)
               sample_world in
  at_most_one_active (userShares (db sample_world))
  /\ map UserShare._id (userShares (db (snd out))) = [7; 50; 51]
  /\ map UserShare.isActive (userShares (db (snd out))) = [false; true; true]
  /\ map (fun s => (UserShare.fileId s, UserShare.recipientId s))
         (userShares (db (snd out))) = [(1, 20); (1, 20); (1, 20)]
  /\ count_active 1 20 (userShares (db (snd out))) = 2
  /\ ~ at_most_one_active (userShares (db (snd out)))
  /\ ~ one_active_in_any_order sample_world sample_input.
Proof.
  split.
  { intros f r. unfold count_active. cbn.
    destruct (userSharesData.active_for f r sample_share); cbn; lia. }
  split; [vm_compute; reflexivity|]. split; [vm_compute; reflexivity|].
  split; [vm_compute; reflexivity|]. split; [vm_compute; reflexivity|].
  split.
  - intros H. specialize (H 1 20). vm_compute in H. lia.
  - intros H. specialize (H both_look_first 2 1 20). vm_compute in H. lia.
Qed.
